(** * PCIe simulator: transfer engine, descriptor ring and statistics

    A shallow embedding of the transfer path of the three backends
    (kernel/dma.c, sim/linux_sim.c, sim/windows_sim.c) and of the
    descriptor ring of kernel/ringbuffer.c, followed by the properties
    that the design document states about them.  The later sections
    add the character device, the register window of BAR0 and the test
    configuration of utils/config.c, with the properties that their code
    shows.

    Conventions.  C integers are [Z] with the wrap-around of their type
    written out ([wrap64] for u64/size_t, [wrap32] for u32/unsigned int,
    [int32] for int).  A pointer that the code tests against NULL is an
    [option] (or a [bool] when only the test matters).  Clock readings,
    random draws and allocator outcomes are arguments of the functions
    that consume them. *)

From Stdlib Require Import ZArith Lia List Bool.
From Stdlib Require Floats.SpecFloat.
From stdpp Require Import base list strings pretty.

Open Scope Z_scope.

(** ** Machine arithmetic *)

Definition wrap64 (x : Z) : Z := x mod 2 ^ 64.
Definition wrap32 (x : Z) : Z := x mod 2 ^ 32.
(** value of type [int] holding [x] (two's complement) *)
Definition int32 (x : Z) : Z := (x + 2 ^ 31) mod 2 ^ 32 - 2 ^ 31.
Definition UINT64_MAX : Z := 2 ^ 64 - 1.

(** errno values of the kernel paths *)
Definition ENOMEM : Z := 12.
Definition EFAULT : Z := 14.
Definition EINVAL : Z := 22.
Definition ENOSPC : Z := 28.
Definition ENODATA : Z := 61.

(** ** Statistics block

    [struct pcie_sim_stats]: kernel/common.h and lib/types.h declare the
    same six 64-bit fields in the same order. *)
Record pcie_sim_stats := mk_stats {
  total_transfers : Z;
  total_bytes : Z;
  total_errors : Z;
  avg_latency_ns : Z;
  min_latency_ns : Z;
  max_latency_ns : Z
}.

(** [memset(&stats, 0, sizeof(stats))] *)
Definition zero_stats : pcie_sim_stats := mk_stats 0 0 0 0 0 0.

(** ** kernel/ringbuffer.c *)
Module Ring.

Definition RING_SIZE : Z := 256.

Record pcie_sim_ring_desc := mk_desc {
  buffer_addr : Z;
  length : Z;
  flags : Z;
  timestamp : Z;
  status : Z;
  reserved : Z
}.

Record pcie_sim_ring := mk_ring {
  descriptors : list pcie_sim_ring_desc;
  size : Z;
  head : Z;
  tail : Z;
  count : Z;
  submissions : Z;
  completions : Z;
  overruns : Z
}.

Definition zero_desc : pcie_sim_ring_desc := mk_desc 0 0 0 0 0 0.

(** [init_ring]: [alloc_ok] is the outcome of [dma_alloc_coherent]; a
    NULL descriptor array is the empty list. *)
Definition init_ring (alloc_ok : bool) (ring : pcie_sim_ring)
  : Z * pcie_sim_ring :=
  if alloc_ok then
    (0, mk_ring (replicate (Z.to_nat RING_SIZE) zero_desc) RING_SIZE 0 0 0 0 0 0)
  else
    (- ENOMEM, mk_ring [] RING_SIZE 0 0 0 0 0 0).

(** [pcie_sim_ring_count] *)
Definition pcie_sim_ring_count (ring : pcie_sim_ring) : Z :=
  wrap32 (count ring).

(** [pcie_sim_ring_space] *)
Definition pcie_sim_ring_space (ring : pcie_sim_ring) : Z :=
  wrap32 (size ring - count ring).

(** the five assignments to [ring->descriptors[ring->head]] *)
Definition fill_desc (buffer_addr length flags now : Z)
    (d : pcie_sim_ring_desc) : pcie_sim_ring_desc :=
  mk_desc buffer_addr length flags now 0 (reserved d).

(** [pcie_sim_ring_submit]; [now] is the reading of [ktime_get_ns()].
    The test compares the [int] count with the [u32] size, so the count
    is converted to unsigned. *)
Definition pcie_sim_ring_submit (ring : pcie_sim_ring)
    (buffer_addr length flags now : Z) : Z * pcie_sim_ring :=
  if wrap32 (count ring) >=? size ring then
    (- ENOSPC,
     mk_ring (descriptors ring) (size ring) (head ring) (tail ring)
             (count ring) (submissions ring) (completions ring)
             (wrap64 (overruns ring + 1)))
  else
    let next_head := wrap32 (head ring + 1) mod size ring in
    (0,
     mk_ring (alter (fill_desc buffer_addr length flags now)
                    (Z.to_nat (head ring)) (descriptors ring))
             (size ring) next_head (tail ring)
             (int32 (count ring + 1))
             (wrap64 (submissions ring + 1)) (completions ring)
             (overruns ring)).

(** [desc->status = status] *)
Definition set_status (st : Z) (d : pcie_sim_ring_desc) : pcie_sim_ring_desc :=
  mk_desc (buffer_addr d) (length d) (flags d) (timestamp d) st (reserved d).

(** what [pcie_sim_ring_complete] hands back: the return code and the
    values stored through [length] and [latency_ns] (None for a NULL
    pointer, and on the error path, where nothing is stored) *)
Record completion := mk_completion {
  c_ret : Z;
  c_length : option Z;
  c_latency_ns : option Z
}.

(** [pcie_sim_ring_complete]; [length_ptr] and [latency_ptr] say whether
    the two out-pointers are non-NULL, [now] is [ktime_get_ns()]. *)
Definition pcie_sim_ring_complete (ring : pcie_sim_ring)
    (length_ptr latency_ptr : bool) (st now : Z)
  : completion * pcie_sim_ring :=
  if count ring =? 0 then
    (mk_completion (- ENODATA) None None, ring)
  else
    let desc := default zero_desc (descriptors ring !! Z.to_nat (tail ring)) in
    (mk_completion 0
       (if length_ptr then Some (length desc) else None)
       (if latency_ptr then Some (wrap64 (now - timestamp desc)) else None),
     mk_ring (alter (set_status st) (Z.to_nat (tail ring)) (descriptors ring))
             (size ring) (head ring)
             (wrap32 (tail ring + 1) mod size ring)
             (int32 (count ring - 1))
             (submissions ring) (wrap64 (completions ring + 1))
             (overruns ring)).

End Ring.

(** ** kernel/dma.c *)
Module Dma.

Definition MIN_TRANSFER_SIZE : Z := 1.
Definition MAX_TRANSFER_SIZE : Z := 1024 * 1024.

(** [struct pcie_sim_transfer_req].  [buffer] is the user pointer: [None]
    is NULL, [Some m] points at user memory of which the bytes [m] are
    accessible. *)
Record pcie_sim_transfer_req := mk_req {
  buffer : option (list Z);
  size : Z;
  direction : Z;
  latency_ns : Z
}.

(** [struct pcie_sim_device], without the handles of kernel objects
    (platform device, cdev, mutex, proc entries, BAR mapping). *)
Record pcie_sim_device := mk_device {
  stats : pcie_sim_stats;
  tx_ring : Ring.pcie_sim_ring;
  rx_ring : Ring.pcie_sim_ring;
  pending_interrupts : Z;
  dma_active : Z;
  simulate_errors : bool;
  fault_injection_rate : Z;
  error_scenario : Z;
  error_probability : Z;
  error_recovery_time_ms : Z;
  enabled : bool;
  device_id : Z
}.

Definition set_stats (dev : pcie_sim_device) (s : pcie_sim_stats)
  : pcie_sim_device :=
  mk_device s (tx_ring dev) (rx_ring dev) (pending_interrupts dev)
            (dma_active dev) (simulate_errors dev) (fault_injection_rate dev)
            (error_scenario dev) (error_probability dev)
            (error_recovery_time_ms dev) (enabled dev) (device_id dev).

(** [validate_transfer_request] *)
Definition validate_transfer_request (req : pcie_sim_transfer_req) : Z :=
  match buffer req with
  | None => - EINVAL
  | Some _ =>
      if (size req <? MIN_TRANSFER_SIZE) || (size req >? MAX_TRANSFER_SIZE)
      then - EINVAL
      else if direction req >? 1 then - EINVAL
      else 0
  end.

(** [update_transfer_stats] *)
Definition update_transfer_stats (dev : pcie_sim_device)
    (req : pcie_sim_transfer_req) (latency : Z) (success : bool)
  : pcie_sim_device :=
  let s := stats dev in
  if success then
    let min' :=
      if (min_latency_ns s =? 0) || (latency <? min_latency_ns s)
      then latency else min_latency_ns s in
    let max' :=
      if latency >? max_latency_ns s then latency else max_latency_ns s in
    set_stats dev
      (mk_stats (wrap64 (total_transfers s + 1))
                (wrap64 (total_bytes s + size req))
                (total_errors s)
                (wrap64 (avg_latency_ns s + latency) / 2)
                min' max')
  else
    set_stats dev
      (mk_stats (total_transfers s) (total_bytes s)
                (wrap64 (total_errors s + 1))
                (avg_latency_ns s) (min_latency_ns s) (max_latency_ns s)).

(** [simulate_transfer_delay]: the delay in microseconds that the
    function sleeps for; [jitter_us] is the draw of
    [get_random_u32_below(20)]. *)
Definition simulate_transfer_delay (size jitter_us : Z) : Z :=
  let base_delay_us := 10 in
  let size_delay_us := wrap32 (size / 1024) in
  wrap32 (base_delay_us + size_delay_us + jitter_us).

(** the delay that [pcie_sim_dma_transfer] asks for in its two branches *)
Definition transfer_delay (req : pcie_sim_transfer_req) (jitter_us : Z) : Z :=
  if direction req =? 0
  then simulate_transfer_delay (size req) jitter_us
  else simulate_transfer_delay (size req) jitter_us.

(** [copy_from_user(kernel_buf, user, n)]: fails unless [n] bytes of user
    memory are accessible *)
Definition copy_from_user (user : list Z) (n : Z) : bool :=
  n <=? Z.of_nat (List.length user).

(** [copy_to_user(user, kernel_buf, n)]: the outcome and the user memory
    afterwards *)
Definition copy_to_user (user kernel_buf : list Z) (n : Z) : bool * list Z :=
  (n <=? Z.of_nat (List.length user),
   take (List.length user) (take (Z.to_nat n) kernel_buf)
     ++ drop (Z.to_nat n) user).

(** result of [pcie_sim_dma_transfer]: return code, device and request
    afterwards (the request carries the user buffer) *)
Record dma_result := mk_dma_result {
  r_ret : Z;
  r_dev : pcie_sim_device;
  r_req : pcie_sim_transfer_req
}.

Definition error_exit (dev : pcie_sim_device) (req : pcie_sim_transfer_req)
    (ret : Z) : dma_result :=
  mk_dma_result ret (update_transfer_stats dev req 0 false) req.

(** [pcie_sim_dma_transfer]; [alloc_ok] is the outcome of [kzalloc],
    [start_time] and [end_time] the two readings of [ktime_get()]. *)
Definition pcie_sim_dma_transfer (dev : pcie_sim_device)
    (req : pcie_sim_transfer_req) (alloc_ok : bool)
    (start_time end_time : Z) : dma_result :=
  let ret := validate_transfer_request req in
  if negb (ret =? 0) then error_exit dev req ret
  else if negb alloc_ok then error_exit dev req (- ENOMEM)
  else
    let user := default [] (buffer req) in
    let latency := wrap64 (end_time - start_time) in
    if direction req =? 0 then
      if copy_from_user user (size req) then
        mk_dma_result 0 (update_transfer_stats dev req latency true)
          (mk_req (buffer req) (size req) (direction req) latency)
      else error_exit dev req (- EFAULT)
    else
      let kernel_buf := replicate (Z.to_nat (size req)) 170 in
      let '(ok, user') := copy_to_user user kernel_buf (size req) in
      let req' := mk_req (Some user') (size req) (direction req)
                         (latency_ns req) in
      if ok then
        mk_dma_result 0 (update_transfer_stats dev req' latency true)
          (mk_req (Some user') (size req) (direction req) latency)
      else error_exit dev req' (- EFAULT).

End Dma.

(** ** lib/types.h *)

Inductive pcie_sim_error_t :=
| PCIE_SIM_SUCCESS
| PCIE_SIM_ERROR_DEVICE
| PCIE_SIM_ERROR_PARAM
| PCIE_SIM_ERROR_MEMORY
| PCIE_SIM_ERROR_TIMEOUT
| PCIE_SIM_ERROR_SYSTEM.

Definition PCIE_SIM_TO_DEVICE : Z := 0.
Definition PCIE_SIM_FROM_DEVICE : Z := 1.

(** what a transfer of the simulation backends hands back: the error
    code, the value stored through [latency_ns] (None for a NULL pointer
    or on an error path) and the caller's buffer afterwards *)
Record transfer_result (state : Type) := mk_transfer_result {
  t_err : pcie_sim_error_t;
  t_latency_ns : option Z;
  t_buffer : option (list Z);
  t_state : state
}.
Arguments mk_transfer_result {state}.
Arguments t_err {state}.
Arguments t_latency_ns {state}.
Arguments t_buffer {state}.
Arguments t_state {state}.

(** ** sim/linux_sim.c

    The device array is a list of [MAX_DEVICES] entries.  The functions
    test the device id of a handle only against the upper bound; an
    index that C would take outside the array leaves the list alone. *)
Module LinuxSim.

Definition MAX_DEVICES : Z := 8.

(** [struct linux_device_state]; the pthread mutex is left out *)
Record linux_device_state := mk_dev {
  active : Z;
  stats : pcie_sim_stats;
  start_time : Z;
  device_name : string
}.

(** the two globals [g_sim_devices] and [g_sim_initialized] *)
Record sim_state := mk_state {
  g_sim_devices : list linux_device_state;
  g_sim_initialized : Z
}.

(** the globals as the loader zero-initialises them *)
Definition initial_state : sim_state :=
  mk_state (replicate (Z.to_nat MAX_DEVICES) (mk_dev 0 zero_stats 0 String.EmptyString)) 0.

(** [struct pcie_sim_handle] *)
Record pcie_sim_handle := mk_handle {
  fd : Z;
  device_id : Z;
  is_simulation : Z
}.

(** [linux_sim_init] *)
Definition linux_sim_init (g : sim_state) : sim_state :=
  if g_sim_initialized g =? 0 then
    mk_state
      (map (fun d => mk_dev 0 (stats d) (start_time d) (device_name d))
           (g_sim_devices g))
      1
  else g.

(** [linux_sim_delay]: the time slept, in nanoseconds *)
Definition linux_sim_delay (delay_ns : Z) : Z :=
  if delay_ns <? 1000 then 0 else delay_ns.

(** the body of [if (!g_sim_devices[device_id].active)] in
    [pcie_sim_open_linux]; [now] is the reading of [clock_gettime] *)
Definition activate (id now : Z) (d : linux_device_state)
  : linux_device_state :=
  if active d =? 0 then
    mk_dev 1 zero_stats now ("pcie_sim" +:+ pretty id)
  else d.

(** [pcie_sim_open_linux]; [handle_ptr] says whether the out-pointer is
    non-NULL, [malloc_ok] is the outcome of [malloc]. *)
Definition pcie_sim_open_linux (g : sim_state) (id : Z)
    (handle_ptr malloc_ok : bool) (now : Z)
  : pcie_sim_error_t * option pcie_sim_handle * sim_state :=
  if negb handle_ptr || (id <? 0) || (id >=? MAX_DEVICES) then
    (PCIE_SIM_ERROR_PARAM, None, g)
  else
    let g1 := linux_sim_init g in
    if negb malloc_ok then (PCIE_SIM_ERROR_MEMORY, None, g1)
    else
      (PCIE_SIM_SUCCESS, Some (mk_handle (-1) id 1),
       mk_state (alter (activate id now) (Z.to_nat id) (g_sim_devices g1))
                (g_sim_initialized g1)).

(** [pcie_sim_close_linux] *)
Definition pcie_sim_close_linux (g : sim_state)
    (handle : option pcie_sim_handle) : pcie_sim_error_t * sim_state :=
  match handle with
  | None => (PCIE_SIM_ERROR_PARAM, g)
  | Some _ => (PCIE_SIM_SUCCESS, g)
  end.

(** the latency that [pcie_sim_transfer_linux] computes and passes to
    [linux_sim_delay] *)
Definition transfer_latency (size direction : Z) : Z :=
  let base_latency_per_mb := 10000 in
  let size_mb := wrap64 (size + 1024 * 1024 - 1) / (1024 * 1024) in
  let size_mb := if size_mb =? 0 then 1 else size_mb in
  let transfer_latency := wrap64 (base_latency_per_mb * size_mb) in
  if direction =? PCIE_SIM_FROM_DEVICE
  then wrap64 (transfer_latency * 12) / 10
  else transfer_latency.

(** the statistics update of [pcie_sim_transfer_linux] *)
Definition update_stats (s : pcie_sim_stats) (size current_latency : Z)
  : pcie_sim_stats :=
  let transfers := wrap64 (total_transfers s + 1) in
  let bytes := wrap64 (total_bytes s + size) in
  if transfers =? 1 then
    mk_stats transfers bytes (total_errors s)
             current_latency current_latency current_latency
  else
    mk_stats transfers bytes (total_errors s)
      (wrap64 (avg_latency_ns s + current_latency) / 2)
      (if current_latency <? min_latency_ns s
       then current_latency else min_latency_ns s)
      (if current_latency >? max_latency_ns s
       then current_latency else max_latency_ns s).

(** [pcie_sim_transfer_linux]; [t0] and [t1] are the two readings of
    [linux_sim_get_time_ns]. *)
Definition pcie_sim_transfer_linux (g : sim_state)
    (handle : option pcie_sim_handle) (buffer : option (list Z))
    (size direction : Z) (latency_ptr : bool) (t0 t1 : Z)
  : transfer_result sim_state :=
  match handle, buffer with
  | Some h, Some _ =>
      if (size =? 0) || (device_id h >=? MAX_DEVICES) then
        mk_transfer_result PCIE_SIM_ERROR_PARAM None buffer g
      else
        let current_latency := wrap64 (t1 - t0) in
        mk_transfer_result PCIE_SIM_SUCCESS
          (if latency_ptr then Some current_latency else None)
          buffer
          (mk_state
             (alter (fun d => mk_dev (active d)
                                (update_stats (stats d) size current_latency)
                                (start_time d) (device_name d))
                    (Z.to_nat (device_id h)) (g_sim_devices g))
             (g_sim_initialized g))
  | _, _ => mk_transfer_result PCIE_SIM_ERROR_PARAM None buffer g
  end.

(** [pcie_sim_get_stats_linux]; [stats_ptr] says whether the out-pointer
    is non-NULL.  An index outside the array reads as zeroes. *)
Definition pcie_sim_get_stats_linux (g : sim_state)
    (handle : option pcie_sim_handle) (stats_ptr : bool)
  : pcie_sim_error_t * option pcie_sim_stats :=
  match handle with
  | Some h =>
      if negb stats_ptr || (device_id h >=? MAX_DEVICES)
      then (PCIE_SIM_ERROR_PARAM, None)
      else (PCIE_SIM_SUCCESS,
            Some (default zero_stats
                    (stats <$> g_sim_devices g !! Z.to_nat (device_id h))))
  | None => (PCIE_SIM_ERROR_PARAM, None)
  end.

(** [pcie_sim_reset_stats_linux] *)
Definition pcie_sim_reset_stats_linux (g : sim_state)
    (handle : option pcie_sim_handle) : pcie_sim_error_t * sim_state :=
  match handle with
  | Some h =>
      if device_id h >=? MAX_DEVICES then (PCIE_SIM_ERROR_PARAM, g)
      else (PCIE_SIM_SUCCESS,
            mk_state
              (alter (fun d => mk_dev (active d) zero_stats
                                      (start_time d) (device_name d))
                     (Z.to_nat (device_id h)) (g_sim_devices g))
              (g_sim_initialized g))
  | None => (PCIE_SIM_ERROR_PARAM, g)
  end.

End LinuxSim.

(** ** sim/windows_sim.c

    The device array is a list of [MAX_DEVICES] entries; every access
    follows a range test on the index, and the branch for an index that
    the list does not have (the parameter error) is never taken on such
    a list. *)
Module WindowsSim.

Definition MAX_DEVICES : Z := 8.

(** [struct windows_device_state]; [mutex] says whether the field holds
    a handle *)
Record windows_device_state := mk_dev {
  active : bool;
  mutex : bool;
  stats : pcie_sim_stats;
  frequency : Z;
  device_name : string
}.

(** the globals [g_devices] and [g_initialized] *)
Record sim_state := mk_state {
  g_devices : list windows_device_state;
  g_initialized : bool
}.

Definition initial_state : sim_state :=
  mk_state (replicate (Z.to_nat MAX_DEVICES) (mk_dev false false zero_stats 0 String.EmptyString))
           false.

(** the fields of [struct pcie_sim_handle] that this backend sets *)
Record pcie_sim_handle := mk_handle {
  fd : Z;
  device_id : Z
}.

(** what the operating system answers during [windows_sim_init]:
    whether [CreateMutex] succeeds for device [i], and the frequency
    that [QueryPerformanceFrequency] reports (None when it fails) *)
Record os_env := mk_env {
  create_mutex : Z -> bool;
  perf_frequency : Z -> option Z
}.

(** [memset(&stats, 0, ...); stats.min_latency_ns = UINT64_MAX] *)
Definition fresh_stats : pcie_sim_stats := mk_stats 0 0 0 0 UINT64_MAX 0.

(** the [for] loop of [windows_sim_init] from index [i] on: the devices
    afterwards, and whether every [CreateMutex] succeeded *)
Fixpoint init_loop (env : os_env) (i : Z) (devs : list windows_device_state)
  : bool * list windows_device_state :=
  match devs with
  | [] => (true, [])
  | d :: rest =>
      if create_mutex env i then
        let d' := mk_dev false true fresh_stats
                    (default 1000000 (perf_frequency env i))
                    ("\\.\PCIeSimulator" +:+ pretty i) in
        let '(ok, rest') := init_loop env (i + 1) rest in
        (ok, d' :: rest')
      else
        (false,
         mk_dev false false (stats d) (frequency d) (device_name d) :: rest)
  end.

(** [windows_sim_init]: the return code and the globals afterwards *)
Definition windows_sim_init (env : os_env) (g : sim_state) : Z * sim_state :=
  if g_initialized g then (0, g)
  else
    let '(ok, devs) := init_loop env 0 (g_devices g) in
    if ok then (0, mk_state devs true) else (-1, mk_state devs false).

(** [simulate_transfer_delay]: the delay in microseconds that the
    function waits for; [r1] and [r2] are the two draws of [rand()]. *)
Definition simulate_transfer_delay (size r1 r2 : Z) : Z :=
  let base_delay_us := wrap32 (1 + r1 mod 10) in
  let throughput_delay_us := size / wrap32 (1000 + r2 mod 7000) in
  wrap32 (base_delay_us + throughput_delay_us).

(** the delay that [pcie_sim_transfer_impl] asks for:
    [simulate_transfer_delay((uint32_t)size)] after either branch *)
Definition transfer_delay (size direction r1 r2 : Z) : Z :=
  simulate_transfer_delay (wrap32 size) r1 r2.

(** [pcie_sim_open_impl]; [handle_ptr] says whether the out-pointer is
    non-NULL, [malloc_ok] is the outcome of [malloc]. *)
Definition pcie_sim_open_impl (env : os_env) (g : sim_state) (id : Z)
    (handle_ptr malloc_ok : bool)
  : pcie_sim_error_t * option pcie_sim_handle * sim_state :=
  if negb handle_ptr || (id <? 0) || (id >=? MAX_DEVICES) then
    (PCIE_SIM_ERROR_PARAM, None, g)
  else
    let '(rc, g1) := windows_sim_init env g in
    if negb (rc =? 0) then (PCIE_SIM_ERROR_SYSTEM, None, g1)
    else
      let set_active b d :=
        mk_dev b (mutex d) (stats d) (frequency d) (device_name d) in
      match g_devices g1 !! Z.to_nat id with
      | Some d =>
          if active d then (PCIE_SIM_ERROR_DEVICE, None, g1)
          else if negb malloc_ok then
            (PCIE_SIM_ERROR_MEMORY, None,
             mk_state (alter (set_active false) (Z.to_nat id) (g_devices g1))
                      (g_initialized g1))
          else
            (PCIE_SIM_SUCCESS, Some (mk_handle id id),
             mk_state (alter (set_active true) (Z.to_nat id) (g_devices g1))
                      (g_initialized g1))
      | None => (PCIE_SIM_ERROR_PARAM, None, g1)
      end.

(** [pcie_sim_close_impl] *)
Definition pcie_sim_close_impl (g : sim_state)
    (handle : option pcie_sim_handle) : pcie_sim_error_t * sim_state :=
  match handle with
  | None => (PCIE_SIM_ERROR_PARAM, g)
  | Some h =>
      if (device_id h <? 0) || (device_id h >=? MAX_DEVICES)
      then (PCIE_SIM_ERROR_PARAM, g)
      else
        (PCIE_SIM_SUCCESS,
         mk_state
           (alter (fun d => mk_dev false (mutex d) (stats d) (frequency d)
                                   (device_name d))
                  (Z.to_nat (device_id h)) (g_devices g))
           (g_initialized g))
  end.

(** the statistics update of [pcie_sim_transfer_impl] *)
Definition update_stats (s : pcie_sim_stats) (size transfer_latency : Z)
  : pcie_sim_stats :=
  let transfers := wrap64 (total_transfers s + 1) in
  let bytes := wrap64 (total_bytes s + size) in
  let min' := if transfer_latency <? min_latency_ns s
              then transfer_latency else min_latency_ns s in
  let max' := if transfer_latency >? max_latency_ns s
              then transfer_latency else max_latency_ns s in
  let avg' :=
    if transfers =? 1 then transfer_latency
    else wrap64 (wrap64 (avg_latency_ns s * wrap64 (transfers - 1))
                 + transfer_latency) / transfers in
  mk_stats transfers bytes (total_errors s) avg' min' max'.

(** [memset(buffer, 0xAA, size)] on the caller's buffer *)
Definition fill_pattern (buffer : list Z) (size : Z) : list Z :=
  replicate (Z.to_nat size) 170 ++ drop (Z.to_nat size) buffer.

(** [pcie_sim_transfer_impl]; [lock_ok] says whether
    [WaitForSingleObject] returned [WAIT_OBJECT_0], [t0] and [t1] are
    the two readings of [get_timestamp_ns]. *)
Definition pcie_sim_transfer_impl (g : sim_state)
    (handle : option pcie_sim_handle) (buffer : option (list Z))
    (size direction : Z) (latency_ptr lock_ok : bool) (t0 t1 : Z)
  : transfer_result sim_state :=
  let fail e := mk_transfer_result e None buffer g in
  match handle, buffer with
  | Some h, Some mem =>
      if (size =? 0) || (size >? 1024 * 1024) then fail PCIE_SIM_ERROR_PARAM
      else if (device_id h <? 0) || (device_id h >=? MAX_DEVICES)
      then fail PCIE_SIM_ERROR_PARAM
      else
        match g_devices g !! Z.to_nat (device_id h) with
        | None => fail PCIE_SIM_ERROR_PARAM
        | Some dev =>
            if negb (active dev) then fail PCIE_SIM_ERROR_DEVICE
            else if negb lock_ok then fail PCIE_SIM_ERROR_TIMEOUT
            else
              let mem' := if direction =? PCIE_SIM_TO_DEVICE then mem
                          else fill_pattern mem size in
              let transfer_latency := wrap64 (t1 - t0) in
              mk_transfer_result PCIE_SIM_SUCCESS
                (if latency_ptr then Some transfer_latency else None)
                (Some mem')
                (mk_state
                   (<[Z.to_nat (device_id h) :=
                        mk_dev (active dev) (mutex dev)
                          (update_stats (stats dev) size transfer_latency)
                          (frequency dev) (device_name dev)]> (g_devices g))
                   (g_initialized g))
        end
  | _, _ => fail PCIE_SIM_ERROR_PARAM
  end.

(** [pcie_sim_get_stats_impl]; [stats_ptr] says whether the out-pointer
    is non-NULL *)
Definition pcie_sim_get_stats_impl (g : sim_state)
    (handle : option pcie_sim_handle) (stats_ptr lock_ok : bool)
  : pcie_sim_error_t * option pcie_sim_stats :=
  match handle with
  | Some h =>
      if negb stats_ptr then (PCIE_SIM_ERROR_PARAM, None)
      else if (device_id h <? 0) || (device_id h >=? MAX_DEVICES)
      then (PCIE_SIM_ERROR_PARAM, None)
      else
        match g_devices g !! Z.to_nat (device_id h) with
        | None => (PCIE_SIM_ERROR_PARAM, None)
        | Some dev =>
            if negb (active dev) then (PCIE_SIM_ERROR_DEVICE, None)
            else if negb lock_ok then (PCIE_SIM_ERROR_TIMEOUT, None)
            else (PCIE_SIM_SUCCESS, Some (stats dev))
        end
  | None => (PCIE_SIM_ERROR_PARAM, None)
  end.

(** [pcie_sim_reset_stats_impl] *)
Definition pcie_sim_reset_stats_impl (g : sim_state)
    (handle : option pcie_sim_handle) (lock_ok : bool)
  : pcie_sim_error_t * sim_state :=
  match handle with
  | Some h =>
      if (device_id h <? 0) || (device_id h >=? MAX_DEVICES)
      then (PCIE_SIM_ERROR_PARAM, g)
      else
        match g_devices g !! Z.to_nat (device_id h) with
        | None => (PCIE_SIM_ERROR_PARAM, g)
        | Some dev =>
            if negb (active dev) then (PCIE_SIM_ERROR_DEVICE, g)
            else if negb lock_ok then (PCIE_SIM_ERROR_TIMEOUT, g)
            else
              (PCIE_SIM_SUCCESS,
               mk_state
                 (<[Z.to_nat (device_id h) :=
                      mk_dev (active dev) (mutex dev) fresh_stats
                             (frequency dev) (device_name dev)]> (g_devices g))
                 (g_initialized g))
        end
  | None => (PCIE_SIM_ERROR_PARAM, g)
  end.

End WindowsSim.

(** ** Sequences of transfers on one device

    One request as every backend receives it: a size, a direction and
    the two clock readings taken around the simulated wait.  The caller
    passes a buffer of [x_size] bytes. *)
Record transfer := mk_transfer {
  x_size : Z;
  x_direction : Z;
  x_t0 : Z;
  x_t1 : Z
}.

Definition x_latency (x : transfer) : Z := wrap64 (x_t1 x - x_t0 x).

Definition user_buffer (x : transfer) : list Z :=
  replicate (Z.to_nat (x_size x)) 0.

(** the device as [pcie_sim_probe] of kernel/driver.c leaves it:
    [kzalloc], then the id, [enabled] and zeroed statistics *)
Definition pcie_sim_probe (id : Z) : Dma.pcie_sim_device :=
  let no_ring := Ring.mk_ring [] 0 0 0 0 0 0 0 in
  Dma.mk_device zero_stats no_ring no_ring 0 0 false 0 0 0 0 true id.

Definition kernel_request (x : transfer) : Dma.pcie_sim_transfer_req :=
  Dma.mk_req (Some (user_buffer x)) (x_size x) (x_direction x) 0.

Definition kernel_transfer (dev : Dma.pcie_sim_device) (x : transfer)
  : Dma.dma_result :=
  Dma.pcie_sim_dma_transfer dev (kernel_request x) true (x_t0 x) (x_t1 x).

Definition kernel_run (xs : list transfer) : Dma.pcie_sim_device :=
  fold_left (fun dev x => Dma.r_dev (kernel_transfer dev x)) xs
            (pcie_sim_probe 0).

Definition kernel_stats (xs : list transfer) : pcie_sim_stats :=
  Dma.stats (kernel_run xs).

(** Linux simulation: device 0 opened once on the initial globals *)
Definition linux_handle : LinuxSim.pcie_sim_handle := LinuxSim.mk_handle (-1) 0 1.

Definition linux_opened : LinuxSim.sim_state :=
  (LinuxSim.pcie_sim_open_linux LinuxSim.initial_state 0 true true 0).2.

Definition linux_transfer (g : LinuxSim.sim_state) (x : transfer)
  : transfer_result LinuxSim.sim_state :=
  LinuxSim.pcie_sim_transfer_linux g (Some linux_handle)
    (Some (user_buffer x)) (x_size x) (x_direction x) true (x_t0 x) (x_t1 x).

Definition linux_run (xs : list transfer) : LinuxSim.sim_state :=
  fold_left (fun g x => t_state (linux_transfer g x)) xs linux_opened.

Definition linux_stats_of (g : LinuxSim.sim_state) : pcie_sim_stats :=
  default zero_stats
    (LinuxSim.pcie_sim_get_stats_linux g (Some linux_handle) true).2.

Definition linux_stats (xs : list transfer) : pcie_sim_stats :=
  linux_stats_of (linux_run xs).

(** Windows simulation: every OS call of the initialisation succeeds,
    device 0 opened once on the initial globals *)
Definition windows_env : WindowsSim.os_env :=
  WindowsSim.mk_env (fun _ => true) (fun _ => Some 10000000).

Definition windows_handle : WindowsSim.pcie_sim_handle := WindowsSim.mk_handle 0 0.

Definition windows_opened : WindowsSim.sim_state :=
  (WindowsSim.pcie_sim_open_impl windows_env WindowsSim.initial_state 0 true true).2.

Definition windows_transfer (g : WindowsSim.sim_state) (x : transfer)
  : transfer_result WindowsSim.sim_state :=
  WindowsSim.pcie_sim_transfer_impl g (Some windows_handle)
    (Some (user_buffer x)) (x_size x) (x_direction x) true true
    (x_t0 x) (x_t1 x).

Definition windows_run (xs : list transfer) : WindowsSim.sim_state :=
  fold_left (fun g x => t_state (windows_transfer g x)) xs windows_opened.

Definition windows_stats_of (g : WindowsSim.sim_state) : pcie_sim_stats :=
  default zero_stats
    (WindowsSim.pcie_sim_get_stats_impl g (Some windows_handle) true true).2.

Definition windows_stats (xs : list transfer) : pcie_sim_stats :=
  windows_stats_of (windows_run xs).

(** the statistics that [update_transfer_stats] leaves after a success *)
Definition kernel_record (s : pcie_sim_stats) (size latency : Z)
  : pcie_sim_stats :=
  Dma.stats (Dma.update_transfer_stats
               (Dma.set_stats (pcie_sim_probe 0) s)
               (Dma.mk_req None size 0 0) latency true).

(** transfers through a handle [h] of the Linux simulation, from any
    state of its globals *)
Definition linux_run_on (h : LinuxSim.pcie_sim_handle)
    (g : LinuxSim.sim_state) (xs : list transfer) : LinuxSim.sim_state :=
  fold_left
    (fun g x =>
       t_state (LinuxSim.pcie_sim_transfer_linux g (Some h)
                  (Some (user_buffer x)) (x_size x) (x_direction x) true
                  (x_t0 x) (x_t1 x)))
    xs g.

(** a request that all three backends carry out: a size that each of
    them admits, a direction of the API, and a clock that does not run
    backwards and stays below 2^63 ns *)
Definition accepted (x : transfer) : bool :=
  (1 <=? x_size x) && (x_size x <=? 1024 * 1024)
  && ((x_direction x =? 0) || (x_direction x =? 1))
  && (0 <=? x_t0 x) && (x_t0 x <=? x_t1 x) && (x_t1 x <? 2 ^ 63).

(** The running-average policy of section 4.4 of the design document,
    in its words: the first sample is the average, and every later
    sample gives [(avg + latency) / 2]. *)
Definition running_average_policy
    (stats_after : list transfer -> pcie_sim_stats) : Prop :=
  forall xs x,
    forallb accepted (xs ++ [x]) = true ->
    Z.of_nat (length (xs ++ [x])) < 2 ^ 64 ->
    avg_latency_ns (stats_after (xs ++ [x]))
    = match xs with
      | [] => x_latency x
      | _ :: _ => (avg_latency_ns (stats_after xs) + x_latency x) / 2
      end.

(** The backend equivalence contract of section 6: the three statistics
    blocks are equal after the same requests. *)
Definition backends_equivalent : Prop :=
  forall xs,
    forallb accepted xs = true ->
    Z.of_nat (length xs) < 2 ^ 64 ->
    kernel_stats xs = linux_stats xs /\ windows_stats xs = linux_stats xs.

(** three 4096-byte requests with measured latencies 100, 200 and 600 *)
Definition sample_1 : transfer := mk_transfer 4096 0 0 100.
Definition sample_2 : transfer := mk_transfer 4096 1 100 300.
Definition sample_3 : transfer := mk_transfer 4096 0 300 900.





(** [update_transfer_stats] on a failure, on the statistics block *)
Definition count_error (s : pcie_sim_stats) : pcie_sim_stats :=
  mk_stats (total_transfers s) (total_bytes s) (wrap64 (total_errors s + 1))
           (avg_latency_ns s) (min_latency_ns s) (max_latency_ns s).

(** The direction asymmetry of section 4.2, in the document's words: for
    a fixed size (and the same random draws) a read costs 20% more than
    a write. *)
Definition costs_20_percent_more (read write : Z) : Prop :=
  10 * read = 12 * write.

Definition kernel_direction_asymmetry : Prop :=
  forall size jitter_us,
    1 <= size <= 1024 * 1024 -> 0 <= jitter_us < 20 ->
    costs_20_percent_more
      (Dma.transfer_delay (Dma.mk_req None size 1 0) jitter_us)
      (Dma.transfer_delay (Dma.mk_req None size 0 0) jitter_us).

Definition linux_direction_asymmetry : Prop :=
  forall size,
    1 <= size <= 1024 * 1024 ->
    costs_20_percent_more
      (LinuxSim.transfer_latency size PCIE_SIM_FROM_DEVICE)
      (LinuxSim.transfer_latency size PCIE_SIM_TO_DEVICE).

Definition windows_direction_asymmetry : Prop :=
  forall size r1 r2,
    1 <= size <= 1024 * 1024 -> 0 <= r1 -> 0 <= r2 ->
    costs_20_percent_more
      (WindowsSim.transfer_delay size PCIE_SIM_FROM_DEVICE r1 r2)
      (WindowsSim.transfer_delay size PCIE_SIM_TO_DEVICE r1 r2).

(** [dev->stats.total_errors = n] *)
Definition set_total_errors (dev : Dma.pcie_sim_device) (n : Z)
  : Dma.pcie_sim_device :=
  let s := Dma.stats dev in
  Dma.set_stats dev
    (mk_stats (total_transfers s) (total_bytes s) n
              (avg_latency_ns s) (min_latency_ns s) (max_latency_ns s)).

(** The failure rule of section 4.4, in the document's words: a failed
    transfer increments [total_errors] and the error counter of the
    active scenario, and leaves the latency fields and the success
    counters alone.  The counter of a scenario is read off the device
    and is a counter of its own: writing [total_errors] does not change
    it. *)
Definition failure_update_claim : Prop :=
  exists counter : Z -> Dma.pcie_sim_device -> Z,
    (forall scenario dev n,
       counter scenario (set_total_errors dev n) = counter scenario dev)
    /\ forall dev req latency,
         let dev' := Dma.update_transfer_stats dev req latency false in
         let s := Dma.stats dev in
         let s' := Dma.stats dev' in
         total_errors s' = wrap64 (total_errors s + 1)
         /\ counter (Dma.error_scenario dev) dev'
            = counter (Dma.error_scenario dev) dev + 1
         /\ min_latency_ns s' = min_latency_ns s
         /\ max_latency_ns s' = max_latency_ns s
         /\ avg_latency_ns s' = avg_latency_ns s
         /\ total_transfers s' = total_transfers s
         /\ total_bytes s' = total_bytes s.

(** a probed device with the timeout scenario configured at 1% and a
    recovery time of 100 ms *)
Definition timeout_device : Dma.pcie_sim_device :=
  let no_ring := Ring.mk_ring [] 0 0 0 0 0 0 0 in
  Dma.mk_device zero_stats no_ring no_ring 0 0 true 0 1 100 100 true 0.

(** ** Sequences of ring operations *)

Inductive ring_op :=
| Submit (buffer_addr length flags now : Z)
| Complete (length_ptr latency_ptr : bool) (status now : Z).

Inductive ring_outcome :=
| Submitted (ret : Z)
| Completed (c : Ring.completion).

Definition ring_step (ring : Ring.pcie_sim_ring) (o : ring_op)
  : ring_outcome * Ring.pcie_sim_ring :=
  match o with
  | Submit a l f now =>
      let '(ret, ring') := Ring.pcie_sim_ring_submit ring a l f now in
      (Submitted ret, ring')
  | Complete lp tp st now =>
      let '(c, ring') := Ring.pcie_sim_ring_complete ring lp tp st now in
      (Completed c, ring')
  end.

Fixpoint ring_run (ring : Ring.pcie_sim_ring) (ops : list ring_op)
  : list ring_outcome * Ring.pcie_sim_ring :=
  match ops with
  | [] => ([], ring)
  | o :: ops' =>
      let '(out, ring') := ring_step ring o in
      let '(outs, ring'') := ring_run ring' ops' in
      (out :: outs, ring'')
  end.

(** a ring after a successful [init_ring] *)
Definition fresh_ring : Ring.pcie_sim_ring :=
  (Ring.init_ring true (Ring.mk_ring [] 0 0 0 0 0 0 0)).2.

(** The queue of the design document, section 4.1, written from its
    words: the pending entries in submission order, oldest first, each
    with its length and submission timestamp; [submit] fails with
    Overflow at capacity N, [complete] takes the oldest entry and
    reports [now - submit_timestamp], or fails with Underflow. *)
Abbreviation fifo := (list (Z * Z)).

Definition fifo_step (N : Z) (q : fifo) (o : ring_op) : ring_outcome * fifo :=
  match o with
  | Submit _ l _ now =>
      if Z.of_nat (length q) >=? N then (Submitted (- ENOSPC), q)
      else (Submitted 0, q ++ [(l, now)])
  | Complete lp tp _ now =>
      match q with
      | [] => (Completed (Ring.mk_completion (- ENODATA) None None), [])
      | (l, ts) :: q' =>
          (Completed (Ring.mk_completion 0
                        (if lp then Some l else None)
                        (if tp then Some (now - ts) else None)),
           q')
      end
  end.

Fixpoint fifo_run (N : Z) (q : fifo) (ops : list ring_op)
  : list ring_outcome * fifo :=
  match ops with
  | [] => ([], q)
  | o :: ops' =>
      let '(out, q') := fifo_step N q o in
      let '(outs, q'') := fifo_run N q' ops' in
      (out :: outs, q'')
  end.

Definition op_time (o : ring_op) : Z :=
  match o with
  | Submit _ _ _ now => now
  | Complete _ _ _ now => now
  end.

(** the readings of [ktime_get_ns] along a run: 64-bit values that never
    decrease, starting from [t] *)
Fixpoint clock_monotone (t : Z) (ops : list ring_op) : bool :=
  match ops with
  | [] => true
  | o :: ops' =>
      (t <=? op_time o) && (op_time o <? 2 ^ 64) && clock_monotone (op_time o) ops'
  end.

Definition is_submit (o : ring_op) : bool :=
  match o with
  | Submit _ _ _ _ => true
  | Complete _ _ _ _ => false
  end.

(** the ring holds the pending queue [q]: the live count is its length
    and the entry [i] places behind the tail carries the length and the
    timestamp of the [i]-th oldest submission *)
Definition ring_inv (r : Ring.pcie_sim_ring) (q : fifo) : Prop :=
  Ring.size r = Ring.RING_SIZE
  /\ length (Ring.descriptors r) = Z.to_nat Ring.RING_SIZE
  /\ 0 <= Ring.tail r < Ring.RING_SIZE
  /\ Ring.count r = Z.of_nat (length q)
  /\ Ring.count r <= Ring.RING_SIZE
  /\ Ring.head r = (Ring.tail r + Ring.count r) mod Ring.RING_SIZE
  /\ forall (i : nat) l ts,
       q !! i = Some (l, ts) ->
       exists d,
         Ring.descriptors r
           !! Z.to_nat ((Ring.tail r + Z.of_nat i) mod Ring.RING_SIZE) = Some d
         /\ Ring.length d = l /\ Ring.timestamp d = ts.

(** The bounds of the queue as claim C8 reads them: in every reachable
    state the count and the indices are in range, and a rejected
    submission or completion hands the ring back as it was. *)
Definition rejections_leave_ring_alone : Prop :=
  forall ops,
    let r := (ring_run fresh_ring ops).2 in
    Ring.size r = 256
    /\ 0 <= Ring.count r <= Ring.size r
    /\ 0 <= Ring.head r < Ring.size r
    /\ 0 <= Ring.tail r < Ring.size r
    /\ (Ring.count r = Ring.size r ->
        forall a l f now,
          Ring.pcie_sim_ring_submit r a l f now = (- ENOSPC, r))
    /\ (Ring.count r = 0 ->
        forall lp tp st now,
          Ring.pcie_sim_ring_complete r lp tp st now
          = (Ring.mk_completion (- ENODATA) None None, r)).

(** * The rest of the transfer path *)

(** ** Reference values over a sequence of transfers *)

Definition sum_sizes (xs : list transfer) : Z :=
  fold_right (fun x a => x_size x + a) 0 xs.

Definition largest_latency (xs : list transfer) : Z :=
  fold_right (fun x a => Z.max (x_latency x) a) 0 xs.

Definition smallest_latency (xs : list transfer) : Z :=
  match xs with
  | [] => 0
  | x :: rest => fold_right (fun y a => Z.min (x_latency y) a) (x_latency x) rest
  end.

(** ** The waits of the timing models *)

(** the call with which [simulate_transfer_delay] of kernel/dma.c waits *)
Inductive sleep_call :=
| Usleep_range (min_us max_us : Z)
| Udelay (usecs : Z).

Definition kernel_sleep (size jitter_us : Z) : sleep_call :=
  let total_delay := Dma.simulate_transfer_delay size jitter_us in
  if total_delay >? 10
  then Usleep_range total_delay (wrap32 (total_delay + 10))
  else Udelay total_delay.

(** the two waits of [simulate_transfer_delay] of sim/windows_sim.c:
    [Sleep] for the whole milliseconds ([None] when it is skipped), then
    a busy wait on the performance counter for the remaining
    microseconds (skipped when 0) *)
Record windows_wait := mk_wait {
  sleep_ms : option Z;
  spin_us : Z
}.

Definition windows_sleep (size r1 r2 : Z) : windows_wait :=
  let total_delay_us := WindowsSim.simulate_transfer_delay size r1 r2 in
  if total_delay_us >=? 1000
  then mk_wait (Some (total_delay_us / 1000)) (wrap32 (total_delay_us mod 1000))
  else mk_wait None total_delay_us.

(** [windows_sim_cleanup] *)
Definition windows_sim_cleanup (g : WindowsSim.sim_state) : WindowsSim.sim_state :=
  if negb (WindowsSim.g_initialized g) then g
  else
    WindowsSim.mk_state
      (map (fun d => WindowsSim.mk_dev false false (WindowsSim.stats d)
                       (WindowsSim.frequency d) (WindowsSim.device_name d))
           (WindowsSim.g_devices g))
      false.

(** the statistics of device [id] in the two simulations *)
Definition linux_device_stats (g : LinuxSim.sim_state) (id : Z)
  : option pcie_sim_stats :=
  LinuxSim.stats <$> LinuxSim.g_sim_devices g !! Z.to_nat id.

Definition windows_device_stats (g : WindowsSim.sim_state) (id : Z)
  : option pcie_sim_stats :=
  WindowsSim.stats <$> WindowsSim.g_devices g !! Z.to_nat id.

(** the statistics after one successful transfer on a reset block *)
Definition first_sample (size latency : Z) : pcie_sim_stats :=
  mk_stats 1 (wrap64 size) 0 latency latency latency.

(** transfers through a handle [h] of the Windows simulation, from any
    state of its globals *)
Definition windows_run_on (h : WindowsSim.pcie_sim_handle)
    (g : WindowsSim.sim_state) (xs : list transfer) : WindowsSim.sim_state :=
  fold_left
    (fun g x =>
       t_state (WindowsSim.pcie_sim_transfer_impl g (Some h)
                  (Some (user_buffer x)) (x_size x) (x_direction x) true true
                  (x_t0 x) (x_t1 x)))
    xs g.

(** ** The ring counters and the two rings of a device *)

Definition is_accepted_submit (o : ring_outcome) : bool :=
  match o with
  | Submitted ret => ret =? 0
  | Completed _ => false
  end.

Definition is_rejected_submit (o : ring_outcome) : bool :=
  match o with
  | Submitted ret => negb (ret =? 0)
  | Completed _ => false
  end.

Definition is_completion (o : ring_outcome) : bool :=
  match o with
  | Submitted _ => false
  | Completed c => Ring.c_ret c =? 0
  end.

(** how many outcomes of a run satisfy [p] *)
Fixpoint tally (p : ring_outcome -> bool) (outs : list ring_outcome) : Z :=
  match outs with
  | [] => 0
  | o :: outs' => (if p o then 1 else 0) + tally p outs'
  end.

(** [cleanup_ring] of kernel/ringbuffer.c: a ring without descriptors
    (NULL) is left alone, otherwise the array is freed *)
Definition cleanup_ring (ring : Ring.pcie_sim_ring) : Ring.pcie_sim_ring :=
  match Ring.descriptors ring with
  | [] => ring
  | _ :: _ =>
      Ring.mk_ring [] (Ring.size ring) (Ring.head ring) (Ring.tail ring)
        (Ring.count ring) (Ring.submissions ring) (Ring.completions ring)
        (Ring.overruns ring)
  end.

Definition set_rings (dev : Dma.pcie_sim_device) (tx rx : Ring.pcie_sim_ring)
  : Dma.pcie_sim_device :=
  Dma.mk_device (Dma.stats dev) tx rx (Dma.pending_interrupts dev)
    (Dma.dma_active dev) (Dma.simulate_errors dev)
    (Dma.fault_injection_rate dev) (Dma.error_scenario dev)
    (Dma.error_probability dev) (Dma.error_recovery_time_ms dev)
    (Dma.enabled dev) (Dma.device_id dev).

(** [pcie_sim_ring_init]; [tx_alloc_ok] and [rx_alloc_ok] are the
    outcomes of the two [dma_alloc_coherent] calls *)
Definition pcie_sim_ring_init (dev : Dma.pcie_sim_device)
    (tx_alloc_ok rx_alloc_ok : bool) : Z * Dma.pcie_sim_device :=
  let '(ret, tx) := Ring.init_ring tx_alloc_ok (Dma.tx_ring dev) in
  if negb (ret =? 0) then (ret, set_rings dev tx (Dma.rx_ring dev))
  else
    let '(ret, rx) := Ring.init_ring rx_alloc_ok (Dma.rx_ring dev) in
    if negb (ret =? 0) then (ret, set_rings dev (cleanup_ring tx) rx)
    else (0, set_rings dev tx rx).

(** [pcie_sim_ring_cleanup] on a non-NULL device *)
Definition pcie_sim_ring_cleanup (dev : Dma.pcie_sim_device)
  : Dma.pcie_sim_device :=
  let rx := cleanup_ring (Dma.rx_ring dev) in
  let tx := cleanup_ring (Dma.tx_ring dev) in
  set_rings dev tx rx.

(** the [i]-th live descriptor, counted from the tail *)
Definition live_desc (r : Ring.pcie_sim_ring) (i : Z)
  : option Ring.pcie_sim_ring_desc :=
  Ring.descriptors r !! Z.to_nat ((Ring.tail r + i) mod Ring.size r).

(** every live descriptor is marked pending *)
Definition live_pending (r : Ring.pcie_sim_ring) : Prop :=
  forall i, 0 <= i < Ring.count r ->
    exists d, live_desc r i = Some d /\ Ring.status d = 0.

(** no descriptor has its [reserved] word written *)
Definition reserved_clear (r : Ring.pcie_sim_ring) : Prop :=
  Forall (fun d => Ring.reserved d = 0) (Ring.descriptors r).

(** * The character device (unnamed/part_004, kernel/common.h)

    The command numbers are built with [_IO], [_IOR], [_IOW] and [_IOWR]
    of the kernel's asm-generic/ioctl.h: the number in bits 0-7, the
    type in bits 8-15, the size of the argument in bits 16-29 and the
    direction in bits 30-31.  The sizes are those of an LP64 kernel. *)
Module CharDev.

Definition ENOTTY : Z := 25.
Definition ERESTARTSYS : Z := 512.

Definition _IOC_NONE : Z := 0.
Definition _IOC_WRITE : Z := 1.
Definition _IOC_READ : Z := 2.

Definition _IOC (dir type nr size : Z) : Z :=
  Z.lor (Z.lor (Z.lor (Z.shiftl dir 30) (Z.shiftl type 8)) (Z.shiftl nr 0))
        (Z.shiftl size 16).

Definition _IOC_TYPE (cmd : Z) : Z := Z.land (Z.shiftr cmd 8) 255.

(** ['P'] *)
Definition PCIE_SIM_IOC_MAGIC : Z := 80.

Definition sizeof_transfer_req : Z := 32.
Definition sizeof_stats : Z := 48.
Definition sizeof_error_config : Z := 16.

Definition PCIE_SIM_IOC_TRANSFER : Z :=
  _IOC (Z.lor _IOC_READ _IOC_WRITE) PCIE_SIM_IOC_MAGIC 1 sizeof_transfer_req.
Definition PCIE_SIM_IOC_GET_STATS : Z :=
  _IOC _IOC_READ PCIE_SIM_IOC_MAGIC 2 sizeof_stats.
Definition PCIE_SIM_IOC_RESET_STATS : Z :=
  _IOC _IOC_NONE PCIE_SIM_IOC_MAGIC 3 0.
Definition PCIE_SIM_IOC_SET_ERROR : Z :=
  _IOC _IOC_WRITE PCIE_SIM_IOC_MAGIC 4 sizeof_error_config.

(** the user memory that [arg] points at: the request that
    [copy_from_user] would read there ([None] when it faults) and
    whether [copy_to_user] can write there *)
Record user_arg := mk_arg {
  arg_req : option Dma.pcie_sim_transfer_req;
  arg_writable : bool
}.

(** what a call leaves in the user memory at [arg] *)
Inductive user_store :=
| Untouched
| StoredReq (req : Dma.pcie_sim_transfer_req)
| StoredStats (s : pcie_sim_stats)
| Faulted.

(** outcome of [pcie_sim_char_ioctl]: the return value, the device, the
    memory at [arg], and the user buffer of the request after the DMA
    path ([None] when that path was not entered) *)
Record ioctl_result := mk_ioctl_result {
  i_ret : Z;
  i_dev : option Dma.pcie_sim_device;
  i_user : user_store;
  i_buffer : option (list Z)
}.

(** [pcie_sim_char_ioctl]; [lock_interrupted] is the outcome of
    [mutex_lock_interruptible], the last three arguments are those of
    [Dma.pcie_sim_dma_transfer] *)
Definition pcie_sim_char_ioctl (private_data : option Dma.pcie_sim_device)
    (cmd : Z) (arg : user_arg) (lock_interrupted : bool)
    (alloc_ok : bool) (start_time end_time : Z) : ioctl_result :=
  match private_data with
  | None => mk_ioctl_result (- EINVAL) None Untouched None
  | Some dev =>
      if negb (_IOC_TYPE cmd =? PCIE_SIM_IOC_MAGIC) then
        mk_ioctl_result (- EINVAL) (Some dev) Untouched None
      else if lock_interrupted then
        mk_ioctl_result (- ERESTARTSYS) (Some dev) Untouched None
      else if cmd =? PCIE_SIM_IOC_TRANSFER then
        match arg_req arg with
        | None => mk_ioctl_result (- EFAULT) (Some dev) Untouched None
        | Some req =>
            let r := Dma.pcie_sim_dma_transfer dev req alloc_ok
                       start_time end_time in
            let buf := Dma.buffer (Dma.r_req r) in
            if Dma.r_ret r =? 0 then
              if arg_writable arg then
                mk_ioctl_result 0 (Some (Dma.r_dev r)) (StoredReq (Dma.r_req r)) buf
              else
                mk_ioctl_result (- EFAULT) (Some (Dma.r_dev r)) Faulted buf
            else
              mk_ioctl_result (Dma.r_ret r) (Some (Dma.r_dev r)) Untouched buf
        end
      else if cmd =? PCIE_SIM_IOC_GET_STATS then
        if arg_writable arg then
          mk_ioctl_result 0 (Some dev) (StoredStats (Dma.stats dev)) None
        else
          mk_ioctl_result (- EFAULT) (Some dev) Faulted None
      else if cmd =? PCIE_SIM_IOC_RESET_STATS then
        mk_ioctl_result 0 (Some (Dma.set_stats dev zero_stats)) Untouched None
      else
        mk_ioctl_result (- ENOTTY) (Some dev) Untouched None
  end.

End CharDev.

(** * The register window (unnamed/part_005)

    BAR0 is the byte array that [kzalloc] returns; [readl] and [writel]
    move 32-bit words in little-endian order.  The functions test only
    that the offset is below [bar0_size], so an access can run past the
    end of the array: such an access has no defined outcome, and the
    model answers [None] for it. *)
Module Mmio.

Definition BAR0_SIZE : Z := 4096.

Definition REG_DEVICE_ID : Z := 0.
Definition REG_STATUS : Z := 4.
Definition REG_CONTROL : Z := 8.
Definition REG_DMA_CONTROL : Z := 28.
Definition REG_INTERRUPT_STATUS : Z := 32.
Definition REG_INTERRUPT_ENABLE : Z := 36.
Definition REG_PERF_LATENCY : Z := 48.
Definition REG_PERF_COUNT : Z := 52.
Definition REG_ERROR_INJECT : Z := 68.

Definition BIT (n : Z) : Z := Z.shiftl 1 n.

Definition STATUS_DEVICE_READY : Z := BIT 0.
Definition STATUS_DMA_BUSY : Z := BIT 1.
Definition STATUS_ERROR : Z := BIT 2.
Definition STATUS_INTERRUPT_PENDING : Z := BIT 3.

Definition CONTROL_DEVICE_ENABLE : Z := BIT 0.
Definition CONTROL_DMA_START : Z := BIT 1.
Definition CONTROL_DMA_RESET : Z := BIT 2.

Definition IRQ_DMA_COMPLETE : Z := BIT 0.
Definition IRQ_DMA_ERROR : Z := BIT 1.

(** the device with the two fields of the BAR0 mapping; [bar0_virt] is
    [None] for a NULL pointer *)
Record mmio_device := mk_mmio {
  dev : Dma.pcie_sim_device;
  bar0_virt : option (list Z);
  bar0_size : Z
}.

Definition set_dma_active (d : Dma.pcie_sim_device) (v : Z)
  : Dma.pcie_sim_device :=
  Dma.mk_device (Dma.stats d) (Dma.tx_ring d) (Dma.rx_ring d)
    (Dma.pending_interrupts d) v (Dma.simulate_errors d)
    (Dma.fault_injection_rate d) (Dma.error_scenario d)
    (Dma.error_probability d) (Dma.error_recovery_time_ms d)
    (Dma.enabled d) (Dma.device_id d).

Definition set_pending_interrupts (d : Dma.pcie_sim_device) (v : Z)
  : Dma.pcie_sim_device :=
  Dma.mk_device (Dma.stats d) (Dma.tx_ring d) (Dma.rx_ring d)
    v (Dma.dma_active d) (Dma.simulate_errors d)
    (Dma.fault_injection_rate d) (Dma.error_scenario d)
    (Dma.error_probability d) (Dma.error_recovery_time_ms d)
    (Dma.enabled d) (Dma.device_id d).

Definition set_error_injection (d : Dma.pcie_sim_device) (rate : Z)
    (on : bool) : Dma.pcie_sim_device :=
  Dma.mk_device (Dma.stats d) (Dma.tx_ring d) (Dma.rx_ring d)
    (Dma.pending_interrupts d) (Dma.dma_active d) on
    rate (Dma.error_scenario d)
    (Dma.error_probability d) (Dma.error_recovery_time_ms d)
    (Dma.enabled d) (Dma.device_id d).

(** the four bytes at [a] are inside the array *)
Definition in_bar (mem : list Z) (a : Z) : bool :=
  (0 <=? a) && (a + 4 <=? Z.of_nat (length mem)).

Definition byte_at (mem : list Z) (i : nat) : Z := default 0 (mem !! i).

(** [readl(bar0_virt + a)] *)
Definition readl (mem : list Z) (a : Z) : option Z :=
  if in_bar mem a then
    let n := Z.to_nat a in
    Some (byte_at mem n + 256 * byte_at mem (n + 1)
          + 65536 * byte_at mem (n + 2) + 16777216 * byte_at mem (n + 3))
  else None.

(** [writel(v, bar0_virt + a)] *)
Definition writel (v : Z) (mem : list Z) (a : Z) : option (list Z) :=
  if in_bar mem a then
    let n := Z.to_nat a in
    Some (<[(n + 3)%nat := (v / 16777216) mod 256]>
            (<[(n + 2)%nat := (v / 65536) mod 256]>
               (<[(n + 1)%nat := (v / 256) mod 256]>
                  (<[n := v mod 256]> mem))))
  else None.

(** [pcie_sim_mmio_init]; [alloc_ok] is the outcome of [kzalloc] *)
Definition pcie_sim_mmio_init (d : mmio_device) (alloc_ok : bool)
  : option (Z * mmio_device) :=
  if negb alloc_ok then
    Some (- ENOMEM, mk_mmio (dev d) None (bar0_size d))
  else
    m0 ← writel 305441741 (replicate (Z.to_nat BAR0_SIZE) 0) REG_DEVICE_ID;
    m1 ← writel STATUS_DEVICE_READY m0 REG_STATUS;
    m2 ← writel CONTROL_DEVICE_ENABLE m1 REG_CONTROL;
    m3 ← writel 0 m2 REG_DMA_CONTROL;
    m4 ← writel (Z.lor IRQ_DMA_COMPLETE IRQ_DMA_ERROR) m3 REG_INTERRUPT_ENABLE;
    Some (0, mk_mmio (dev d) (Some m4) BAR0_SIZE).

(** [pcie_sim_mmio_cleanup] on a non-NULL device *)
Definition pcie_sim_mmio_cleanup (d : mmio_device) : mmio_device :=
  mk_mmio (dev d) None 0.

(** [pcie_sim_mmio_read32] *)
Definition pcie_sim_mmio_read32 (d : mmio_device) (offset : Z) : option Z :=
  match bar0_virt d with
  | None => Some 4294967295
  | Some mem =>
      if offset >=? bar0_size d then Some 4294967295
      else
        value ← readl mem offset;
        if offset =? REG_STATUS then
          let value :=
            wrap32 (Z.land value
                      (Z.lnot (Z.lor STATUS_DMA_BUSY STATUS_INTERRUPT_PENDING))) in
          let value :=
            if negb (Dma.dma_active (dev d) =? 0)
            then wrap32 (Z.lor value STATUS_DMA_BUSY) else value in
          let value :=
            if negb (Dma.pending_interrupts (dev d) =? 0)
            then wrap32 (Z.lor value STATUS_INTERRUPT_PENDING) else value in
          Some value
        else if offset =? REG_PERF_LATENCY then
          Some (wrap32 (avg_latency_ns (Dma.stats (dev d)) / 1000))
        else if offset =? REG_PERF_COUNT then
          Some (wrap32 (total_transfers (Dma.stats (dev d))))
        else Some value
  end.

(** [pcie_sim_mmio_write32] *)
Definition pcie_sim_mmio_write32 (d : mmio_device) (offset value : Z)
  : option mmio_device :=
  match bar0_virt d with
  | None => Some d
  | Some mem =>
      if offset >=? bar0_size d then Some d
      else if offset =? REG_CONTROL then
        let '(dv, value) :=
          if negb (Z.land value CONTROL_DMA_RESET =? 0)
          then (set_dma_active (dev d) 0,
                wrap32 (Z.land value (Z.lnot CONTROL_DMA_RESET)))
          else (dev d, value) in
        mem' ← writel value mem offset;
        Some (mk_mmio dv (Some mem') (bar0_size d))
      else if offset =? REG_INTERRUPT_STATUS then
        current ← readl mem offset;
        let new_status := wrap32 (Z.land current (Z.lnot value)) in
        mem' ← writel new_status mem offset;
        Some (mk_mmio (if new_status =? 0
                       then set_pending_interrupts (dev d) 0 else dev d)
                      (Some mem') (bar0_size d))
      else if offset =? REG_ERROR_INJECT then
        let dv :=
          if negb (Z.land value 255 =? 0)
          then set_error_injection (dev d) (Z.land value 255) true
          else set_error_injection (dev d)
                 (Dma.fault_injection_rate (dev d)) false in
        mem' ← writel value mem offset;
        Some (mk_mmio dv (Some mem') (bar0_size d))
      else
        mem' ← writel value mem offset;
        Some (mk_mmio (dev d) (Some mem') (bar0_size d))
  end.

(** [pcie_sim_mmio_update_dma]; [req] is [None] for a NULL request *)
Definition pcie_sim_mmio_update_dma (d : mmio_device)
    (req : option Dma.pcie_sim_transfer_req) (success : bool)
  : option mmio_device :=
  match bar0_virt d with
  | None => Some d
  | Some mem =>
      status ← readl mem REG_STATUS;
      let status := wrap32 (Z.land status (Z.lnot STATUS_DMA_BUSY)) in
      let status :=
        if negb success then wrap32 (Z.lor status STATUS_ERROR) else status in
      m1 ← writel status mem REG_STATUS;
      irq_status ← readl m1 REG_INTERRUPT_STATUS;
      let irq_status :=
        if success then wrap32 (Z.lor irq_status IRQ_DMA_COMPLETE)
        else wrap32 (Z.lor irq_status IRQ_DMA_ERROR) in
      m2 ← writel irq_status m1 REG_INTERRUPT_STATUS;
      m4 ← match success, req with
           | true, Some rq =>
               m3 ← writel (wrap32 (Dma.latency_ns rq / 1000)) m2 REG_PERF_LATENCY;
               writel (wrap32 (total_transfers (Dma.stats (dev d)))) m3
                 REG_PERF_COUNT
           | _, _ => Some m2
           end;
      Some (mk_mmio (set_pending_interrupts (dev d) 1) (Some m4) (bar0_size d))
  end.

End Mmio.

(** BAR0 is mapped with the size that [pcie_sim_mmio_init] gives it *)
Definition mmio_mapped (d : Mmio.mmio_device) : bool :=
  match Mmio.bar0_virt d with
  | Some mem =>
      (Z.of_nat (length mem) =? Mmio.BAR0_SIZE)
      && (Mmio.bar0_size d =? Mmio.BAR0_SIZE)
  | None => false
  end.

(** a mapped device with all registers zero *)
Definition mmio_blank (dv : Dma.pcie_sim_device) : Mmio.mmio_device :=
  Mmio.mk_mmio dv (Some (replicate (Z.to_nat Mmio.BAR0_SIZE) 0)) Mmio.BAR0_SIZE.

(** the word that BAR0 holds at [offset], whatever a read would answer *)
Definition mmio_stored (d : Mmio.mmio_device) (offset : Z) : option Z :=
  mem ← Mmio.bar0_virt d; Mmio.readl mem offset.

(** the values that [pcie_sim_mmio_init] gives the registers: the five
    it writes, and zero from [kzalloc] for the others *)
Definition mmio_reset_value (offset : Z) : Z :=
  if offset =? Mmio.REG_DEVICE_ID then 305441741
  else if offset =? Mmio.REG_STATUS then Mmio.STATUS_DEVICE_READY
  else if offset =? Mmio.REG_CONTROL then Mmio.CONTROL_DEVICE_ENABLE
  else if offset =? Mmio.REG_INTERRUPT_ENABLE
       then Z.lor Mmio.IRQ_DMA_COMPLETE Mmio.IRQ_DMA_ERROR
  else 0.

(** * The test configuration (utils/config.c, utils/config.h)

    The two enumerations are the [int] values that C gives them, so
    that the [default] branches of the switches have a meaning.  A
    [float] is a value of [SpecFloat.spec_float] in the canonical form
    of binary32 (a 24-bit mantissa for a normal number). *)
Module Config.

Definition PCIE_SIM_PATTERN_SMALL_FAST : Z := 0.
Definition PCIE_SIM_PATTERN_LARGE_BURST : Z := 1.
Definition PCIE_SIM_PATTERN_MIXED : Z := 2.
Definition PCIE_SIM_PATTERN_CUSTOM : Z := 3.

Definition PCIE_SIM_ERROR_SCENARIO_NONE : Z := 0.
Definition PCIE_SIM_ERROR_SCENARIO_TIMEOUT : Z := 1.
Definition PCIE_SIM_ERROR_SCENARIO_CORRUPTION : Z := 2.
Definition PCIE_SIM_ERROR_SCENARIO_OVERRUN : Z := 3.

Definition PCIE_SIM_LOAD_NORMAL : Z := 0.

Definition PCIE_SIM_CONFIG_ENABLE_ERRORS : Z := Z.shiftl 1 1.

Record pcie_sim_transfer_config := mk_transfer_config {
  pattern : Z;
  min_size : Z;
  max_size : Z;
  rate_hz : Z;
  burst_count : Z;
  burst_interval_ms : Z
}.

Record pcie_sim_error_config := mk_error_config {
  scenario : Z;
  probability : SpecFloat.spec_float;
  inject_after_count : Z;
  recovery_time_ms : Z
}.

Record pcie_sim_stress_config := mk_stress_config {
  load_type : Z;
  num_threads : Z;
  duration_seconds : Z;
  ramp_up_seconds : Z
}.

Record pcie_sim_log_config := mk_log_config {
  csv_filename : string;
  log_interval_ms : Z;
  max_entries : Z;
  buffer_size : Z
}.

Record pcie_sim_test_config := mk_test_config {
  num_devices : Z;
  transfer : pcie_sim_transfer_config;
  error : pcie_sim_error_config;
  stress : pcie_sim_stress_config;
  logging : pcie_sim_log_config;
  flags : Z
}.

(** the [float] constants of the file *)
Definition f_0_0 : SpecFloat.spec_float := SpecFloat.S754_zero false.
Definition f_1_0 : SpecFloat.spec_float := SpecFloat.S754_finite false 8388608 (-23).
Definition f_0_01 : SpecFloat.spec_float := SpecFloat.S754_finite false 10737418 (-30).
Definition f_0_005 : SpecFloat.spec_float := SpecFloat.S754_finite false 10737418 (-31).
Definition f_0_02 : SpecFloat.spec_float := SpecFloat.S754_finite false 10737418 (-29).

Definition PCIE_SIM_PATTERN_SMALL_FAST_CONFIG : pcie_sim_transfer_config :=
  mk_transfer_config PCIE_SIM_PATTERN_SMALL_FAST 64 1024 10000 1 0.
Definition PCIE_SIM_PATTERN_LARGE_BURST_CONFIG : pcie_sim_transfer_config :=
  mk_transfer_config PCIE_SIM_PATTERN_LARGE_BURST 1048576 4194304 100 10 100.
Definition PCIE_SIM_PATTERN_MIXED_CONFIG : pcie_sim_transfer_config :=
  mk_transfer_config PCIE_SIM_PATTERN_MIXED 1024 65536 1000 5 50.

Definition set_transfer (c : pcie_sim_test_config)
    (t : pcie_sim_transfer_config) : pcie_sim_test_config :=
  mk_test_config (num_devices c) t (error c) (stress c) (logging c) (flags c).

Definition set_error (c : pcie_sim_test_config) (e : pcie_sim_error_config)
    (fl : Z) : pcie_sim_test_config :=
  mk_test_config (num_devices c) (transfer c) e (stress c) (logging c) fl.

(** [pcie_sim_config_init]; the configuration is [None] for a NULL
    pointer, here and below *)
Definition pcie_sim_config_init (config : option pcie_sim_test_config)
  : Z * option pcie_sim_test_config :=
  match config with
  | None => (-1, None)
  | Some _ =>
      (0, Some (mk_test_config 1 PCIE_SIM_PATTERN_MIXED_CONFIG
                  (mk_error_config PCIE_SIM_ERROR_SCENARIO_NONE f_0_0 0 0)
                  (mk_stress_config PCIE_SIM_LOAD_NORMAL 1 10 0)
                  (mk_log_config String.EmptyString 1000 10000 4096)
                  0))
  end.

(** [pcie_sim_config_set_pattern] *)
Definition pcie_sim_config_set_pattern (config : option pcie_sim_test_config)
    (pat : Z) : Z * option pcie_sim_test_config :=
  match config with
  | None => (-1, None)
  | Some c =>
      if pat =? PCIE_SIM_PATTERN_SMALL_FAST then
        (0, Some (set_transfer c PCIE_SIM_PATTERN_SMALL_FAST_CONFIG))
      else if pat =? PCIE_SIM_PATTERN_LARGE_BURST then
        (0, Some (set_transfer c PCIE_SIM_PATTERN_LARGE_BURST_CONFIG))
      else if pat =? PCIE_SIM_PATTERN_MIXED then
        (0, Some (set_transfer c PCIE_SIM_PATTERN_MIXED_CONFIG))
      else if pat =? PCIE_SIM_PATTERN_CUSTOM then
        let t := transfer c in
        (0, Some (set_transfer c
                    (mk_transfer_config PCIE_SIM_PATTERN_CUSTOM (min_size t)
                       (max_size t) (rate_hz t) (burst_count t)
                       (burst_interval_ms t))))
      else (-1, Some c)
  end.

(** [pcie_sim_config_set_custom_pattern] *)
Definition pcie_sim_config_set_custom_pattern
    (config : option pcie_sim_test_config) (size rate : Z)
  : Z * option pcie_sim_test_config :=
  match config with
  | None => (-1, None)
  | Some c =>
      if (size <? 64) || (size >? 4194304) || (rate <? 1) || (rate >? 10000)
      then (-1, Some c)
      else
        (0, Some (set_transfer c
                    (mk_transfer_config PCIE_SIM_PATTERN_CUSTOM size size rate
                       1 0)))
  end.

(** [pcie_sim_config_set_error_scenario]: the scenario is stored before
    the switch looks at it *)
Definition pcie_sim_config_set_error_scenario
    (config : option pcie_sim_test_config) (sc : Z)
  : Z * option pcie_sim_test_config :=
  match config with
  | None => (-1, None)
  | Some c =>
      let e := error c in
      let on := wrap32 (Z.lor (flags c) PCIE_SIM_CONFIG_ENABLE_ERRORS) in
      let off :=
        wrap32 (Z.land (flags c) (Z.lnot PCIE_SIM_CONFIG_ENABLE_ERRORS)) in
      if sc =? PCIE_SIM_ERROR_SCENARIO_NONE then
        (0, Some (set_error c
                    (mk_error_config sc f_0_0 (inject_after_count e)
                       (recovery_time_ms e)) off))
      else if sc =? PCIE_SIM_ERROR_SCENARIO_TIMEOUT then
        (0, Some (set_error c
                    (mk_error_config sc f_0_01 (inject_after_count e) 100) on))
      else if sc =? PCIE_SIM_ERROR_SCENARIO_CORRUPTION then
        (0, Some (set_error c
                    (mk_error_config sc f_0_005 (inject_after_count e) 50) on))
      else if sc =? PCIE_SIM_ERROR_SCENARIO_OVERRUN then
        (0, Some (set_error c
                    (mk_error_config sc f_0_02 (inject_after_count e) 200) on))
      else
        (-1, Some (set_error c
                     (mk_error_config sc (probability e) (inject_after_count e)
                        (recovery_time_ms e)) (flags c)))
  end.

(** [pcie_sim_config_validate] *)
Definition pcie_sim_config_validate (config : option pcie_sim_test_config)
  : Z :=
  match config with
  | None => -1
  | Some c =>
      let t := transfer c in
      if (num_devices c <? 1) || (num_devices c >? 8) then -1
      else if (min_size t <? 64) || (max_size t >? 4194304) then -1
      else if min_size t >? max_size t then -1
      else if (rate_hz t <? 1) || (rate_hz t >? 10000) then -1
      else if SpecFloat.SFltb (probability (error c)) f_0_0
              || SpecFloat.SFltb f_1_0 (probability (error c)) then -1
      else if num_threads (stress c) >? 64 then -1
      else if duration_seconds (stress c) >? 3600 then -1
      else 0
  end.

(** [pcie_sim_parse_pattern]; the string is [None] for a NULL pointer *)
Definition pcie_sim_parse_pattern (pattern_str : option string) : Z :=
  match pattern_str with
  | None => PCIE_SIM_PATTERN_MIXED
  | Some s =>
      if String.eqb s "small-fast" then PCIE_SIM_PATTERN_SMALL_FAST
      else if String.eqb s "large-burst" then PCIE_SIM_PATTERN_LARGE_BURST
      else if String.eqb s "mixed" then PCIE_SIM_PATTERN_MIXED
      else if String.eqb s "custom" then PCIE_SIM_PATTERN_CUSTOM
      else PCIE_SIM_PATTERN_MIXED
  end.

(** [pcie_sim_parse_error_scenario] *)
Definition pcie_sim_parse_error_scenario (error_str : option string) : Z :=
  match error_str with
  | None => PCIE_SIM_ERROR_SCENARIO_NONE
  | Some s =>
      if String.eqb s "timeout" then PCIE_SIM_ERROR_SCENARIO_TIMEOUT
      else if String.eqb s "corruption" then PCIE_SIM_ERROR_SCENARIO_CORRUPTION
      else if String.eqb s "overrun" then PCIE_SIM_ERROR_SCENARIO_OVERRUN
      else if String.eqb s "none" then PCIE_SIM_ERROR_SCENARIO_NONE
      else PCIE_SIM_ERROR_SCENARIO_NONE
  end.

(** [pcie_sim_pattern_to_string] *)
Definition pcie_sim_pattern_to_string (pat : Z) : string :=
  if pat =? PCIE_SIM_PATTERN_SMALL_FAST then "small-fast"
  else if pat =? PCIE_SIM_PATTERN_LARGE_BURST then "large-burst"
  else if pat =? PCIE_SIM_PATTERN_MIXED then "mixed"
  else if pat =? PCIE_SIM_PATTERN_CUSTOM then "custom"
  else "unknown".

(** [pcie_sim_error_scenario_to_string] *)
Definition pcie_sim_error_scenario_to_string (sc : Z) : string :=
  if sc =? PCIE_SIM_ERROR_SCENARIO_NONE then "none"
  else if sc =? PCIE_SIM_ERROR_SCENARIO_TIMEOUT then "timeout"
  else if sc =? PCIE_SIM_ERROR_SCENARIO_CORRUPTION then "corruption"
  else if sc =? PCIE_SIM_ERROR_SCENARIO_OVERRUN then "overrun"
  else "unknown".

End Config.

(** * Properties *)

(** ** Arithmetic of the machine types *)

Lemma wrap64_small x : 0 <= x < 2 ^ 64 -> wrap64 x = x.
Proof. intros H. unfold wrap64. apply Z.mod_small. exact H. Qed.

Lemma wrap32_small x : 0 <= x < 2 ^ 32 -> wrap32 x = x.
Proof. intros H. unfold wrap32. apply Z.mod_small. exact H. Qed.

Lemma wrap64_range x : 0 <= wrap64 x < 2 ^ 64.
Proof. unfold wrap64. apply Z.mod_pos_bound. lia. Qed.

Lemma wrap32_range x : 0 <= wrap32 x < 2 ^ 32.
Proof. unfold wrap32. apply Z.mod_pos_bound. lia. Qed.

Lemma int32_small x : - 2 ^ 31 <= x < 2 ^ 31 -> int32 x = x.
Proof. intros H. unfold int32. rewrite Z.mod_small; lia. Qed.

(** ** One accepted transfer in each backend *)

Lemma accepted_spec x :
  accepted x = true ->
  1 <= x_size x <= 1024 * 1024 /\ (x_direction x = 0 \/ x_direction x = 1)
  /\ 0 <= x_t0 x <= x_t1 x /\ x_t1 x < 2 ^ 63.
Proof. unfold accepted. intros H. lia. Qed.

Lemma accepted_latency x :
  accepted x = true -> x_latency x = x_t1 x - x_t0 x /\ 0 <= x_latency x < 2 ^ 63.
Proof.
  intros H. apply accepted_spec in H. unfold x_latency.
  rewrite wrap64_small; lia.
Qed.

Lemma user_buffer_length x :
  0 <= x_size x -> Z.of_nat (length (user_buffer x)) = x_size x.
Proof. intros H. unfold user_buffer. rewrite length_replicate. lia. Qed.

Lemma kernel_transfer_accepted dev x :
  accepted x = true ->
  Dma.r_ret (kernel_transfer dev x) = 0 /\
  Dma.stats (Dma.r_dev (kernel_transfer dev x))
  = kernel_record (Dma.stats dev) (x_size x) (x_latency x).
Proof.
  intros H. pose proof (accepted_spec x H) as (Hs & Hd & _).
  unfold kernel_transfer, Dma.pcie_sim_dma_transfer, Dma.validate_transfer_request,
    kernel_request, Dma.MIN_TRANSFER_SIZE, Dma.MAX_TRANSFER_SIZE. cbn [Dma.buffer Dma.size Dma.direction].
  replace (x_size x <? 1) with false by lia.
  replace (x_size x >? 1024 * 1024) with false by lia.
  destruct Hd as [Hd | Hd]; rewrite Hd; cbn -[Z.mul]; unfold Dma.copy_from_user.
  - rewrite user_buffer_length by lia. rewrite Z.leb_refl. split; reflexivity.
  - rewrite user_buffer_length by lia. rewrite Z.leb_refl. split; reflexivity.
Qed.

Lemma linux_stats_of_lookup g d :
  LinuxSim.g_sim_devices g !! 0%nat = Some d ->
  linux_stats_of g = LinuxSim.stats d.
Proof.
  intros H. unfold linux_stats_of, LinuxSim.pcie_sim_get_stats_linux.
  cbn. change (Z.to_nat 0) with 0%nat. rewrite H. reflexivity.
Qed.

Lemma linux_transfer_lookup g x d :
  x_size x <> 0 ->
  LinuxSim.g_sim_devices g !! 0%nat = Some d ->
  t_err (linux_transfer g x) = PCIE_SIM_SUCCESS /\
  LinuxSim.g_sim_devices (t_state (linux_transfer g x)) !! 0%nat
  = Some (LinuxSim.mk_dev (LinuxSim.active d)
            (LinuxSim.update_stats (LinuxSim.stats d) (x_size x) (x_latency x))
            (LinuxSim.start_time d) (LinuxSim.device_name d)).
Proof.
  intros Hs Hd. unfold linux_transfer, LinuxSim.pcie_sim_transfer_linux.
  replace (x_size x =? 0) with false by lia. cbn.
  split; [reflexivity |].
  change (Z.to_nat 0) with 0%nat. rewrite list_lookup_alter, Hd. reflexivity.
Qed.

Lemma linux_transfer_keeps_device g x d :
  LinuxSim.g_sim_devices g !! 0%nat = Some d ->
  exists d', LinuxSim.g_sim_devices (t_state (linux_transfer g x)) !! 0%nat = Some d'.
Proof.
  intros Hd. destruct (Z.eq_dec (x_size x) 0) as [Hz | Hz].
  - unfold linux_transfer, LinuxSim.pcie_sim_transfer_linux.
    rewrite Hz. cbn. eauto.
  - destruct (linux_transfer_lookup g x d Hz Hd) as [_ H]. eauto.
Qed.

Lemma linux_run_snoc xs x :
  linux_run (xs ++ [x]) = t_state (linux_transfer (linux_run xs) x).
Proof. unfold linux_run. rewrite fold_left_app. reflexivity. Qed.

Lemma linux_run_device xs :
  exists d, LinuxSim.g_sim_devices (linux_run xs) !! 0%nat = Some d.
Proof.
  induction xs as [| x xs IH] using rev_ind.
  - eexists. reflexivity.
  - destruct IH as [d Hd]. rewrite linux_run_snoc.
    eapply linux_transfer_keeps_device; eauto.
Qed.

Lemma linux_stats_snoc xs x :
  x_size x <> 0 ->
  linux_stats (xs ++ [x])
  = LinuxSim.update_stats (linux_stats xs) (x_size x) (x_latency x).
Proof.
  intros Hs. unfold linux_stats. rewrite linux_run_snoc.
  destruct (linux_run_device xs) as [d Hd].
  destruct (linux_transfer_lookup _ x d Hs Hd) as [_ H].
  rewrite (linux_stats_of_lookup _ _ H), (linux_stats_of_lookup _ _ Hd).
  reflexivity.
Qed.

Lemma kernel_run_snoc xs x :
  kernel_run (xs ++ [x]) = Dma.r_dev (kernel_transfer (kernel_run xs) x).
Proof. unfold kernel_run. rewrite fold_left_app. reflexivity. Qed.

Lemma kernel_stats_snoc xs x :
  accepted x = true ->
  kernel_stats (xs ++ [x])
  = kernel_record (kernel_stats xs) (x_size x) (x_latency x).
Proof.
  intros H. unfold kernel_stats. rewrite kernel_run_snoc.
  apply kernel_transfer_accepted. exact H.
Qed.

Lemma windows_stats_of_lookup g d :
  WindowsSim.g_devices g !! 0%nat = Some d ->
  WindowsSim.active d = true ->
  windows_stats_of g = WindowsSim.stats d.
Proof.
  intros H Ha. unfold windows_stats_of, WindowsSim.pcie_sim_get_stats_impl.
  cbn. change (Z.to_nat 0) with 0%nat. rewrite H, Ha. reflexivity.
Qed.

Lemma windows_run_snoc xs x :
  windows_run (xs ++ [x]) = t_state (windows_transfer (windows_run xs) x).
Proof. unfold windows_run. rewrite fold_left_app. reflexivity. Qed.

Lemma windows_transfer_lookup g x d :
  1 <= x_size x <= 1024 * 1024 ->
  WindowsSim.g_devices g !! 0%nat = Some d ->
  WindowsSim.active d = true ->
  t_err (windows_transfer g x) = PCIE_SIM_SUCCESS /\
  WindowsSim.g_devices (t_state (windows_transfer g x)) !! 0%nat
  = Some (WindowsSim.mk_dev true (WindowsSim.mutex d)
            (WindowsSim.update_stats (WindowsSim.stats d) (x_size x) (x_latency x))
            (WindowsSim.frequency d) (WindowsSim.device_name d)).
Proof.
  intros Hs Hd Ha. unfold windows_transfer, WindowsSim.pcie_sim_transfer_impl.
  replace (x_size x =? 0) with false by lia.
  replace (x_size x >? 1024 * 1024) with false by lia.
  cbn -[Z.mul]. change (Z.to_nat 0) with 0%nat. rewrite Hd, Ha. cbn -[Z.mul].
  split; [reflexivity |].
  rewrite list_lookup_insert_eq; [reflexivity |].
  apply lookup_lt_Some in Hd. exact Hd.
Qed.

Lemma windows_transfer_keeps_device g x d :
  WindowsSim.g_devices g !! 0%nat = Some d ->
  WindowsSim.active d = true ->
  exists d', WindowsSim.g_devices (t_state (windows_transfer g x)) !! 0%nat = Some d'
             /\ WindowsSim.active d' = true.
Proof.
  intros Hd Ha.
  destruct (Z_le_dec 1 (x_size x)) as [H1 |];
    [destruct (Z_le_dec (x_size x) (1024 * 1024)) as [H2 |] |].
  - destruct (windows_transfer_lookup g x d (conj H1 H2) Hd Ha) as [_ H]. eauto.
  - unfold windows_transfer, WindowsSim.pcie_sim_transfer_impl.
    replace (x_size x >? 1024 * 1024) with true by lia.
    rewrite orb_true_r. cbn. eauto.
  - unfold windows_transfer, WindowsSim.pcie_sim_transfer_impl.
    destruct (x_size x =? 0) eqn:E0; [cbn; eauto |].
    destruct (x_size x >? 1024 * 1024) eqn:E1; [cbn; eauto |].
    cbn -[Z.mul]. change (Z.to_nat 0) with 0%nat. rewrite Hd, Ha. cbn -[Z.mul].
    eexists. split; [apply list_lookup_insert_eq; eapply lookup_lt_Some; eauto | reflexivity].
Qed.

Lemma windows_run_device xs :
  exists d, WindowsSim.g_devices (windows_run xs) !! 0%nat = Some d
            /\ WindowsSim.active d = true.
Proof.
  induction xs as [| x xs IH] using rev_ind.
  - eexists. split; reflexivity.
  - destruct IH as (d & Hd & Ha). rewrite windows_run_snoc.
    eapply windows_transfer_keeps_device; eauto.
Qed.

Lemma windows_stats_snoc xs x :
  1 <= x_size x <= 1024 * 1024 ->
  windows_stats (xs ++ [x])
  = WindowsSim.update_stats (windows_stats xs) (x_size x) (x_latency x).
Proof.
  intros Hs. unfold windows_stats. rewrite windows_run_snoc.
  destruct (windows_run_device xs) as (d & Hd & Ha).
  destruct (windows_transfer_lookup _ x d Hs Hd Ha) as [_ H].
  rewrite (windows_stats_of_lookup _ _ H eq_refl),
    (windows_stats_of_lookup _ _ Hd Ha).
  reflexivity.
Qed.

(** ** Sequences of accepted transfers *)

Ltac zbool :=
  repeat match goal with
  | |- context [Z.gtb ?a ?b] => rewrite (Z.gtb_ltb a b)
  | |- context [Z.geb ?a ?b] => rewrite (Z.geb_leb a b)
  | |- context [Z.eqb ?a ?b] => destruct (Z.eqb_spec a b)
  | |- context [Z.ltb ?a ?b] => destruct (Z.ltb_spec a b)
  | |- context [Z.leb ?a ?b] => destruct (Z.leb_spec a b)
  end.

Ltac open_stats xs :=
  destruct (kernel_stats xs) as [ktt ktb kte kavg kmin kmax],
           (linux_stats xs) as [ltt ltb lte lavg lmin lmax],
           (windows_stats xs) as [wtt wtb wte wavg wmin wmax].

Lemma forallb_snoc {A} (f : A -> bool) xs x :
  forallb f (xs ++ [x]) = true <-> forallb f xs = true /\ f x = true.
Proof. rewrite forallb_app. cbn. rewrite andb_true_r. apply andb_true_iff. Qed.

Lemma wrap64_succ_length {A} (xs : list A) :
  Z.of_nat (length xs + 1) < 2 ^ 64 ->
  wrap64 (Z.of_nat (length xs) + 1) = Z.of_nat (length xs + 1).
Proof. intros H. rewrite wrap64_small; lia. Qed.

Lemma kernel_stats_nil : kernel_stats [] = zero_stats.
Proof. reflexivity. Qed.

Lemma linux_stats_nil : linux_stats [] = zero_stats.
Proof. vm_compute. reflexivity. Qed.

Lemma windows_stats_nil : windows_stats [] = WindowsSim.fresh_stats.
Proof. vm_compute. reflexivity. Qed.

(** the counters and the maximum do not depend on the backend *)
Lemma counters_agree xs :
  forallb accepted xs = true -> Z.of_nat (length xs) < 2 ^ 64 ->
  (total_transfers (kernel_stats xs) = Z.of_nat (length xs)
   /\ total_transfers (linux_stats xs) = Z.of_nat (length xs)
   /\ total_transfers (windows_stats xs) = Z.of_nat (length xs))
  /\ (total_bytes (kernel_stats xs) = total_bytes (linux_stats xs)
      /\ total_bytes (windows_stats xs) = total_bytes (linux_stats xs))
  /\ (total_errors (kernel_stats xs) = 0
      /\ total_errors (linux_stats xs) = 0
      /\ total_errors (windows_stats xs) = 0)
  /\ (max_latency_ns (kernel_stats xs) = max_latency_ns (linux_stats xs)
      /\ max_latency_ns (windows_stats xs) = max_latency_ns (linux_stats xs)
      /\ 0 <= max_latency_ns (linux_stats xs))
  /\ (xs = [] -> max_latency_ns (linux_stats xs) = 0).
Proof.
  induction xs as [| x xs IH] using rev_ind; intros Hacc Hlen.
  - cbn. repeat split; try reflexivity; lia.
  - apply forallb_snoc in Hacc as [Hacc Hx].
    rewrite length_app in Hlen |- *. cbn [length] in Hlen |- *.
    specialize (IH Hacc ltac:(lia)).
    pose proof (accepted_spec x Hx) as (Hs & Hd & _).
    pose proof (accepted_latency x Hx) as [_ Hl].
    rewrite kernel_stats_snoc, linux_stats_snoc, windows_stats_snoc
      by (assumption || lia).
    destruct IH as ((t1 & t2 & t3) & (b1 & b2) & (e1 & e2 & e3)
                    & (m1 & m2 & m3) & Hf).
    open_stats xs.
    cbn in t1, t2, t3, b1, b2, e1, e2, e3, m1, m2, m3, Hf. subst.
    unfold kernel_record, LinuxSim.update_stats, WindowsSim.update_stats.
    cbn -[Z.mul Z.pow wrap64].
    rewrite (wrap64_succ_length xs Hlen).
    destruct (Z.eqb_spec (Z.of_nat (length xs + 1)) 1) as [E | E].
    + assert (E0 : xs = []) by (destruct xs; [reflexivity | cbn in E; lia]).
      specialize (Hf E0). subst lmax.
      cbn -[Z.mul Z.pow wrap64]; repeat split; try reflexivity; try lia.
      all: try (zbool; lia).
      intros Habs. destruct xs; discriminate Habs.
    + cbn -[Z.mul Z.pow wrap64]; repeat split; try reflexivity; try lia.
      all: try (zbool; lia).
      intros Habs. destruct xs; discriminate Habs.
Qed.

(** transfers of nonzero measured latency *)
Lemma minimum_agree xs :
  forallb accepted xs = true -> Z.of_nat (length xs) < 2 ^ 64 ->
  forallb (fun x => 0 <? x_latency x) xs = true ->
  xs <> [] ->
  min_latency_ns (kernel_stats xs) = min_latency_ns (linux_stats xs)
  /\ min_latency_ns (windows_stats xs) = min_latency_ns (linux_stats xs)
  /\ 0 < min_latency_ns (linux_stats xs).
Proof.
  induction xs as [| x xs IH] using rev_ind; intros Hacc Hlen Hpos Hne.
  - congruence.
  - clear Hne. apply forallb_snoc in Hacc as [Hacc Hx].
    apply forallb_snoc in Hpos as [Hpos Hxpos].
    rewrite length_app in Hlen. cbn [length] in Hlen.
    pose proof (counters_agree xs Hacc ltac:(lia)) as ((t1 & t2 & t3) & _).
    specialize (IH Hacc ltac:(lia) Hpos).
    pose proof (accepted_spec x Hx) as (Hs & Hd & _).
    pose proof (accepted_latency x Hx) as [_ Hl].
    rewrite kernel_stats_snoc, linux_stats_snoc, windows_stats_snoc
      by (assumption || lia).
    destruct xs as [| y ys].
    + rewrite kernel_stats_nil, linux_stats_nil, windows_stats_nil.
      unfold kernel_record, LinuxSim.update_stats, WindowsSim.update_stats,
        WindowsSim.fresh_stats, zero_stats, UINT64_MAX.
      cbn -[Z.mul Z.pow wrap64]. change (wrap64 (0 + 1)) with 1.
      cbn -[Z.mul Z.pow wrap64]. zbool; cbn -[Z.pow] in *; lia.
    + specialize (IH ltac:(discriminate)). destruct IH as (m1 & m2 & m3).
      open_stats (y :: ys). cbn in t1, t2, t3, m1, m2, m3. subst.
      unfold kernel_record, LinuxSim.update_stats, WindowsSim.update_stats.
      cbn -[Z.mul Z.pow wrap64 Z.of_nat].
      rewrite wrap64_small by (cbn [length] in *; lia).
      destruct (Z.eqb_spec (Z.of_nat (length (y :: ys)) + 1) 1) as [E | E];
        [cbn [length] in E; lia |].
      cbn -[Z.mul Z.pow wrap64 Z.of_nat]. zbool; cbn; lia.
Qed.

(** the averages stay below 2^63 while the clock does *)
Lemma kernel_avg_range xs :
  forallb accepted xs = true ->
  0 <= avg_latency_ns (kernel_stats xs) < 2 ^ 63.
Proof.
  induction xs as [| x xs IH] using rev_ind; intros Hacc.
  - cbn. lia.
  - apply forallb_snoc in Hacc as [Hacc Hx]. specialize (IH Hacc).
    pose proof (accepted_latency x Hx) as [_ Hl].
    rewrite kernel_stats_snoc by assumption.
    destruct (kernel_stats xs) as [ktt ktb kte kavg kmin kmax].
    cbn -[Z.pow wrap64] in *. rewrite wrap64_small by lia.
    split; [apply Z.div_pos; lia | apply Z.div_lt_upper_bound; lia].
Qed.

Lemma linux_avg_range xs :
  forallb accepted xs = true ->
  0 <= avg_latency_ns (linux_stats xs) < 2 ^ 63.
Proof.
  induction xs as [| x xs IH] using rev_ind; intros Hacc.
  - rewrite linux_stats_nil. cbn. lia.
  - apply forallb_snoc in Hacc as [Hacc Hx]. specialize (IH Hacc).
    pose proof (accepted_spec x Hx) as (Hs & _).
    pose proof (accepted_latency x Hx) as [_ Hl].
    rewrite linux_stats_snoc by lia.
    destruct (linux_stats xs) as [ltt ltb lte lavg lmin lmax].
    unfold LinuxSim.update_stats. cbn -[Z.pow wrap64] in *.
    destruct (wrap64 (ltt + 1) =? 1); cbn -[Z.pow wrap64]; [lia |].
    rewrite wrap64_small by lia.
    split; [apply Z.div_pos; lia | apply Z.div_lt_upper_bound; lia].
Qed.

Lemma windows_avg_range xs M :
  forallb accepted xs = true ->
  Z.of_nat (length xs) < 2 ^ 64 ->
  forallb (fun y => x_latency y <=? M) xs = true ->
  0 <= M -> Z.of_nat (length xs) * M < 2 ^ 64 ->
  0 <= avg_latency_ns (windows_stats xs) <= M.
Proof.
  induction xs as [| x xs IH] using rev_ind; intros Hacc Hlen Hb HM Hprod.
  - rewrite windows_stats_nil. cbn. lia.
  - apply forallb_snoc in Hacc as [Hacc Hx].
    apply forallb_snoc in Hb as [Hb Hxb].
    rewrite length_app in Hlen, Hprod. cbn [length] in Hlen, Hprod.
    specialize (IH Hacc ltac:(lia) Hb HM ltac:(nia)).
    pose proof (counters_agree xs Hacc ltac:(lia)) as ((_ & _ & t3) & _).
    pose proof (accepted_spec x Hx) as (Hs & _).
    pose proof (accepted_latency x Hx) as [_ Hl].
    rewrite windows_stats_snoc by lia.
    destruct (windows_stats xs) as [wtt wtb wte wavg wmin wmax].
    unfold WindowsSim.update_stats. cbn -[Z.pow wrap64] in *. subst wtt.
    set (n := Z.of_nat (length xs)) in *.
    assert (Hn : 0 <= n) by (subst n; lia).
    assert (Hn1 : Z.of_nat (length xs + 1) = n + 1) by (subst n; lia).
    rewrite Hn1 in *.
    rewrite (wrap64_small (n + 1)) by lia.
    replace (n + 1 - 1) with n by lia.
    destruct (Z.eqb_spec (n + 1) 1); [lia |].
    rewrite (wrap64_small n) by lia.
    rewrite (wrap64_small (wavg * n)) by nia.
    rewrite wrap64_small by nia.
    split; [apply Z.div_pos; nia | apply Z.div_le_upper_bound; nia].
Qed.

(** an accepted request succeeds in each backend, whatever ran before *)
Lemma accepted_transfers_succeed xs x :
  accepted x = true ->
  Dma.r_ret (kernel_transfer (kernel_run xs) x) = 0
  /\ t_err (linux_transfer (linux_run xs) x) = PCIE_SIM_SUCCESS
  /\ t_err (windows_transfer (windows_run xs) x) = PCIE_SIM_SUCCESS.
Proof.
  intros Hx. pose proof (accepted_spec x Hx) as (Hs & _).
  destruct (linux_run_device xs) as [dl Hdl].
  destruct (windows_run_device xs) as (dw & Hdw & Ha).
  split; [apply kernel_transfer_accepted; exact Hx | split].
  - apply (linux_transfer_lookup _ x dl); [lia | exact Hdl].
  - apply (windows_transfer_lookup _ x dw); assumption.
Qed.

(** ** C1: the running average *)

(** C1, as stated, fails: in the kernel backend the first sample is
    halved (one transfer of latency 100 leaves an average of 50), and
    the Windows backend keeps the cumulative mean (latencies 100, 200,
    600 leave 300 where the policy gives 375). *)
Lemma running_average_policy_violated :
  ~ running_average_policy kernel_stats
  /\ ~ running_average_policy windows_stats.
Proof.
  split; intros H.
  - specialize (H [] sample_1 eq_refl eq_refl). vm_compute in H. discriminate H.
  - specialize (H [sample_1; sample_2] sample_3 eq_refl eq_refl).
    vm_compute in H. discriminate H.
Qed.

(** C1, amended: for every sequence of accepted transfers, the Linux
    simulation follows the policy (first sample, then
    [(avg + latency) / 2]); the kernel backend applies
    [(avg + latency) / 2] at every transfer after the first; the Windows
    simulation starts from the first sample and then keeps the
    cumulative mean [(avg * n + latency) / (n + 1)] over the [n] earlier
    transfers, as long as [n + 1] times the largest latency fits 64
    bits. *)
Theorem running_average_by_backend (xs : list transfer) (x : transfer) (M : Z) :
  forallb accepted (xs ++ [x]) = true ->
  Z.of_nat (length (xs ++ [x])) < 2 ^ 64 ->
  forallb (fun y => x_latency y <=? M) (xs ++ [x]) = true ->
  Z.of_nat (length (xs ++ [x])) * M < 2 ^ 64 ->
  avg_latency_ns (linux_stats (xs ++ [x]))
  = match xs with
    | [] => x_latency x
    | _ :: _ => (avg_latency_ns (linux_stats xs) + x_latency x) / 2
    end
  /\ (xs <> [] ->
      avg_latency_ns (kernel_stats (xs ++ [x]))
      = (avg_latency_ns (kernel_stats xs) + x_latency x) / 2)
  /\ avg_latency_ns (windows_stats (xs ++ [x]))
     = match xs with
       | [] => x_latency x
       | _ :: _ =>
           (avg_latency_ns (windows_stats xs) * Z.of_nat (length xs)
            + x_latency x) / (Z.of_nat (length xs) + 1)
       end.
Proof.
  intros Hacc Hlen Hb Hprod.
  apply forallb_snoc in Hacc as [Hacc Hx].
  apply forallb_snoc in Hb as [Hb Hxb].
  rewrite length_app in Hlen, Hprod. cbn [length] in Hlen, Hprod.
  pose proof (counters_agree xs Hacc ltac:(lia)) as ((_ & t2 & t3) & _).
  pose proof (accepted_spec x Hx) as (Hs & _).
  pose proof (accepted_latency x Hx) as [_ Hl].
  pose proof (kernel_avg_range xs Hacc) as Hk.
  pose proof (linux_avg_range xs Hacc) as Hlx.
  assert (HM : 0 <= M) by lia.
  pose proof (windows_avg_range xs M Hacc ltac:(lia) Hb HM ltac:(nia)) as Hw.
  rewrite kernel_stats_snoc, linux_stats_snoc, windows_stats_snoc
    by (assumption || lia).
  open_stats xs.
  unfold kernel_record, LinuxSim.update_stats, WindowsSim.update_stats.
  cbn -[Z.pow wrap64] in *. subst ltt wtt.
  set (n := Z.of_nat (length xs)) in *.
  assert (Hn : 0 <= n) by (subst n; lia).
  assert (Hn1 : Z.of_nat (length xs + 1) = n + 1) by (subst n; lia).
  rewrite Hn1 in *.
  rewrite (wrap64_small (n + 1)) by lia.
  replace (n + 1 - 1) with n by lia.
  destruct xs as [| y ys].
  - cbn in n. subst n. cbn -[Z.pow wrap64].
    repeat split; [congruence].
  - assert (n + 1 <> 1) by (subst n; cbn [length]; lia).
    destruct (Z.eqb_spec (n + 1) 1); [lia |]. cbn -[Z.pow wrap64].
    rewrite (wrap64_small n) by lia.
    rewrite (wrap64_small (wavg * n)) by nia.
    rewrite !wrap64_small by nia.
    repeat split.
Qed.

Lemma running_average_by_backend_witness :
  avg_latency_ns (linux_stats ([sample_1; sample_2] ++ [sample_3])) = 375
  /\ avg_latency_ns (kernel_stats ([sample_1; sample_2] ++ [sample_3])) = 362
  /\ avg_latency_ns (windows_stats ([sample_1; sample_2] ++ [sample_3])) = 300.
Proof.
  destruct (running_average_by_backend [sample_1; sample_2] sample_3 600
              eq_refl eq_refl eq_refl eq_refl) as (Hl & Hk & Hw).
  specialize (Hk ltac:(discriminate)).
  rewrite Hl, Hk, Hw. vm_compute. repeat split.
Defined.

(** ** C2: the three backends against each other *)

(** C2, as stated, fails: after one 4096-byte transfer of latency 100
    the kernel block holds an average of 50 and the Linux block 100;
    after latencies 100, 200, 600 the Windows block holds 300 and the
    Linux block 375. *)
Lemma backends_not_equivalent :
  ~ backends_equivalent
  /\ kernel_stats [sample_1] <> linux_stats [sample_1]
  /\ windows_stats [sample_1; sample_2; sample_3]
     <> linux_stats [sample_1; sample_2; sample_3].
Proof.
  assert (H1 : kernel_stats [sample_1] <> linux_stats [sample_1]).
  { vm_compute. discriminate. }
  split; [| split].
  - intros H. destruct (H [sample_1] eq_refl eq_refl) as [Hk _].
    exact (H1 Hk).
  - exact H1.
  - vm_compute. discriminate.
Qed.

(** C2, amended: for every sequence of requests that all three backends
    accept, with the same clock readings, the three statistics blocks
    agree on [total_transfers], [total_bytes], [total_errors] and
    [max_latency_ns]; they agree on [min_latency_ns] when the sequence
    is not empty and every measured latency is nonzero.  The average is
    not part of the agreement. *)
Theorem backends_agree_on_counters (xs : list transfer) :
  forallb accepted xs = true ->
  Z.of_nat (length xs) < 2 ^ 64 ->
  (total_transfers (kernel_stats xs) = total_transfers (linux_stats xs)
   /\ total_transfers (windows_stats xs) = total_transfers (linux_stats xs))
  /\ (total_bytes (kernel_stats xs) = total_bytes (linux_stats xs)
      /\ total_bytes (windows_stats xs) = total_bytes (linux_stats xs))
  /\ (total_errors (kernel_stats xs) = total_errors (linux_stats xs)
      /\ total_errors (windows_stats xs) = total_errors (linux_stats xs))
  /\ (max_latency_ns (kernel_stats xs) = max_latency_ns (linux_stats xs)
      /\ max_latency_ns (windows_stats xs) = max_latency_ns (linux_stats xs))
  /\ (xs <> [] ->
      forallb (fun x => 0 <? x_latency x) xs = true ->
      min_latency_ns (kernel_stats xs) = min_latency_ns (linux_stats xs)
      /\ min_latency_ns (windows_stats xs) = min_latency_ns (linux_stats xs)).
Proof.
  intros Hacc Hlen.
  destruct (counters_agree xs Hacc Hlen)
    as ((t1 & t2 & t3) & (b1 & b2) & (e1 & e2 & e3) & (m1 & m2 & _) & _).
  repeat split; try congruence.
  all: destruct (minimum_agree xs Hacc Hlen) as (? & ? & _); assumption.
Qed.

Lemma backends_agree_on_counters_witness :
  total_transfers (kernel_stats [sample_1; sample_2; sample_3])
  = total_transfers (linux_stats [sample_1; sample_2; sample_3])
  /\ min_latency_ns (windows_stats [sample_1; sample_2; sample_3])
     = min_latency_ns (linux_stats [sample_1; sample_2; sample_3]).
Proof.
  destruct (backends_agree_on_counters [sample_1; sample_2; sample_3]
              eq_refl eq_refl) as ((Ht & _) & _ & _ & _ & Hmin).
  destruct (Hmin ltac:(discriminate) eq_refl) as [_ Hw].
  split; assumption.
Defined.

(** ** C3: validation of a request *)


Lemma kernel_validate_spec req :
  Dma.validate_transfer_request req = 0
  <-> (Dma.buffer req <> None
       /\ 1 <= Dma.size req <= 1024 * 1024 /\ Dma.direction req <= 1).
Proof.
  unfold Dma.validate_transfer_request, Dma.MIN_TRANSFER_SIZE,
    Dma.MAX_TRANSFER_SIZE, EINVAL.
  destruct (Dma.buffer req); [| split; [discriminate | intros [H _]; congruence]].
  zbool; cbn; split; try discriminate; try lia;
    intros; repeat split; try discriminate; lia.
Qed.

Lemma kernel_validate_codes req :
  Dma.validate_transfer_request req = 0
  \/ Dma.validate_transfer_request req = - EINVAL.
Proof.
  unfold Dma.validate_transfer_request.
  destruct (Dma.buffer req); [| right; reflexivity].
  destruct (_ || _); [right; reflexivity |].
  destruct (_ >? _); [right | left]; reflexivity.
Qed.



(** ** C4: reads against writes in the timing models *)

(** C4, as stated, fails: for 4096 bytes and no jitter the kernel timing
    model asks for 14 microseconds in either direction, and the Windows
    one for 5 microseconds in either direction. *)
Lemma direction_asymmetry_violated :
  ~ kernel_direction_asymmetry /\ ~ windows_direction_asymmetry.
Proof.
  split; intros H.
  - specialize (H 4096 0 ltac:(lia) ltac:(lia)). vm_compute in H. discriminate H.
  - specialize (H 4096 0 0 ltac:(lia) ltac:(lia) ltac:(lia)).
    vm_compute in H. discriminate H.
Qed.

Lemma linux_write_latency size :
  exists k, 1 <= k < 2 ^ 44
            /\ LinuxSim.transfer_latency size PCIE_SIM_TO_DEVICE = 10000 * k
            /\ LinuxSim.transfer_latency size PCIE_SIM_FROM_DEVICE = 12000 * k.
Proof.
  unfold LinuxSim.transfer_latency, PCIE_SIM_TO_DEVICE, PCIE_SIM_FROM_DEVICE.
  cbn -[Z.mul Z.pow wrap64 Z.div].
  pose proof (wrap64_range (size + 1024 * 1024 - 1)) as Hr.
  set (m := wrap64 (size + 1024 * 1024 - 1) / (1024 * 1024)).
  assert (Hm : 0 <= m < 2 ^ 44).
  { subst m. split; [apply Z.div_pos; lia |].
    apply Z.div_lt_upper_bound; lia. }
  exists (if m =? 0 then 1 else m).
  destruct (Z.eqb_spec m 0) as [E | E].
  - repeat split; try lia; rewrite !wrap64_small by lia; reflexivity.
  - repeat split; try lia.
    + rewrite wrap64_small by lia. reflexivity.
    + rewrite !wrap64_small by (rewrite ?wrap64_small; lia).
      replace (10000 * m * 12) with (12000 * m * 10) by lia.
      apply Z.div_mul. lia.
Qed.

(** C4, amended: in the Linux simulation the latency computed for a read
    is the latency computed for a write of the same size times 12/10,
    exactly 20% more; in the kernel path and in the Windows simulation
    the computed delay does not depend on the direction. *)
Theorem direction_asymmetry_by_backend :
  (forall size,
     LinuxSim.transfer_latency size PCIE_SIM_FROM_DEVICE
     = LinuxSim.transfer_latency size PCIE_SIM_TO_DEVICE * 12 / 10
     /\ costs_20_percent_more
          (LinuxSim.transfer_latency size PCIE_SIM_FROM_DEVICE)
          (LinuxSim.transfer_latency size PCIE_SIM_TO_DEVICE))
  /\ (forall buffer size direction direction' latency_ns jitter_us,
        Dma.transfer_delay (Dma.mk_req buffer size direction latency_ns) jitter_us
        = Dma.transfer_delay (Dma.mk_req buffer size direction' latency_ns) jitter_us)
  /\ (forall size direction direction' r1 r2,
        WindowsSim.transfer_delay size direction r1 r2
        = WindowsSim.transfer_delay size direction' r1 r2).
Proof.
  split; [| split].
  - intros size. destruct (linux_write_latency size) as (k & Hk & Hw & Hr).
    rewrite Hw, Hr. unfold costs_20_percent_more. split; [| lia].
    replace (10000 * k * 12) with (12000 * k * 10) by lia.
    symmetry. apply Z.div_mul. lia.
  - intros. unfold Dma.transfer_delay. cbn.
    destruct (direction =? 0), (direction' =? 0); reflexivity.
  - intros. reflexivity.
Qed.

(** ** The descriptor ring against the queue of the design document *)

Lemma fresh_ring_inv : ring_inv fresh_ring [].
Proof.
  unfold ring_inv, fresh_ring, Ring.RING_SIZE. cbn.
  repeat split; try lia; try reflexivity.
  intros i l ts H. destruct i; discriminate H.
Qed.

Lemma ring_submit_full r q a l f now :
  ring_inv r q -> Ring.count r = Ring.RING_SIZE ->
  Ring.pcie_sim_ring_submit r a l f now
  = (- ENOSPC,
     Ring.mk_ring (Ring.descriptors r) (Ring.size r) (Ring.head r) (Ring.tail r)
       (Ring.count r) (Ring.submissions r) (Ring.completions r)
       (wrap64 (Ring.overruns r + 1))).
Proof.
  intros (Hs & _) Hc. unfold Ring.pcie_sim_ring_submit.
  rewrite Hs, Hc. reflexivity.
Qed.

Lemma ring_submit_space r q a l f now :
  ring_inv r q -> Ring.count r < Ring.RING_SIZE ->
  (Ring.pcie_sim_ring_submit r a l f now).1 = 0
  /\ ring_inv (Ring.pcie_sim_ring_submit r a l f now).2 (q ++ [(l, now)]).
Proof.
  intros (Hs & Hlen & Ht & Hc & Hle & Hh & Hq) Hlt.
  unfold Ring.pcie_sim_ring_submit, Ring.RING_SIZE in *.
  assert (Hc0 : 0 <= Ring.count r) by lia.
  rewrite Hs, (wrap32_small (Ring.count r)) by lia.
  replace (Ring.count r >=? 256) with false by lia.
  cbn [fst snd]. split; [reflexivity |].
  assert (Hh0 : 0 <= Ring.head r < 256) by (rewrite Hh; apply Z.mod_pos_bound; lia).
  unfold ring_inv, Ring.RING_SIZE. cbn [Ring.size Ring.descriptors Ring.tail Ring.count Ring.head].
  rewrite length_alter, length_app, (wrap32_small (Ring.head r + 1)) by lia.
  rewrite int32_small by lia. cbn [length].
  repeat split; try lia.
  - rewrite Hh. rewrite Z.add_assoc. apply Zplus_mod_idemp_l.
  - intros i l' ts' Hi.
    destruct (decide (i = length q)) as [-> | Hne].
    + rewrite lookup_app_r, Nat.sub_diag in Hi by lia. cbn in Hi.
      injection Hi as <- <-.
      rewrite <- Hc, <- Hh.
      destruct (lookup_lt_is_Some_2 (Ring.descriptors r) (Z.to_nat (Ring.head r)))
        as [d Hd]; [lia |].
      rewrite list_lookup_alter_eq, Hd. cbn. eexists. repeat split.
    + assert (Hlt' : (i < length q)%nat).
      { apply lookup_lt_Some in Hi. rewrite length_app in Hi. cbn in Hi. lia. }
      rewrite lookup_app_l in Hi by lia.
      destruct (Hq i l' ts' Hi) as (d & Hd & Hl & Hts).
      exists d. repeat split; try assumption.
      rewrite list_lookup_alter_ne; [exact Hd |].
      rewrite Hh. intros Heq. apply Z2Nat.inj in Heq;
        try (apply Z.mod_pos_bound; lia).
      assert (0 <= Z.of_nat i < Ring.count r) by lia.
      revert Heq. generalize (Ring.tail r) (Ring.count r) (Z.of_nat i) Ht Hlt H Hc0.
      clear. intros t c j. intros. 
      Z.to_euclidean_division_equations. lia.
Qed.

Lemma ring_complete_empty r lp tp st now :
  Ring.count r = 0 ->
  Ring.pcie_sim_ring_complete r lp tp st now
  = (Ring.mk_completion (- ENODATA) None None, r).
Proof.
  intros Hc. unfold Ring.pcie_sim_ring_complete. rewrite Hc. reflexivity.
Qed.

Lemma ring_complete_live r l ts q lp tp st now :
  ring_inv r ((l, ts) :: q) ->
  (Ring.pcie_sim_ring_complete r lp tp st now).1
  = Ring.mk_completion 0
      (if lp then Some l else None)
      (if tp then Some (wrap64 (now - ts)) else None)
  /\ ring_inv (Ring.pcie_sim_ring_complete r lp tp st now).2 q.
Proof.
  intros (Hs & Hlen & Ht & Hc & Hle & Hh & Hq).
  unfold Ring.pcie_sim_ring_complete, Ring.RING_SIZE in *.
  cbn [length] in Hc. rewrite Hs.
  replace (Ring.count r =? 0) with false by lia.
  cbn [fst snd].
  destruct (Hq 0%nat l ts eq_refl) as (d & Hd & Hl & Hts).
  rewrite Z.add_0_r, Z.mod_small in Hd by lia.
  rewrite Hd. cbn [default from_option id]. rewrite Hl, Hts. split; [reflexivity |].
  unfold ring_inv, Ring.RING_SIZE.
  cbn [Ring.size Ring.descriptors Ring.tail Ring.count Ring.head].
  rewrite length_alter, (wrap32_small (Ring.tail r + 1)) by lia.
  rewrite int32_small by lia.
  repeat split; try lia; try (apply Z.mod_pos_bound; lia).
  - rewrite Hh. generalize (Ring.tail r) (Ring.count r). intros t c.
    Z.to_euclidean_division_equations. lia.
  - intros i l' ts' Hi.
    destruct (Hq (S i) l' ts' Hi) as (d' & Hd' & Hl' & Hts').
    replace (((Ring.tail r + 1) mod 256 + Z.of_nat i) mod 256)
      with ((Ring.tail r + Z.of_nat (S i)) mod 256).
    2: { generalize (Ring.tail r) (Z.of_nat i) (Z.of_nat (S i))
           (Nat2Z.inj_succ i).
         intros t j j' Hj. Z.to_euclidean_division_equations. lia. }
    rewrite list_lookup_alter.
    destruct (decide _) as [e | ne]; [rewrite e |]; rewrite Hd'; cbn;
      eexists; repeat split; assumption.
Qed.

(** one operation, on the ring and on the queue *)
Lemma ring_step_inv r q o :
  ring_inv r q ->
  ring_inv (ring_step r o).2 (fifo_step Ring.RING_SIZE q o).2.
Proof.
  intros Hinv. destruct o as [a l f now | lp tp st now]; cbn [ring_step fifo_step].
  - pose proof Hinv as (_ & _ & _ & Hc & Hle & _).
    destruct (Z.geb_spec (Z.of_nat (length q)) Ring.RING_SIZE) as [Hfull | Hfree].
    + rewrite (ring_submit_full r q) by (assumption || lia). cbn [snd].
      destruct Hinv as (Hs & Hlen & Ht & Hc' & Hle' & Hh & Hq).
      unfold ring_inv. cbn [Ring.size Ring.descriptors Ring.tail Ring.count Ring.head].
      repeat split; try assumption; lia.
    + destruct (ring_submit_space r q a l f now Hinv ltac:(lia)) as [_ H].
      destruct (Ring.pcie_sim_ring_submit r a l f now). exact H.
  - destruct q as [| [l ts] q].
    + pose proof Hinv as (_ & _ & _ & Hc & _).
      rewrite ring_complete_empty by exact Hc. exact Hinv.
    + destruct (ring_complete_live r l ts q lp tp st now Hinv) as [_ H].
      destruct (Ring.pcie_sim_ring_complete r lp tp st now). exact H.
Qed.

Lemma ring_run_inv ops : forall r q,
  ring_inv r q ->
  ring_inv (ring_run r ops).2 (fifo_run Ring.RING_SIZE q ops).2.
Proof.
  induction ops as [| o ops IH]; intros r q Hinv; cbn [ring_run fifo_run].
  - exact Hinv.
  - pose proof (ring_step_inv r q o Hinv) as Hstep.
    destruct (ring_step r o) as [out r'], (fifo_step Ring.RING_SIZE q o) as [out' q'].
    cbn [snd] in Hstep. specialize (IH r' q' Hstep).
    destruct (ring_run r' ops), (fifo_run Ring.RING_SIZE q' ops). exact IH.
Qed.

Lemma ring_step_submit_outcome r q a l f now :
  ring_inv r q ->
  (ring_step r (Submit a l f now)).1
  = (fifo_step Ring.RING_SIZE q (Submit a l f now)).1.
Proof.
  intros Hinv. cbn [ring_step fifo_step].
  pose proof Hinv as (_ & _ & _ & Hc & Hle & _).
  destruct (Z.geb_spec (Z.of_nat (length q)) Ring.RING_SIZE) as [Hfull | Hfree].
  - rewrite (ring_submit_full r q) by (assumption || lia). reflexivity.
  - destruct (ring_submit_space r q a l f now Hinv ltac:(lia)) as [H _].
    destruct (Ring.pcie_sim_ring_submit r a l f now) as [ret r'].
    cbn in H |- *. rewrite H. reflexivity.
Qed.

Lemma ring_step_complete_outcome r q lp tp st now t :
  ring_inv r q ->
  Forall (fun e => 0 <= e.2 <= t) q ->
  t <= now < 2 ^ 64 ->
  (ring_step r (Complete lp tp st now)).1
  = (fifo_step Ring.RING_SIZE q (Complete lp tp st now)).1.
Proof.
  intros Hinv Hq Hnow. cbn [ring_step fifo_step].
  destruct q as [| [l ts] q].
  - pose proof Hinv as (_ & _ & _ & Hc & _).
    rewrite ring_complete_empty by exact Hc. reflexivity.
  - destruct (ring_complete_live r l ts q lp tp st now Hinv) as [H _].
    destruct (Ring.pcie_sim_ring_complete r lp tp st now) as [c r'].
    cbn in H |- *. rewrite H.
    apply Forall_cons in Hq as [Hts _]. cbn in Hts.
    rewrite wrap64_small by lia. reflexivity.
Qed.

Lemma fifo_step_clock q o t :
  0 <= t -> Forall (fun e => 0 <= e.2 <= t) q -> t <= op_time o ->
  Forall (fun e => 0 <= e.2 <= op_time o) (fifo_step Ring.RING_SIZE q o).2.
Proof.
  intros Ht Hq Hnow.
  assert (Hq' : Forall (fun e : Z * Z => 0 <= e.2 <= op_time o) q).
  { eapply Forall_impl; [exact Hq |]. cbn. intros e He. lia. }
  destruct o as [a l f now | lp tp st now]; cbn [fifo_step op_time] in *.
  - destruct (_ >=? _); cbn [snd]; [exact Hq' |].
    apply Forall_app. split; [exact Hq' |].
    apply Forall_cons. split; [cbn; lia | apply Forall_nil; exact I].
  - destruct q as [| [l ts] q]; cbn [snd]; [apply Forall_nil; exact I |].
    apply Forall_cons in Hq' as [_ Hq']. exact Hq'.
Qed.

(** the outcomes of a run, while the clock does not run backwards *)
Lemma ring_run_refines ops : forall r q t,
  ring_inv r q -> 0 <= t ->
  Forall (fun e => 0 <= e.2 <= t) q ->
  clock_monotone t ops = true ->
  (ring_run r ops).1 = (fifo_run Ring.RING_SIZE q ops).1.
Proof.
  induction ops as [| o ops IH]; intros r q t Hinv Ht Hq Hclock;
    cbn [ring_run fifo_run].
  - reflexivity.
  - cbn [clock_monotone] in Hclock.
    apply andb_true_iff in Hclock as [Hnow Hclock].
    apply andb_true_iff in Hnow as [Hlo Hhi].
    apply Z.leb_le in Hlo. apply Z.ltb_lt in Hhi.
    assert (Hout : (ring_step r o).1 = (fifo_step Ring.RING_SIZE q o).1).
    { destruct o as [a l f now | lp tp st now].
      - apply ring_step_submit_outcome. exact Hinv.
      - apply (ring_step_complete_outcome r q lp tp st now t); try assumption.
        cbn [op_time] in *. lia. }
    pose proof (ring_step_inv r q o Hinv) as Hstep.
    pose proof (fifo_step_clock q o t Ht Hq Hlo) as Hq'.
    destruct (ring_step r o) as [out r'],
             (fifo_step Ring.RING_SIZE q o) as [out' q'].
    cbn [fst snd] in *.
    specialize (IH r' q' (op_time o) Hstep ltac:(lia) Hq' Hclock).
    destruct (ring_run r' ops), (fifo_run Ring.RING_SIZE q' ops).
    cbn [fst] in *. congruence.
Qed.

(** ** C6: completions come in submission order *)

(** C6: over every sequence of submissions and completions on a ring
    (clock readings that never decrease), the return codes and the
    values handed back are those of the first-in first-out queue of the
    design document: a successful completion returns the length of the
    oldest submission not yet completed, and as latency the completion
    timestamp minus that submission's timestamp. *)
Theorem ring_completes_in_fifo_order (ops : list ring_op) :
  clock_monotone 0 ops = true ->
  (ring_run fresh_ring ops).1 = (fifo_run Ring.RING_SIZE [] ops).1.
Proof.
  intros Hclock.
  apply (ring_run_refines ops fresh_ring [] 0);
    [apply fresh_ring_inv | lia | apply Forall_nil; exact I | exact Hclock].
Qed.

Lemma ring_completes_in_fifo_order_witness :
  (ring_run fresh_ring
     [Submit 4096 64 0 10; Submit 8192 128 0 20; Complete true true 1 25;
      Submit 12288 256 0 30; Complete true true 1 40; Complete true false 1 50;
      Complete true true 1 60]).1
  = [Submitted 0; Submitted 0;
     Completed (Ring.mk_completion 0 (Some 64) (Some 15));
     Submitted 0;
     Completed (Ring.mk_completion 0 (Some 128) (Some 20));
     Completed (Ring.mk_completion 0 (Some 256) None);
     Completed (Ring.mk_completion (- ENODATA) None None)].
Proof.
  rewrite ring_completes_in_fifo_order by reflexivity.
  reflexivity.
Defined.

(** ** C5 and C8: the bounds of the ring *)

Lemma submissions_fit ops : forall r q,
  ring_inv r q ->
  forallb is_submit ops = true ->
  Z.of_nat (length q + length ops) <= Ring.RING_SIZE ->
  (ring_run r ops).1 = replicate (length ops) (Submitted 0)
  /\ length (fifo_run Ring.RING_SIZE q ops).2 = (length q + length ops)%nat.
Proof.
  induction ops as [| o ops IH]; intros r q Hinv Hsub Hfit;
    cbn [ring_run fifo_run length].
  - split; [reflexivity | cbn; lia].
  - cbn [forallb] in Hsub. apply andb_true_iff in Hsub as [Ho Hsub].
    destruct o as [a l f now | ]; [| discriminate Ho].
    cbn [length] in Hfit.
    pose proof (ring_step_submit_outcome r q a l f now Hinv) as Hout.
    pose proof (ring_step_inv r q (Submit a l f now) Hinv) as Hstep.
    cbn [fifo_step] in Hout, Hstep |- *.
    replace (Z.of_nat (length q) >=? Ring.RING_SIZE) with false in *
      by (unfold Ring.RING_SIZE in *; lia).
    destruct (ring_step r (Submit a l f now)) as [out r'].
    cbn [fst snd] in *. subst out.
    destruct (IH r' (q ++ [(l, now)]) Hstep Hsub) as [IH1 IH2].
    { rewrite length_app. cbn [length]. lia. }
    destruct (ring_run r' ops), (fifo_run Ring.RING_SIZE (q ++ [(l, now)]) ops).
    cbn [fst snd] in *. rewrite IH1, IH2, length_app. cbn [length replicate].
    split; [reflexivity | lia].
Qed.

(** C5: on a ring of 256 descriptors, 256 submissions without a
    completion all return 0, and a further submission returns [-ENOSPC]
    and leaves the descriptors, the indices and the count as they were;
    a completion on a ring that holds no entry returns [-ENODATA]. *)
Theorem ring_overflow_and_underflow (ops : list ring_op) :
  forallb is_submit ops = true ->
  length ops = 256%nat ->
  let full := (ring_run fresh_ring ops).2 in
  (ring_run fresh_ring ops).1 = replicate 256 (Submitted 0)
  /\ (forall a l f now,
        (Ring.pcie_sim_ring_submit full a l f now).1 = - ENOSPC
        /\ (let r' := (Ring.pcie_sim_ring_submit full a l f now).2 in
            Ring.descriptors r' = Ring.descriptors full
            /\ Ring.head r' = Ring.head full
            /\ Ring.tail r' = Ring.tail full
            /\ Ring.count r' = Ring.count full
            /\ Ring.size r' = Ring.size full))
  /\ (forall r lp tp st now,
        Ring.count r = 0 ->
        Ring.pcie_sim_ring_complete r lp tp st now
        = (Ring.mk_completion (- ENODATA) None None, r))
  /\ (forall lp tp st now,
        (Ring.pcie_sim_ring_complete fresh_ring lp tp st now).1
        = Ring.mk_completion (- ENODATA) None None).
Proof.
  intros Hsub Hlen full.
  destruct (submissions_fit ops fresh_ring [] fresh_ring_inv Hsub) as [Hout Hq].
  { rewrite Hlen. unfold Ring.RING_SIZE. cbn. lia. }
  pose proof (ring_run_inv ops fresh_ring [] fresh_ring_inv) as Hinv.
  fold full in Hinv. rewrite Hlen in Hout, Hq.
  split; [exact Hout | split; [| split]].
  - intros a l f now.
    rewrite (ring_submit_full full _ a l f now Hinv).
    + cbn. repeat split.
    + destruct Hinv as (_ & _ & _ & Hc & _). rewrite Hc, Hq. reflexivity.
  - intros r lp tp st now Hc. apply ring_complete_empty. exact Hc.
  - intros. rewrite ring_complete_empty by reflexivity. reflexivity.
Qed.

Lemma ring_overflow_and_underflow_witness :
  (ring_run fresh_ring (replicate 256 (Submit 4096 64 0 7))).1
  = replicate 256 (Submitted 0)
  /\ (Ring.pcie_sim_ring_submit
        (ring_run fresh_ring (replicate 256 (Submit 4096 64 0 7))).2
        4096 64 0 8).1 = - ENOSPC
  /\ Ring.pcie_sim_ring_complete fresh_ring true true 1 9
     = (Ring.mk_completion (- ENODATA) None None, fresh_ring).
Proof.
  destruct (ring_overflow_and_underflow (replicate 256 (Submit 4096 64 0 7))
              eq_refl eq_refl) as (H1 & H2 & H3 & _).
  split; [exact H1 | split].
  - exact (proj1 (H2 4096 64 0 8)).
  - exact (H3 fresh_ring true true 1 9 eq_refl).
Defined.

(** C8, as stated, fails in one place: a submission to a full ring is
    rejected but advances the [overruns] counter of the ring (after 256
    submissions the 257th leaves [overruns = 1]). *)
Lemma rejected_submit_touches_ring : ~ rejections_leave_ring_alone.
Proof.
  intros H.
  destruct (H (replicate 256 (Submit 4096 64 0 7))) as (_ & _ & _ & _ & Hfull & _).
  specialize (Hfull ltac:(vm_compute; reflexivity) 4096 64 0 8).
  apply (f_equal (fun p => Ring.overruns p.2)) in Hfull.
  vm_compute in Hfull. discriminate Hfull.
Qed.

(** C8, amended: in every state that submissions and completions, in
    any order, reach from an initialised ring, the count lies between 0
    and the size 256 and the head and tail indices lie in [0, size); a
    submission at [count = size] is rejected and changes nothing of the
    ring but its [overruns] counter (descriptors, indices, count and the
    other counters stay); a completion at [count = 0] is rejected and
    leaves the ring as it was. *)
Theorem ring_bounds_invariant (ops : list ring_op) :
  let r := (ring_run fresh_ring ops).2 in
  Ring.size r = 256
  /\ 0 <= Ring.count r <= Ring.size r
  /\ 0 <= Ring.head r < Ring.size r
  /\ 0 <= Ring.tail r < Ring.size r
  /\ (Ring.count r = Ring.size r ->
      forall a l f now,
        Ring.pcie_sim_ring_submit r a l f now
        = (- ENOSPC,
           Ring.mk_ring (Ring.descriptors r) (Ring.size r) (Ring.head r)
             (Ring.tail r) (Ring.count r) (Ring.submissions r)
             (Ring.completions r) (wrap64 (Ring.overruns r + 1))))
  /\ (Ring.count r = 0 ->
      forall lp tp st now,
        Ring.pcie_sim_ring_complete r lp tp st now
        = (Ring.mk_completion (- ENODATA) None None, r)).
Proof.
  intros r.
  pose proof (ring_run_inv ops fresh_ring [] fresh_ring_inv) as Hinv.
  fold r in Hinv.
  pose proof Hinv as (Hs & Hlen & Ht & Hc & Hle & Hh & Hq).
  unfold Ring.RING_SIZE in *. rewrite Hs.
  repeat split; try lia.
  - rewrite Hh. apply Z.mod_pos_bound. lia.
  - rewrite Hh. apply Z.mod_pos_bound. lia.
  - intros Hfull a l f now. rewrite <- Hs.
    apply (ring_submit_full r _ a l f now Hinv). exact Hfull.
  - intros Hempty lp tp st now. apply ring_complete_empty. exact Hempty.
Qed.

Lemma ring_bounds_invariant_witness :
  Ring.count (ring_run fresh_ring (replicate 256 (Submit 4096 64 0 7))).2 = 256
  /\ (Ring.pcie_sim_ring_submit
        (ring_run fresh_ring (replicate 256 (Submit 4096 64 0 7))).2
        4096 64 0 8).1 = - ENOSPC
  /\ (Ring.pcie_sim_ring_complete
        (ring_run fresh_ring [Submit 4096 64 0 7; Complete true true 1 9]).2
        true true 1 10).1
     = Ring.mk_completion (- ENODATA) None None.
Proof.
  split; [vm_compute; reflexivity | split].
  - destruct (ring_bounds_invariant (replicate 256 (Submit 4096 64 0 7)))
      as (_ & _ & _ & _ & Hfull & _).
    rewrite (Hfull ltac:(vm_compute; reflexivity) 4096 64 0 8). reflexivity.
  - destruct (ring_bounds_invariant [Submit 4096 64 0 7; Complete true true 1 9])
      as (_ & _ & _ & _ & _ & Hempty).
    rewrite (Hempty ltac:(vm_compute; reflexivity) true true 1 10). reflexivity.
Defined.

(** ** C7: the statistics after a failed transfer *)

Lemma update_on_failure dev req latency :
  Dma.update_transfer_stats dev req latency false
  = Dma.set_stats dev (count_error (Dma.stats dev)).
Proof. reflexivity. Qed.

(** C7, as stated, fails: [update_transfer_stats] on a failure writes
    [total_errors] and nothing else, so no counter of the active
    scenario moves (here on a device configured for the timeout
    scenario). *)
Lemma failure_update_claim_violated : ~ failure_update_claim.
Proof.
  intros (counter & Hsep & Hupd).
  destruct (Hupd timeout_device (Dma.mk_req None 0 0 0) 0) as (_ & Hc & _).
  change (Dma.update_transfer_stats timeout_device (Dma.mk_req None 0 0 0) 0 false)
    with (set_total_errors timeout_device 1) in Hc.
  rewrite Hsep in Hc. lia.
Qed.

(** C7, amended: for every failed transfer of the kernel path, the
    statistics update adds one to [total_errors] (64-bit wrap-around)
    and leaves [min_latency_ns], [max_latency_ns], [avg_latency_ns],
    [total_transfers], [total_bytes] and every other field of the device
    as they were; the device has no counter per scenario. *)
Theorem failure_counts_one_error :
  (forall dev req latency,
     let dev' := Dma.update_transfer_stats dev req latency false in
     let s := Dma.stats dev in
     let s' := Dma.stats dev' in
     dev' = set_total_errors dev (wrap64 (total_errors s + 1))
     /\ total_errors s' = wrap64 (total_errors s + 1)
     /\ min_latency_ns s' = min_latency_ns s
     /\ max_latency_ns s' = max_latency_ns s
     /\ avg_latency_ns s' = avg_latency_ns s
     /\ total_transfers s' = total_transfers s
     /\ total_bytes s' = total_bytes s)
  /\ (forall dev req alloc_ok t0 t1,
        Dma.r_ret (Dma.pcie_sim_dma_transfer dev req alloc_ok t0 t1) <> 0 ->
        Dma.r_dev (Dma.pcie_sim_dma_transfer dev req alloc_ok t0 t1)
        = set_total_errors dev (wrap64 (total_errors (Dma.stats dev) + 1))).
Proof.
  split.
  - intros dev req latency. cbn. repeat split.
  - intros dev req alloc_ok t0 t1. unfold Dma.pcie_sim_dma_transfer.
    destruct (negb (Dma.validate_transfer_request req =? 0));
      [intros _; reflexivity |].
    destruct (negb alloc_ok); [intros _; reflexivity |].
    destruct (Dma.direction req =? 0).
    + destruct (Dma.copy_from_user _ _); [cbn; congruence | intros _; reflexivity].
    + destruct (Dma.copy_to_user _ _ _) as [ok user'].
      destruct ok; [cbn; congruence | intros _; reflexivity].
Qed.

Lemma failure_counts_one_error_witness :
  Dma.r_dev (Dma.pcie_sim_dma_transfer timeout_device
               (Dma.mk_req (Some [0; 0; 0; 0]) 64 1 0) true 0 100)
  = set_total_errors timeout_device 1.
Proof.
  destruct failure_counts_one_error as [_ H].
  exact (H timeout_device (Dma.mk_req (Some [0; 0; 0; 0]) 64 1 0) true 0 100
           ltac:(vm_compute; discriminate)).
Defined.

(** ** C9: the pattern written by a read *)

Lemma lookup_pattern (n i : nat) (rest : list Z) :
  (i < n)%nat -> (replicate n 170 ++ rest) !! i = Some 170.
Proof.
  intros Hi. rewrite lookup_app_l by (rewrite length_replicate; lia).
  apply lookup_replicate_2. exact Hi.
Qed.

(** C9: after every successful from_device transfer of the kernel path
    and of the Windows simulation, each of the [size] bytes of the
    caller's buffer holds the pattern 0xAA. *)
Theorem from_device_fills_buffer :
  (forall dev req alloc_ok t0 t1 (i : nat),
     Dma.direction req = PCIE_SIM_FROM_DEVICE ->
     Dma.r_ret (Dma.pcie_sim_dma_transfer dev req alloc_ok t0 t1) = 0 ->
     Z.of_nat i < Dma.size req ->
     exists m',
       Dma.buffer (Dma.r_req (Dma.pcie_sim_dma_transfer dev req alloc_ok t0 t1))
       = Some m'
       /\ m' !! i = Some 170)
  /\ (forall g handle buffer size latency_ptr lock_ok t0 t1 (i : nat),
        t_err (WindowsSim.pcie_sim_transfer_impl g handle buffer size
                 PCIE_SIM_FROM_DEVICE latency_ptr lock_ok t0 t1)
        = PCIE_SIM_SUCCESS ->
        Z.of_nat i < size ->
        exists m',
          t_buffer (WindowsSim.pcie_sim_transfer_impl g handle buffer size
                      PCIE_SIM_FROM_DEVICE latency_ptr lock_ok t0 t1)
          = Some m'
          /\ m' !! i = Some 170).
Proof.
  split.
  - intros dev req alloc_ok t0 t1 i Hdir. unfold Dma.pcie_sim_dma_transfer.
    destruct (Z.eqb_spec (Dma.validate_transfer_request req) 0) as [Hv | Hv];
      cbn [negb].
    2: { destruct (kernel_validate_codes req) as [E | E]; [contradiction |].
         cbn. rewrite E. discriminate. }
    apply kernel_validate_spec in Hv as (Hb & Hs & _).
    destruct alloc_ok; cbn [negb]; [| cbn; discriminate].
    rewrite Hdir. cbn [Z.eqb PCIE_SIM_FROM_DEVICE Pos.eqb].
    destruct (Dma.buffer req) as [m |] eqn:Hm; [| contradiction].
    cbn [default from_option id]. unfold Dma.copy_to_user.
    destruct (Z.leb_spec (Dma.size req) (Z.of_nat (length m))) as [Hle | Hgt];
      [| cbn; discriminate].
    intros _ Hi. cbn [Dma.r_req Dma.buffer]. eexists. split; [reflexivity |].
    rewrite take_replicate, Nat.min_id, take_replicate.
    replace (length m `min` Z.to_nat (Dma.size req))%nat
      with (Z.to_nat (Dma.size req)) by lia.
    apply lookup_pattern. lia.
  - intros g handle buffer size latency_ptr lock_ok t0 t1 i.
    unfold WindowsSim.pcie_sim_transfer_impl.
    destruct handle as [h |], buffer as [m |]; try (cbn; discriminate).
    destruct (_ || _); [cbn; discriminate |].
    destruct (_ || _); [cbn; discriminate |].
    destruct (_ !! _) as [dev |]; [| cbn; discriminate].
    destruct (negb (WindowsSim.active dev)); [cbn; discriminate |].
    destruct (negb lock_ok); [cbn; discriminate |].
    intros _ Hi. cbn. eexists. split; [reflexivity |].
    unfold WindowsSim.fill_pattern. apply lookup_pattern. lia.
Qed.

Lemma from_device_fills_buffer_witness :
  Dma.buffer (Dma.r_req (Dma.pcie_sim_dma_transfer (pcie_sim_probe 0)
                           (Dma.mk_req (Some [1; 2; 3; 4; 5]) 4 1 0) true 0 100))
  = Some [170; 170; 170; 170; 5]
  /\ t_buffer (WindowsSim.pcie_sim_transfer_impl windows_opened
                 (Some windows_handle) (Some [1; 2; 3; 4; 5]) 4
                 PCIE_SIM_FROM_DEVICE true true 0 100)
     = Some [170; 170; 170; 170; 5]
  /\ (exists m',
        Dma.buffer (Dma.r_req (Dma.pcie_sim_dma_transfer (pcie_sim_probe 0)
                                 (Dma.mk_req (Some [1; 2; 3; 4; 5]) 4 1 0)
                                 true 0 100)) = Some m'
        /\ m' !! 3%nat = Some 170)
  /\ (exists m',
        t_buffer (WindowsSim.pcie_sim_transfer_impl windows_opened
                    (Some windows_handle) (Some [1; 2; 3; 4; 5]) 4
                    PCIE_SIM_FROM_DEVICE true true 0 100) = Some m'
        /\ m' !! 3%nat = Some 170).
Proof.
  destruct from_device_fills_buffer as [Hk Hw].
  split; [reflexivity | split; [reflexivity | split]].
  - exact (Hk (pcie_sim_probe 0) (Dma.mk_req (Some [1; 2; 3; 4; 5]) 4 1 0)
              true 0 100 3%nat eq_refl eq_refl eq_refl).
  - exact (Hw windows_opened (Some windows_handle) (Some [1; 2; 3; 4; 5]) 4
              true true 0 100 3%nat eq_refl eq_refl).
Defined.

(** ** C10: opening a device twice *)

Lemma alter_fixed {A} (f : A -> A) (i : nat) (l : list A) :
  (forall d, l !! i = Some d -> f d = d) -> alter f i l = l.
Proof.
  intros H. apply list_eq. intros j. rewrite list_lookup_alter.
  destruct (decide (i = j)) as [<- |]; [| reflexivity].
  destruct (l !! i) as [d |] eqn:E; [cbn; rewrite (H d eq_refl) |]; reflexivity.
Qed.

(** device [id] of the Linux simulation has been opened *)
Lemma linux_reopen g id now :
  0 <= id < LinuxSim.MAX_DEVICES ->
  LinuxSim.g_sim_initialized g <> 0 ->
  (forall d, LinuxSim.g_sim_devices g !! Z.to_nat id = Some d ->
             LinuxSim.active d <> 0) ->
  LinuxSim.pcie_sim_open_linux g id true true now
  = (PCIE_SIM_SUCCESS, Some (LinuxSim.mk_handle (-1) id 1), g).
Proof.
  intros Hid Hinit Hact. unfold LinuxSim.pcie_sim_open_linux, LinuxSim.MAX_DEVICES in *.
  replace (id <? 0) with false by lia. replace (id >=? 8) with false by lia.
  cbn [negb orb]. unfold LinuxSim.linux_sim_init.
  destruct (Z.eqb_spec (LinuxSim.g_sim_initialized g) 0) as [E | _]; [contradiction |].
  rewrite alter_fixed; [destruct g; reflexivity |].
  intros d Hd. unfold LinuxSim.activate.
  destruct (Z.eqb_spec (LinuxSim.active d) 0) as [E | _]; [| reflexivity].
  exfalso. exact (Hact d Hd E).
Qed.

Lemma linux_open_marks g id handle_ptr malloc_ok now h g1 :
  LinuxSim.pcie_sim_open_linux g id handle_ptr malloc_ok now
  = (PCIE_SIM_SUCCESS, Some h, g1) ->
  0 <= id < LinuxSim.MAX_DEVICES
  /\ h = LinuxSim.mk_handle (-1) id 1
  /\ LinuxSim.g_sim_initialized g1 <> 0
  /\ (forall d, LinuxSim.g_sim_devices g1 !! Z.to_nat id = Some d ->
                LinuxSim.active d <> 0).
Proof.
  unfold LinuxSim.pcie_sim_open_linux, LinuxSim.MAX_DEVICES.
  destruct (negb handle_ptr); [cbn; discriminate |]. cbn [orb].
  destruct (Z.ltb_spec id 0); [cbn; discriminate |]. cbn [orb].
  destruct (Z.geb_spec id 8); [discriminate |].
  destruct (negb malloc_ok); [discriminate |].
  intros Hopen. injection Hopen as <- <-. repeat split; try lia.
  - cbn. unfold LinuxSim.linux_sim_init.
    destruct (Z.eqb_spec (LinuxSim.g_sim_initialized g) 0); [cbn; lia | assumption].
  - intros d. cbn [LinuxSim.g_sim_devices]. rewrite list_lookup_alter_eq.
    destruct (_ !! _) as [d0 |]; [| discriminate]. cbn.
    intros Hd. injection Hd as <-. unfold LinuxSim.activate.
    destruct (Z.eqb_spec (LinuxSim.active d0) 0); [cbn; lia | assumption].
Qed.

Lemma linux_run_on_keeps h id xs : forall g,
  LinuxSim.g_sim_initialized g <> 0 ->
  (forall d, LinuxSim.g_sim_devices g !! Z.to_nat id = Some d ->
             LinuxSim.active d <> 0) ->
  LinuxSim.g_sim_initialized (linux_run_on h g xs) <> 0
  /\ (forall d, LinuxSim.g_sim_devices (linux_run_on h g xs) !! Z.to_nat id = Some d ->
                LinuxSim.active d <> 0).
Proof.
  induction xs as [| x xs IH]; intros g Hinit Hact; [split; assumption |].
  cbn [linux_run_on fold_left]. apply IH.
  - unfold LinuxSim.pcie_sim_transfer_linux.
    destruct (_ || _); cbn; assumption.
  - intros d. unfold LinuxSim.pcie_sim_transfer_linux.
    destruct (_ || _); cbn [t_state LinuxSim.g_sim_devices]; [apply Hact |].
    rewrite list_lookup_alter.
    destruct (decide _) as [e | ne]; [| apply Hact].
    rewrite e.
    destruct (_ !! _) as [d0 |] eqn:E; [| discriminate]. cbn.
    intros Hd. injection Hd as <-. cbn. exact (Hact d0 eq_refl).
Qed.

Lemma windows_init_done env g g1 :
  WindowsSim.windows_sim_init env g = (0, g1) ->
  WindowsSim.g_initialized g1 = true.
Proof.
  unfold WindowsSim.windows_sim_init.
  destruct (WindowsSim.g_initialized g) eqn:E.
  - intros H. injection H as <-. exact E.
  - destruct (WindowsSim.init_loop env 0 (WindowsSim.g_devices g)) as [ok devs].
    destruct ok; intros H; [injection H as <-; reflexivity | discriminate H].
Qed.

(** device [id] of the Windows simulation is in use *)
Lemma windows_reopen env g id malloc_ok d :
  0 <= id < WindowsSim.MAX_DEVICES ->
  WindowsSim.g_initialized g = true ->
  WindowsSim.g_devices g !! Z.to_nat id = Some d ->
  WindowsSim.active d = true ->
  WindowsSim.pcie_sim_open_impl env g id true malloc_ok
  = (PCIE_SIM_ERROR_DEVICE, None, g).
Proof.
  intros Hid Hinit Hd Ha.
  unfold WindowsSim.pcie_sim_open_impl, WindowsSim.MAX_DEVICES in *.
  replace (id <? 0) with false by lia. replace (id >=? 8) with false by lia.
  cbn [negb orb]. unfold WindowsSim.windows_sim_init. rewrite Hinit.
  cbn [Z.eqb negb]. rewrite Hd, Ha. reflexivity.
Qed.

Lemma windows_open_marks env g id handle_ptr malloc_ok h g1 :
  WindowsSim.pcie_sim_open_impl env g id handle_ptr malloc_ok
  = (PCIE_SIM_SUCCESS, Some h, g1) ->
  0 <= id < WindowsSim.MAX_DEVICES
  /\ h = WindowsSim.mk_handle id id
  /\ WindowsSim.g_initialized g1 = true
  /\ exists d, WindowsSim.g_devices g1 !! Z.to_nat id = Some d
               /\ WindowsSim.active d = true.
Proof.
  unfold WindowsSim.pcie_sim_open_impl, WindowsSim.MAX_DEVICES.
  destruct (negb handle_ptr); [cbn; discriminate |]. cbn [orb].
  destruct (Z.ltb_spec id 0); [cbn; discriminate |]. cbn [orb].
  destruct (Z.geb_spec id 8); [discriminate |].
  destruct (WindowsSim.windows_sim_init env g) as [rc gi] eqn:Einit.
  destruct (Z.eqb_spec rc 0) as [-> | Hrc]; cbn [negb]; [| discriminate].
  apply windows_init_done in Einit.
  destruct (WindowsSim.g_devices gi !! Z.to_nat id) as [d |] eqn:Hd;
    [| discriminate].
  destruct (WindowsSim.active d); [discriminate |].
  destruct (negb malloc_ok); [discriminate |].
  intros Hopen. injection Hopen as <- <-. repeat split; try lia.
  - exact Einit.
  - cbn [WindowsSim.g_devices]. rewrite list_lookup_alter_eq, Hd. cbn.
    eexists. split; reflexivity.
Qed.

(** C10: in the Windows simulation, opening a device that an earlier
    successful open still holds returns the device error and changes
    nothing; in the Linux simulation, after a successful open and any
    transfers through its handle, opening the same id again succeeds
    with a handle for the same device and leaves the globals, and so the
    statistics of the device, as they were. *)
Theorem second_open_by_backend :
  (forall env env' g id handle_ptr malloc_ok malloc_ok' h g1,
     WindowsSim.pcie_sim_open_impl env g id handle_ptr malloc_ok
     = (PCIE_SIM_SUCCESS, Some h, g1) ->
     WindowsSim.pcie_sim_open_impl env' g1 id true malloc_ok'
     = (PCIE_SIM_ERROR_DEVICE, None, g1))
  /\ (forall g id handle_ptr malloc_ok now now' h g1 xs,
        LinuxSim.pcie_sim_open_linux g id handle_ptr malloc_ok now
        = (PCIE_SIM_SUCCESS, Some h, g1) ->
        let g2 := linux_run_on h g1 xs in
        LinuxSim.pcie_sim_open_linux g2 id true true now'
        = (PCIE_SIM_SUCCESS, Some h, g2)
        /\ LinuxSim.pcie_sim_get_stats_linux
             (LinuxSim.pcie_sim_open_linux g2 id true true now').2 (Some h) true
           = LinuxSim.pcie_sim_get_stats_linux g2 (Some h) true).
Proof.
  split.
  - intros env env' g id handle_ptr malloc_ok malloc_ok' h g1 Hopen.
    apply windows_open_marks in Hopen as (Hid & _ & Hinit & d & Hd & Ha).
    exact (windows_reopen env' g1 id malloc_ok' d Hid Hinit Hd Ha).
  - intros g id handle_ptr malloc_ok now now' h g1 xs Hopen g2.
    apply linux_open_marks in Hopen as (Hid & -> & Hinit & Hact).
    destruct (linux_run_on_keeps (LinuxSim.mk_handle (-1) id 1) id xs g1 Hinit Hact)
      as [Hinit2 Hact2].
    fold g2 in Hinit2, Hact2.
    rewrite (linux_reopen g2 id now' Hid Hinit2 Hact2).
    split; reflexivity.
Qed.

Lemma second_open_by_backend_witness :
  WindowsSim.pcie_sim_open_impl windows_env windows_opened 0 true true
  = (PCIE_SIM_ERROR_DEVICE, None, windows_opened)
  /\ LinuxSim.pcie_sim_open_linux
       (linux_run_on linux_handle linux_opened [sample_1; sample_2]) 0 true true 5
     = (PCIE_SIM_SUCCESS, Some linux_handle,
        linux_run_on linux_handle linux_opened [sample_1; sample_2]).
Proof.
  destruct second_open_by_backend as [Hw Hl].
  split.
  - exact (Hw windows_env windows_env WindowsSim.initial_state 0 true true true
              windows_handle windows_opened eq_refl).
  - exact (proj1 (Hl LinuxSim.initial_state 0 true true 0 5 linux_handle
                     linux_opened [sample_1; sample_2] eq_refl)).
Defined.

(** * Further properties of the transfer path *)

(** ** Every kernel transfer is counted once *)

(** X1: a call of [pcie_sim_dma_transfer] returns 0, [-EINVAL],
    [-ENOMEM] or [-EFAULT].  When it returns 0 it adds one to
    [total_transfers] and the size to [total_bytes], leaves
    [total_errors] alone and stores the measured latency in the
    request; otherwise it adds one to [total_errors], leaves the other
    five statistics alone and does not store a latency. *)
Theorem kernel_call_counted_once dev req alloc_ok t0 t1 :
  let r := Dma.pcie_sim_dma_transfer dev req alloc_ok t0 t1 in
  let s := Dma.stats dev in
  let s' := Dma.stats (Dma.r_dev r) in
  (Dma.r_ret r = 0
   /\ total_transfers s' = wrap64 (total_transfers s + 1)
   /\ total_bytes s' = wrap64 (total_bytes s + Dma.size req)
   /\ total_errors s' = total_errors s
   /\ Dma.latency_ns (Dma.r_req r) = wrap64 (t1 - t0))
  \/ ((Dma.r_ret r = - EINVAL \/ Dma.r_ret r = - ENOMEM \/ Dma.r_ret r = - EFAULT)
      /\ s' = count_error s
      /\ Dma.latency_ns (Dma.r_req r) = Dma.latency_ns req).
Proof.
  cbn zeta. unfold Dma.pcie_sim_dma_transfer.
  destruct (kernel_validate_codes req) as [E | E]; rewrite E; cbn [Z.eqb negb Z.opp EINVAL].
  2: { right. cbn. repeat split. left. reflexivity. }
  destruct alloc_ok; cbn [negb].
  2: { right. cbn. repeat split. right. left. reflexivity. }
  destruct (Dma.direction req =? 0).
  - destruct (Dma.copy_from_user _ _).
    + left. cbn. repeat split.
    + right. cbn. repeat split. right. right. reflexivity.
  - destruct (Dma.copy_to_user _ _ _) as [ok user']. destruct ok.
    + left. cbn. repeat split.
    + right. cbn. repeat split. right. right. reflexivity.
Qed.

(** ** The average between the extremes *)

Lemma kernel_avg_below_max xs :
  forallb accepted xs = true ->
  0 <= avg_latency_ns (kernel_stats xs) <= max_latency_ns (kernel_stats xs)
  /\ max_latency_ns (kernel_stats xs) < 2 ^ 63.
Proof.
  induction xs as [| x xs IH] using rev_ind; intros Hacc.
  - cbn. lia.
  - apply forallb_snoc in Hacc as [Hacc Hx]. specialize (IH Hacc).
    pose proof (accepted_latency x Hx) as [_ Hl].
    rewrite kernel_stats_snoc by assumption.
    destruct (kernel_stats xs) as [ktt ktb kte kavg kmin kmax].
    cbn -[Z.pow wrap64] in *. rewrite wrap64_small by lia.
    assert (0 <= (kavg + x_latency x) / 2) by (apply Z.div_pos; lia).
    assert ((kavg + x_latency x) / 2 <= Z.max (x_latency x) kmax)
      by (apply Z.div_le_upper_bound; lia).
    zbool; lia.
Qed.

Lemma linux_latency_order xs :
  forallb accepted xs = true -> Z.of_nat (length xs) < 2 ^ 64 -> xs <> [] ->
  0 <= min_latency_ns (linux_stats xs) <= avg_latency_ns (linux_stats xs)
  /\ avg_latency_ns (linux_stats xs) <= max_latency_ns (linux_stats xs)
  /\ max_latency_ns (linux_stats xs) < 2 ^ 63.
Proof.
  induction xs as [| x xs IH] using rev_ind; intros Hacc Hlen Hne; [congruence |].
  clear Hne. apply forallb_snoc in Hacc as [Hacc Hx].
  rewrite length_app in Hlen. cbn [length] in Hlen.
  pose proof (counters_agree xs Hacc ltac:(lia)) as ((_ & t2 & _) & _).
  specialize (IH Hacc ltac:(lia)).
  pose proof (accepted_spec x Hx) as (Hs & _).
  pose proof (accepted_latency x Hx) as [_ Hl].
  rewrite linux_stats_snoc by lia.
  destruct xs as [| y ys].
  - rewrite linux_stats_nil. unfold LinuxSim.update_stats, zero_stats.
    cbn -[Z.pow wrap64]. change (wrap64 (0 + 1)) with 1. cbn -[Z.pow]. lia.
  - specialize (IH ltac:(discriminate)).
    destruct (linux_stats (y :: ys)) as [ltt ltb lte lavg lmin lmax].
    unfold LinuxSim.update_stats. cbn -[Z.pow wrap64 Z.of_nat length] in *. subst ltt.
    rewrite (wrap64_small (_ + 1)) by lia.
    destruct (Z.eqb_spec (Z.of_nat (length (y :: ys)) + 1) 1) as [E | _];
      [cbn [length] in E; lia |].
    cbn -[Z.pow wrap64]. rewrite wrap64_small by lia.
    assert (Z.min (x_latency x) lmin <= (lavg + x_latency x) / 2)
      by (apply Z.div_le_lower_bound; lia).
    assert ((lavg + x_latency x) / 2 <= Z.max (x_latency x) lmax)
      by (apply Z.div_le_upper_bound; lia).
    zbool; lia.
Qed.

Lemma windows_latency_order xs M :
  forallb accepted xs = true -> Z.of_nat (length xs) < 2 ^ 64 ->
  forallb (fun y => x_latency y <=? M) xs = true ->
  Z.of_nat (length xs) * M < 2 ^ 64 ->
  xs <> [] ->
  0 <= min_latency_ns (windows_stats xs) <= avg_latency_ns (windows_stats xs)
  /\ avg_latency_ns (windows_stats xs) <= max_latency_ns (windows_stats xs)
  /\ max_latency_ns (windows_stats xs) <= M.
Proof.
  induction xs as [| x xs IH] using rev_ind; intros Hacc Hlen Hb Hprod Hne;
    [congruence |].
  clear Hne. apply forallb_snoc in Hacc as [Hacc Hx].
  apply forallb_snoc in Hb as [Hb Hxb].
  rewrite length_app in Hlen, Hprod. cbn [length] in Hlen, Hprod.
  pose proof (counters_agree xs Hacc ltac:(lia)) as ((_ & _ & t3) & _).
  pose proof (accepted_spec x Hx) as (Hs & _).
  pose proof (accepted_latency x Hx) as [_ Hl].
  assert (HM : 0 <= M) by lia.
  specialize (IH Hacc ltac:(lia) Hb ltac:(nia)).
  rewrite windows_stats_snoc by lia.
  destruct xs as [| y ys].
  - rewrite windows_stats_nil.
    unfold WindowsSim.update_stats, WindowsSim.fresh_stats, UINT64_MAX.
    cbn -[Z.pow wrap64]. change (wrap64 (0 + 1)) with 1. cbn -[Z.pow].
    zbool; lia.
  - specialize (IH ltac:(discriminate)).
    destruct (windows_stats (y :: ys)) as [wtt wtb wte wavg wmin wmax].
    unfold WindowsSim.update_stats. cbn -[Z.pow wrap64 Z.of_nat length] in *. subst wtt.
    set (n := Z.of_nat (length (y :: ys))) in *.
    assert (Hn : 1 <= n) by (subst n; cbn [length]; lia).
    assert (Hn1 : Z.of_nat (length (y :: ys) + 1) = n + 1) by (subst n; lia).
    rewrite Hn1 in *.
    rewrite (wrap64_small (n + 1)) by lia.
    replace (n + 1 - 1) with n by lia.
    destruct (Z.eqb_spec (n + 1) 1); [lia |].
    rewrite (wrap64_small n) by lia.
    rewrite (wrap64_small (wavg * n)) by nia.
    rewrite wrap64_small by nia.
    assert (Z.min (x_latency x) wmin <= (wavg * n + x_latency x) / (n + 1))
      by (apply Z.div_le_lower_bound; nia).
    assert ((wavg * n + x_latency x) / (n + 1) <= Z.max (x_latency x) wmax)
      by (apply Z.div_le_upper_bound; nia).
    cbn -[Z.pow]. zbool; lia.
Qed.

(** X2: after any non-empty sequence of accepted transfers, the two
    simulations report [min_latency_ns <= avg_latency_ns <=
    max_latency_ns] (for Windows as long as the number of transfers
    times the largest latency fits 64 bits); the kernel path reports
    [avg_latency_ns <= max_latency_ns]. *)
Theorem average_between_extremes (xs : list transfer) (M : Z) :
  forallb accepted xs = true ->
  Z.of_nat (length xs) < 2 ^ 64 ->
  forallb (fun y => x_latency y <=? M) xs = true ->
  Z.of_nat (length xs) * M < 2 ^ 64 ->
  xs <> [] ->
  (min_latency_ns (linux_stats xs) <= avg_latency_ns (linux_stats xs)
   /\ avg_latency_ns (linux_stats xs) <= max_latency_ns (linux_stats xs))
  /\ (min_latency_ns (windows_stats xs) <= avg_latency_ns (windows_stats xs)
      /\ avg_latency_ns (windows_stats xs) <= max_latency_ns (windows_stats xs))
  /\ avg_latency_ns (kernel_stats xs) <= max_latency_ns (kernel_stats xs).
Proof.
  intros Hacc Hlen Hb Hprod Hne.
  pose proof (linux_latency_order xs Hacc Hlen Hne).
  pose proof (windows_latency_order xs M Hacc Hlen Hb Hprod Hne).
  pose proof (kernel_avg_below_max xs Hacc).
  lia.
Qed.

Lemma average_between_extremes_witness :
  min_latency_ns (windows_stats [sample_1; sample_2; sample_3])
  <= avg_latency_ns (windows_stats [sample_1; sample_2; sample_3])
  /\ avg_latency_ns (kernel_stats [sample_1; sample_2; sample_3])
     <= max_latency_ns (kernel_stats [sample_1; sample_2; sample_3]).
Proof.
  destruct (average_between_extremes [sample_1; sample_2; sample_3] 600
              eq_refl eq_refl eq_refl eq_refl ltac:(discriminate))
    as (_ & (Hw & _) & Hk).
  split; assumption.
Defined.

(** ** The counters and extremes in closed form *)

Lemma sum_sizes_snoc xs x : sum_sizes (xs ++ [x]) = sum_sizes xs + x_size x.
Proof. unfold sum_sizes. induction xs as [| y ys IH]; cbn in *; lia. Qed.

Lemma largest_latency_snoc xs x :
  0 <= x_latency x ->
  largest_latency (xs ++ [x]) = Z.max (largest_latency xs) (x_latency x).
Proof.
  intros Hx. unfold largest_latency.
  induction xs as [| y ys IH]; cbn in *; lia.
Qed.

Lemma smallest_latency_snoc y ys x :
  smallest_latency ((y :: ys) ++ [x])
  = Z.min (smallest_latency (y :: ys)) (x_latency x).
Proof.
  cbn. generalize (x_latency y) as a.
  induction ys as [| z zs IH]; intros a; cbn; [lia |].
  rewrite IH. lia.
Qed.

Lemma sum_sizes_bound xs :
  forallb accepted xs = true ->
  0 <= sum_sizes xs <= Z.of_nat (length xs) * 2 ^ 20.
Proof.
  induction xs as [| x xs IH]; intros Hacc; [cbn; lia |].
  cbn [forallb] in Hacc. apply andb_true_iff in Hacc as [Hx Hacc].
  pose proof (accepted_spec x Hx) as (Hs & _). specialize (IH Hacc).
  cbn [sum_sizes fold_right length] in *. fold (sum_sizes xs). lia.
Qed.

Lemma sim_totals xs :
  forallb accepted xs = true -> Z.of_nat (length xs) < 2 ^ 44 ->
  total_bytes (linux_stats xs) = sum_sizes xs
  /\ max_latency_ns (linux_stats xs) = largest_latency xs
  /\ (xs <> [] ->
      min_latency_ns (linux_stats xs) = smallest_latency xs
      /\ min_latency_ns (windows_stats xs) = smallest_latency xs).
Proof.
  induction xs as [| x xs IH] using rev_ind; intros Hacc Hlen.
  - rewrite linux_stats_nil. cbn. repeat split; congruence.
  - pose proof (sum_sizes_bound _ Hacc) as Hsum.
    apply forallb_snoc in Hacc as [Hacc Hx].
    rewrite length_app in Hlen, Hsum. cbn [length] in Hlen, Hsum.
    pose proof (counters_agree xs Hacc ltac:(lia)) as ((_ & t2 & t3) & _).
    specialize (IH Hacc ltac:(lia)). destruct IH as (Hb & Hmax & Hmin).
    pose proof (accepted_spec x Hx) as (Hs & _).
    pose proof (accepted_latency x Hx) as [_ Hl].
    rewrite sum_sizes_snoc in *.
    rewrite linux_stats_snoc, windows_stats_snoc by lia.
    rewrite largest_latency_snoc by lia.
    destruct xs as [| y ys].
    + rewrite linux_stats_nil, windows_stats_nil.
      unfold LinuxSim.update_stats, WindowsSim.update_stats,
        WindowsSim.fresh_stats, zero_stats, UINT64_MAX.
      cbn -[Z.pow wrap64]. change (wrap64 (0 + 1)) with 1.
      rewrite wrap64_small by lia. cbn -[Z.pow].
      repeat split; zbool; lia.
    + specialize (Hmin ltac:(discriminate)). destruct Hmin as [Hml Hmw].
      rewrite smallest_latency_snoc.
      destruct (linux_stats (y :: ys)) as [ltt ltb lte lavg lmin lmax],
               (windows_stats (y :: ys)) as [wtt wtb wte wavg wmin wmax].
      unfold LinuxSim.update_stats, WindowsSim.update_stats.
      cbn -[Z.pow wrap64 Z.of_nat length app sum_sizes largest_latency
            smallest_latency] in *.
      subst ltt wtt ltb lmax lmin wmin.
      rewrite (wrap64_small (_ + 1)) by lia.
      destruct (Z.eqb_spec (Z.of_nat (length (y :: ys)) + 1) 1) as [E | _];
        [cbn [length] in E; lia |].
      cbn -[Z.pow wrap64 Z.of_nat length app sum_sizes largest_latency
            smallest_latency].
      rewrite wrap64_small by lia.
      repeat split; zbool; lia.
Qed.

(** X3: after a sequence of accepted transfers (fewer than 2^44 of
    them), every backend holds the number of transfers in
    [total_transfers], the sum of their sizes in [total_bytes] and the
    largest measured latency in [max_latency_ns]; for a non-empty
    sequence the two simulations hold the smallest measured latency in
    [min_latency_ns]. *)
Theorem statistics_in_closed_form (xs : list transfer) :
  forallb accepted xs = true ->
  Z.of_nat (length xs) < 2 ^ 44 ->
  (total_transfers (kernel_stats xs) = Z.of_nat (length xs)
   /\ total_transfers (linux_stats xs) = Z.of_nat (length xs)
   /\ total_transfers (windows_stats xs) = Z.of_nat (length xs))
  /\ (total_bytes (kernel_stats xs) = sum_sizes xs
      /\ total_bytes (linux_stats xs) = sum_sizes xs
      /\ total_bytes (windows_stats xs) = sum_sizes xs)
  /\ (max_latency_ns (kernel_stats xs) = largest_latency xs
      /\ max_latency_ns (linux_stats xs) = largest_latency xs
      /\ max_latency_ns (windows_stats xs) = largest_latency xs)
  /\ (xs <> [] ->
      min_latency_ns (linux_stats xs) = smallest_latency xs
      /\ min_latency_ns (windows_stats xs) = smallest_latency xs).
Proof.
  intros Hacc Hlen.
  destruct (counters_agree xs Hacc ltac:(lia))
    as ((t1 & t2 & t3) & (b1 & b2) & _ & (m1 & m2 & _) & _).
  destruct (sim_totals xs Hacc Hlen) as (Hb & Hm & Hmin).
  repeat split; try congruence; apply Hmin; assumption.
Qed.

Lemma statistics_in_closed_form_witness :
  total_bytes (kernel_stats [sample_1; sample_2; sample_3]) = 12288
  /\ max_latency_ns (windows_stats [sample_1; sample_2; sample_3]) = 600
  /\ min_latency_ns (linux_stats [sample_1; sample_2; sample_3]) = 100.
Proof.
  destruct (statistics_in_closed_form [sample_1; sample_2; sample_3]
              eq_refl eq_refl) as (_ & (Hb & _) & (_ & _ & Hm) & Hmin).
  destruct (Hmin ltac:(discriminate)) as [Hl _].
  rewrite Hb, Hm, Hl. repeat split.
Defined.

(** ** Resetting the statistics *)

(** X4: in both simulations, resetting the statistics of an open device
    succeeds, after which [get_stats] returns a block of zeroes (with
    [min_latency_ns = UINT64_MAX] on Windows), and the next transfer is
    taken as the first sample: it leaves [total_transfers = 1], the
    size in [total_bytes] and its latency as average, minimum and
    maximum. *)
Theorem reset_then_first_sample :
  (forall g h d mem size direction latency_ptr t0 t1,
     0 <= LinuxSim.device_id h < LinuxSim.MAX_DEVICES ->
     LinuxSim.g_sim_devices g !! Z.to_nat (LinuxSim.device_id h) = Some d ->
     size <> 0 ->
     let g1 := (LinuxSim.pcie_sim_reset_stats_linux g (Some h)).2 in
     let r := LinuxSim.pcie_sim_transfer_linux g1 (Some h) (Some mem) size
                direction latency_ptr t0 t1 in
     (LinuxSim.pcie_sim_reset_stats_linux g (Some h)).1 = PCIE_SIM_SUCCESS
     /\ LinuxSim.pcie_sim_get_stats_linux g1 (Some h) true
        = (PCIE_SIM_SUCCESS, Some zero_stats)
     /\ t_err r = PCIE_SIM_SUCCESS
     /\ LinuxSim.pcie_sim_get_stats_linux (t_state r) (Some h) true
        = (PCIE_SIM_SUCCESS, Some (first_sample size (wrap64 (t1 - t0)))))
  /\ (forall g h d mem size direction latency_ptr t0 t1,
        0 <= WindowsSim.device_id h < WindowsSim.MAX_DEVICES ->
        WindowsSim.g_devices g !! Z.to_nat (WindowsSim.device_id h) = Some d ->
        WindowsSim.active d = true ->
        1 <= size <= 1024 * 1024 ->
        0 <= t1 - t0 < 2 ^ 64 ->
        let g1 := (WindowsSim.pcie_sim_reset_stats_impl g (Some h) true).2 in
        let r := WindowsSim.pcie_sim_transfer_impl g1 (Some h) (Some mem) size
                   direction latency_ptr true t0 t1 in
        (WindowsSim.pcie_sim_reset_stats_impl g (Some h) true).1 = PCIE_SIM_SUCCESS
        /\ WindowsSim.pcie_sim_get_stats_impl g1 (Some h) true true
           = (PCIE_SIM_SUCCESS, Some WindowsSim.fresh_stats)
        /\ t_err r = PCIE_SIM_SUCCESS
        /\ WindowsSim.pcie_sim_get_stats_impl (t_state r) (Some h) true true
           = (PCIE_SIM_SUCCESS, Some (first_sample size (t1 - t0)))).
Proof.
  split.
  - intros g h d mem size direction latency_ptr t0 t1 Hid Hd Hs.
    unfold LinuxSim.MAX_DEVICES in *. cbn zeta.
    unfold LinuxSim.pcie_sim_reset_stats_linux, LinuxSim.pcie_sim_transfer_linux,
      LinuxSim.pcie_sim_get_stats_linux, LinuxSim.MAX_DEVICES.
    replace (LinuxSim.device_id h >=? 8) with false by lia.
    replace (size =? 0) with false by lia.
    cbn [negb orb fst snd t_err t_state LinuxSim.g_sim_devices].
    rewrite !list_lookup_alter_eq, Hd. cbn.
    repeat split.
  - intros g h d mem size direction latency_ptr t0 t1 Hid Hd Ha Hs Ht.
    unfold WindowsSim.MAX_DEVICES in *. cbn zeta.
    assert (Hlt : (Z.to_nat (WindowsSim.device_id h) < length (WindowsSim.g_devices g))%nat)
      by (eapply lookup_lt_Some; exact Hd).
    unfold WindowsSim.pcie_sim_reset_stats_impl, WindowsSim.pcie_sim_transfer_impl,
      WindowsSim.pcie_sim_get_stats_impl, WindowsSim.MAX_DEVICES.
    replace (WindowsSim.device_id h <? 0) with false by lia.
    replace (WindowsSim.device_id h >=? 8) with false by lia.
    replace (size =? 0) with false by lia.
    replace (size >? 1024 * 1024) with false by lia.
    cbn [negb orb]. rewrite Hd, Ha.
    cbn [negb fst snd WindowsSim.g_devices].
    rewrite list_lookup_insert_eq by exact Hlt.
    cbn [negb WindowsSim.active t_err t_state WindowsSim.g_devices WindowsSim.stats].
    rewrite list_lookup_insert_eq by (rewrite length_insert; exact Hlt).
    cbn [negb WindowsSim.active WindowsSim.stats].
    repeat split.
    unfold WindowsSim.update_stats, WindowsSim.fresh_stats, first_sample, UINT64_MAX.
    cbn -[Z.pow wrap64 Z.mul]. change (wrap64 (0 + 1)) with 1.
    rewrite (wrap64_small (t1 - t0)) by lia. cbn -[Z.pow wrap64 Z.mul].
    replace (t1 - t0 <? 2 ^ 64 - 1) with (negb (t1 - t0 =? 2 ^ 64 - 1)) by lia.
    replace (t1 - t0 >? 0) with (negb (t1 - t0 =? 0)) by lia.
    do 2 f_equal. f_equal; zbool; cbn; lia.
Qed.

Lemma reset_then_first_sample_witness :
  LinuxSim.pcie_sim_get_stats_linux
    (t_state
       (LinuxSim.pcie_sim_transfer_linux
          (LinuxSim.pcie_sim_reset_stats_linux linux_opened (Some linux_handle)).2
          (Some linux_handle) (Some [0; 0; 0; 0]) 4 0 true 300 900))
    (Some linux_handle) true
  = (PCIE_SIM_SUCCESS, Some (mk_stats 1 4 0 600 600 600))
  /\ WindowsSim.pcie_sim_get_stats_impl
       (t_state
          (WindowsSim.pcie_sim_transfer_impl
             (WindowsSim.pcie_sim_reset_stats_impl windows_opened
                (Some windows_handle) true).2
             (Some windows_handle) (Some [0; 0; 0; 0]) 4 0 true true 300 900))
       (Some windows_handle) true true
     = (PCIE_SIM_SUCCESS, Some (mk_stats 1 4 0 600 600 600)).
Proof.
  destruct reset_then_first_sample as [Hl Hw].
  split.
  - exact (proj2 (proj2 (proj2
      (Hl linux_opened linux_handle _ [0; 0; 0; 0] 4 0 true 300 900
          ltac:(unfold LinuxSim.MAX_DEVICES; cbn; lia) eq_refl ltac:(lia))))).
  - exact (proj2 (proj2 (proj2
      (Hw windows_opened windows_handle _ [0; 0; 0; 0] 4 0 true 300 900
          ltac:(unfold WindowsSim.MAX_DEVICES; cbn; lia) eq_refl eq_refl
          ltac:(lia) ltac:(lia))))).
Defined.

(** ** Devices do not share state *)

(** X5: in both simulations a transfer, a statistics reset or a close
    through the handle of one device leaves the state of every other
    device (active flag, statistics, name) exactly as it was. *)
Theorem devices_are_independent :
  (forall g h id' buffer size direction latency_ptr t0 t1,
     0 <= LinuxSim.device_id h -> 0 <= id' -> id' <> LinuxSim.device_id h ->
     LinuxSim.g_sim_devices
       (t_state (LinuxSim.pcie_sim_transfer_linux g (Some h) buffer size
                   direction latency_ptr t0 t1)) !! Z.to_nat id'
     = LinuxSim.g_sim_devices g !! Z.to_nat id'
     /\ LinuxSim.g_sim_devices
          (LinuxSim.pcie_sim_reset_stats_linux g (Some h)).2 !! Z.to_nat id'
        = LinuxSim.g_sim_devices g !! Z.to_nat id'
     /\ LinuxSim.g_sim_devices
          (LinuxSim.pcie_sim_close_linux g (Some h)).2 !! Z.to_nat id'
        = LinuxSim.g_sim_devices g !! Z.to_nat id')
  /\ (forall g h id' buffer size direction latency_ptr lock_ok t0 t1,
        0 <= id' -> id' <> WindowsSim.device_id h ->
        WindowsSim.g_devices
          (t_state (WindowsSim.pcie_sim_transfer_impl g (Some h) buffer size
                      direction latency_ptr lock_ok t0 t1)) !! Z.to_nat id'
        = WindowsSim.g_devices g !! Z.to_nat id'
        /\ WindowsSim.g_devices
             (WindowsSim.pcie_sim_reset_stats_impl g (Some h) lock_ok).2
             !! Z.to_nat id'
           = WindowsSim.g_devices g !! Z.to_nat id'
        /\ WindowsSim.g_devices
             (WindowsSim.pcie_sim_close_impl g (Some h)).2 !! Z.to_nat id'
           = WindowsSim.g_devices g !! Z.to_nat id').
Proof.
  split.
  - intros g h id' buffer size direction latency_ptr t0 t1 Hh Hid Hne.
    assert (Hn : Z.to_nat (LinuxSim.device_id h) <> Z.to_nat id') by lia.
    unfold LinuxSim.pcie_sim_transfer_linux, LinuxSim.pcie_sim_reset_stats_linux,
      LinuxSim.pcie_sim_close_linux.
    split; [| split; [| reflexivity]].
    + destruct buffer; [| reflexivity].
      destruct (_ || _); [reflexivity |]. cbn.
      apply list_lookup_alter_ne. exact Hn.
    + destruct (_ >=? _); [reflexivity |]. cbn.
      apply list_lookup_alter_ne. exact Hn.
  - intros g h id' buffer size direction latency_ptr lock_ok t0 t1 Hid Hne.
    unfold WindowsSim.pcie_sim_transfer_impl, WindowsSim.pcie_sim_reset_stats_impl,
      WindowsSim.pcie_sim_close_impl.
    destruct (Z.ltb_spec (WindowsSim.device_id h) 0) as [Hneg | Hpos].
    { cbn [orb]. split; [| split]; try reflexivity.
      destruct buffer; [| reflexivity]. destruct (_ || _); reflexivity. }
    assert (Hn : Z.to_nat (WindowsSim.device_id h) <> Z.to_nat id') by lia.
    cbn [orb]. split; [| split].
    + destruct buffer; [| reflexivity].
      destruct (_ || _); [reflexivity |].
      destruct (_ >=? _); [reflexivity |].
      destruct (WindowsSim.g_devices g !! Z.to_nat (WindowsSim.device_id h))
        as [dev |]; [| reflexivity].
      destruct (negb (WindowsSim.active dev)); [reflexivity |].
      destruct (negb lock_ok); [reflexivity |]. cbn.
      apply list_lookup_insert_ne. exact Hn.
    + destruct (_ >=? _); [reflexivity |].
      destruct (WindowsSim.g_devices g !! Z.to_nat (WindowsSim.device_id h))
        as [dev |]; [| reflexivity].
      destruct (negb (WindowsSim.active dev)); [reflexivity |].
      destruct (negb lock_ok); [reflexivity |]. cbn.
      apply list_lookup_insert_ne. exact Hn.
    + destruct (_ >=? _); [reflexivity |]. cbn.
      apply list_lookup_alter_ne. exact Hn.
Qed.

Lemma devices_are_independent_witness :
  linux_device_stats
    (t_state (LinuxSim.pcie_sim_transfer_linux linux_opened
                (Some (LinuxSim.mk_handle (-1) 3 1)) (Some [0; 0; 0; 0]) 4 0
                true 0 100)) 0
  = linux_device_stats linux_opened 0
  /\ windows_device_stats
       (WindowsSim.pcie_sim_close_impl windows_opened
          (Some (WindowsSim.mk_handle 3 3))).2 0
     = windows_device_stats windows_opened 0.
Proof.
  destruct devices_are_independent as [Hl Hw].
  unfold linux_device_stats, windows_device_stats. split.
  - rewrite (proj1 (Hl linux_opened (LinuxSim.mk_handle (-1) 3 1) 0
                      (Some [0; 0; 0; 0]) 4 0 true 0 100
                      ltac:(cbn; lia) ltac:(lia) ltac:(cbn; lia))).
    reflexivity.
  - rewrite (proj2 (proj2 (Hw windows_opened (WindowsSim.mk_handle 3 3) 0
                             None 0 0 true true 0 0
                             ltac:(lia) ltac:(cbn; lia)))).
    reflexivity.
Defined.

(** ** Closing and opening again *)

Lemma windows_transfer_keeps_open g h buffer size direction lp lock_ok t0 t1 id :
  WindowsSim.g_initialized g = true ->
  (exists d, WindowsSim.g_devices g !! Z.to_nat id = Some d
             /\ WindowsSim.active d = true) ->
  let g' := t_state (WindowsSim.pcie_sim_transfer_impl g h buffer size
                       direction lp lock_ok t0 t1) in
  WindowsSim.g_initialized g' = true
  /\ exists d, WindowsSim.g_devices g' !! Z.to_nat id = Some d
               /\ WindowsSim.active d = true.
Proof.
  intros Hinit (d & Hd & Ha). cbn zeta.
  unfold WindowsSim.pcie_sim_transfer_impl.
  destruct h as [h |], buffer as [mem |]; try (cbn; eauto; fail).
  destruct (_ || _); [cbn; eauto |].
  destruct (_ || _); [cbn; eauto |].
  destruct (WindowsSim.g_devices g !! Z.to_nat (WindowsSim.device_id h))
    as [dev |] eqn:Hdev; [| cbn; eauto].
  destruct (WindowsSim.active dev) eqn:Hadev; cbn [negb]; [| cbn; eauto].
  destruct (negb lock_ok); [cbn; eauto |].
  cbn [t_state WindowsSim.g_initialized WindowsSim.g_devices].
  split; [exact Hinit |].
  destruct (decide (Z.to_nat (WindowsSim.device_id h) = Z.to_nat id)) as [e | ne].
  - rewrite e. rewrite list_lookup_insert_eq by (eapply lookup_lt_Some; exact Hd).
    eexists. split; reflexivity.
  - rewrite list_lookup_insert_ne by exact ne. eauto.
Qed.

Lemma windows_run_on_keeps h id xs : forall g,
  WindowsSim.g_initialized g = true ->
  (exists d, WindowsSim.g_devices g !! Z.to_nat id = Some d
             /\ WindowsSim.active d = true) ->
  WindowsSim.g_initialized (windows_run_on h g xs) = true
  /\ exists d, WindowsSim.g_devices (windows_run_on h g xs) !! Z.to_nat id = Some d
               /\ WindowsSim.active d = true.
Proof.
  induction xs as [| x xs IH]; intros g Hinit Hd; [split; assumption |].
  cbn [windows_run_on fold_left].
  destruct (windows_transfer_keeps_open g (Some h) (Some (user_buffer x))
              (x_size x) (x_direction x) true true (x_t0 x) (x_t1 x) id Hinit Hd)
    as [Hinit' Hd'].
  apply IH; assumption.
Qed.

Lemma windows_open_free env g id d :
  0 <= id < WindowsSim.MAX_DEVICES ->
  WindowsSim.g_initialized g = true ->
  WindowsSim.g_devices g !! Z.to_nat id = Some d ->
  WindowsSim.active d = false ->
  (WindowsSim.pcie_sim_open_impl env g id true true).1
  = (PCIE_SIM_SUCCESS, Some (WindowsSim.mk_handle id id))
  /\ windows_device_stats (WindowsSim.pcie_sim_open_impl env g id true true).2 id
     = Some (WindowsSim.stats d).
Proof.
  intros Hid Hinit Hd Ha.
  unfold WindowsSim.pcie_sim_open_impl, WindowsSim.MAX_DEVICES,
    WindowsSim.windows_sim_init in *.
  replace (id <? 0) with false by lia. replace (id >=? 8) with false by lia.
  cbn [negb orb]. rewrite Hinit. cbn [Z.eqb negb]. rewrite Hd, Ha.
  cbn [negb fst snd]. split; [reflexivity |].
  unfold windows_device_stats. cbn [WindowsSim.g_devices].
  rewrite list_lookup_alter_eq, Hd. reflexivity.
Qed.

(** X6: in the Windows simulation a close releases the device: after a
    successful open, any transfers through the handle and a close, a
    new open of the same id succeeds, and the statistics that the
    transfers left are still in place (an open does not reset them).
    In the Linux simulation a close changes nothing in the globals, and
    a new open of the same id succeeds on the unchanged state. *)
Theorem close_then_open_again :
  (forall env env' g id handle_ptr malloc_ok h g1 xs,
     WindowsSim.pcie_sim_open_impl env g id handle_ptr malloc_ok
     = (PCIE_SIM_SUCCESS, Some h, g1) ->
     let g2 := windows_run_on h g1 xs in
     let g3 := (WindowsSim.pcie_sim_close_impl g2 (Some h)).2 in
     (WindowsSim.pcie_sim_close_impl g2 (Some h)).1 = PCIE_SIM_SUCCESS
     /\ (WindowsSim.pcie_sim_open_impl env' g3 id true true).1.1 = PCIE_SIM_SUCCESS
     /\ (WindowsSim.pcie_sim_open_impl env' g3 id true true).1.2 = Some h
     /\ windows_device_stats (WindowsSim.pcie_sim_open_impl env' g3 id true true).2 id
        = windows_device_stats g2 id)
  /\ (forall g id handle_ptr malloc_ok now now' h g1 xs,
        LinuxSim.pcie_sim_open_linux g id handle_ptr malloc_ok now
        = (PCIE_SIM_SUCCESS, Some h, g1) ->
        let g2 := linux_run_on h g1 xs in
        LinuxSim.pcie_sim_close_linux g2 (Some h) = (PCIE_SIM_SUCCESS, g2)
        /\ LinuxSim.pcie_sim_open_linux
             (LinuxSim.pcie_sim_close_linux g2 (Some h)).2 id true true now'
           = (PCIE_SIM_SUCCESS, Some h, g2)).
Proof.
  split.
  - intros env env' g id handle_ptr malloc_ok h g1 xs Hopen.
    apply windows_open_marks in Hopen as (Hid & -> & Hinit & Hd).
    destruct (windows_run_on_keeps (WindowsSim.mk_handle id id) id xs g1 Hinit Hd)
      as (Hinit2 & d & Hd2 & Ha2).
    cbn zeta. set (g2 := windows_run_on (WindowsSim.mk_handle id id) g1 xs) in *.
    set (closed :=
           WindowsSim.mk_state
             (alter (fun d => WindowsSim.mk_dev false (WindowsSim.mutex d)
                                (WindowsSim.stats d) (WindowsSim.frequency d)
                                (WindowsSim.device_name d))
                    (Z.to_nat id) (WindowsSim.g_devices g2))
             (WindowsSim.g_initialized g2)).
    assert (Hclose : WindowsSim.pcie_sim_close_impl g2
                       (Some (WindowsSim.mk_handle id id))
                     = (PCIE_SIM_SUCCESS, closed)).
    { unfold WindowsSim.pcie_sim_close_impl, WindowsSim.MAX_DEVICES in *.
      cbn [WindowsSim.device_id].
      replace (id <? 0) with false by lia. replace (id >=? 8) with false by lia.
      reflexivity. }
    rewrite Hclose. cbn [fst snd]. split; [reflexivity |].
    assert (Hd3 : WindowsSim.g_devices closed !! Z.to_nat id
                  = Some (WindowsSim.mk_dev false (WindowsSim.mutex d)
                            (WindowsSim.stats d) (WindowsSim.frequency d)
                            (WindowsSim.device_name d))).
    { subst closed. cbn [WindowsSim.g_devices].
      rewrite list_lookup_alter_eq, Hd2. reflexivity. }
    destruct (windows_open_free env' closed id _ Hid Hinit2 Hd3 eq_refl)
      as [Ho Hs].
    rewrite Ho, Hs. unfold windows_device_stats. rewrite Hd2.
    repeat split.
  - intros g id handle_ptr malloc_ok now now' h g1 xs Hopen g2.
    split; [reflexivity |]. cbn [LinuxSim.pcie_sim_close_linux snd].
    apply linux_open_marks in Hopen as (Hid & -> & Hinit & Hact).
    destruct (linux_run_on_keeps (LinuxSim.mk_handle (-1) id 1) id xs g1 Hinit Hact)
      as [Hinit2 Hact2].
    exact (linux_reopen g2 id now' Hid Hinit2 Hact2).
Qed.

Lemma close_then_open_again_witness :
  (WindowsSim.pcie_sim_open_impl windows_env
     (WindowsSim.pcie_sim_close_impl
        (windows_run_on windows_handle windows_opened [sample_1; sample_2])
        (Some windows_handle)).2 0 true true).1.1 = PCIE_SIM_SUCCESS
  /\ windows_device_stats
       (WindowsSim.pcie_sim_open_impl windows_env
          (WindowsSim.pcie_sim_close_impl
             (windows_run_on windows_handle windows_opened [sample_1; sample_2])
             (Some windows_handle)).2 0 true true).2 0
     = Some (mk_stats 2 8192 0 150 100 200).
Proof.
  destruct close_then_open_again as [Hw _].
  destruct (Hw windows_env windows_env WindowsSim.initial_state 0 true true
              windows_handle windows_opened [sample_1; sample_2] eq_refl)
    as (_ & H1 & _ & H2).
  split; [exact H1 |]. rewrite H2. vm_compute. reflexivity.
Defined.

(** ** The timing models in closed form *)

(** X7: for a size of 1 to 2^64 - 2^20 bytes the Linux simulation
    computes 10000 ns per started MiB for a write and 12000 ns per
    started MiB for a read; the result is at least 10000 ns, so
    [linux_sim_delay] never skips the wait, and it does not decrease
    when the size grows.  For the sizes above 2^64 - 2^20 the rounding
    wraps around and the latency is that of a single MiB. *)
Theorem linux_latency_per_mib :
  (forall size,
     1 <= size <= 2 ^ 64 - 2 ^ 20 ->
     let mib := (size + 2 ^ 20 - 1) / 2 ^ 20 in
     LinuxSim.transfer_latency size PCIE_SIM_TO_DEVICE = 10000 * mib
     /\ LinuxSim.transfer_latency size PCIE_SIM_FROM_DEVICE = 12000 * mib
     /\ 1 <= mib)
  /\ (forall size direction,
        10000 <= LinuxSim.transfer_latency size direction
        /\ LinuxSim.linux_sim_delay (LinuxSim.transfer_latency size direction)
           = LinuxSim.transfer_latency size direction)
  /\ (forall size size' direction,
        1 <= size <= size' -> size' <= 2 ^ 64 - 2 ^ 20 ->
        LinuxSim.transfer_latency size direction
        <= LinuxSim.transfer_latency size' direction)
  /\ (forall size,
        2 ^ 64 - 2 ^ 20 < size < 2 ^ 64 ->
        LinuxSim.transfer_latency size PCIE_SIM_TO_DEVICE = 10000).
Proof.
  assert (Hform : forall size, 1 <= size <= 2 ^ 64 - 2 ^ 20 ->
            let mib := (size + 2 ^ 20 - 1) / 2 ^ 20 in
            LinuxSim.transfer_latency size PCIE_SIM_TO_DEVICE = 10000 * mib
            /\ LinuxSim.transfer_latency size PCIE_SIM_FROM_DEVICE = 12000 * mib
            /\ 1 <= mib < 2 ^ 44).
  { intros size Hs mib.
    assert (Hm : 1 <= mib < 2 ^ 44).
    { subst mib. split; [apply Z.div_le_lower_bound; lia |].
      apply Z.div_lt_upper_bound; lia. }
    unfold LinuxSim.transfer_latency, PCIE_SIM_TO_DEVICE, PCIE_SIM_FROM_DEVICE.
    cbn -[Z.mul Z.pow wrap64 Z.div].
    change (1024 * 1024) with (2 ^ 20).
    rewrite (wrap64_small (size + 2 ^ 20 - 1)) by lia. fold mib.
    replace (mib =? 0) with false by lia.
    rewrite !wrap64_small by (rewrite ?wrap64_small; lia).
    repeat split; try lia.
    replace (10000 * mib * 12) with (12000 * mib * 10) by lia.
    apply Z.div_mul. lia. }
  assert (Hlow : forall size direction,
            10000 <= LinuxSim.transfer_latency size direction).
  { intros size direction.
    destruct (linux_write_latency size) as (k & Hk & Hw & Hr).
    unfold PCIE_SIM_TO_DEVICE, PCIE_SIM_FROM_DEVICE in *.
    unfold LinuxSim.transfer_latency in *. unfold PCIE_SIM_FROM_DEVICE in *.
    cbn -[Z.mul Z.pow wrap64 Z.div] in Hw, Hr.
    destruct (direction =? 1); [rewrite Hr | rewrite Hw]; lia. }
  split; [| split; [| split]].
  - intros size Hs mib. destruct (Hform size Hs) as (H1 & H2 & H3).
    fold mib in H1, H2, H3. repeat split; lia.
  - intros size direction. split; [apply Hlow |].
    unfold LinuxSim.linux_sim_delay. specialize (Hlow size direction).
    replace (LinuxSim.transfer_latency size direction <? 1000) with false by lia.
    reflexivity.
  - intros size size' direction Hs Hs'.
    destruct (Hform size ltac:(lia)) as (H1 & H2 & H3).
    destruct (Hform size' ltac:(lia)) as (H1' & H2' & H3').
    assert (Hmono : (size + 2 ^ 20 - 1) / 2 ^ 20 <= (size' + 2 ^ 20 - 1) / 2 ^ 20)
      by (apply Z.div_le_mono; lia).
    unfold LinuxSim.transfer_latency, PCIE_SIM_TO_DEVICE, PCIE_SIM_FROM_DEVICE in *.
    cbn -[Z.mul Z.pow wrap64 Z.div] in H1, H2, H1', H2'.
    destruct (direction =? 1); [rewrite H2, H2' | rewrite H1, H1']; lia.
  - intros size Hs.
    unfold LinuxSim.transfer_latency, PCIE_SIM_TO_DEVICE, PCIE_SIM_FROM_DEVICE.
    cbn -[Z.mul Z.pow wrap64 Z.div].
    change (1024 * 1024) with (2 ^ 20).
    assert (Hw : wrap64 (size + 2 ^ 20 - 1) = size + 2 ^ 20 - 1 - 2 ^ 64).
    { unfold wrap64. symmetry. apply (Z.mod_unique _ _ 1); lia. }
    rewrite Hw. rewrite Z.div_small by lia. reflexivity.
Qed.

Lemma linux_latency_per_mib_witness :
  LinuxSim.transfer_latency (3 * 2 ^ 20 + 1) PCIE_SIM_FROM_DEVICE = 48000
  /\ LinuxSim.transfer_latency 4096 PCIE_SIM_TO_DEVICE
     <= LinuxSim.transfer_latency (2 * 2 ^ 20) PCIE_SIM_TO_DEVICE
  /\ LinuxSim.transfer_latency (2 ^ 64 - 1) PCIE_SIM_TO_DEVICE = 10000.
Proof.
  destruct linux_latency_per_mib as (H1 & _ & H3 & H4).
  split; [| split].
  - rewrite (proj1 (proj2 (H1 (3 * 2 ^ 20 + 1) ltac:(lia)))). reflexivity.
  - exact (H3 4096 (2 * 2 ^ 20) PCIE_SIM_TO_DEVICE ltac:(lia) ltac:(lia)).
  - exact (H4 (2 ^ 64 - 1) ltac:(lia)).
Defined.

(** X8: for a size that the kernel path admits and a jitter draw below
    20, [simulate_transfer_delay] waits [10 + size / 1024 + jitter]
    microseconds, between 10 and 1053; it busy-waits with [udelay]
    exactly when the size is below 1024 and the jitter is 0 (a delay of
    10), and sleeps with [usleep_range(delay, delay + 10)] otherwise. *)
Theorem kernel_delay_bounds (size jitter_us : Z) :
  1 <= size <= Dma.MAX_TRANSFER_SIZE ->
  0 <= jitter_us < 20 ->
  let delay := Dma.simulate_transfer_delay size jitter_us in
  delay = 10 + size / 1024 + jitter_us
  /\ 10 <= delay <= 1053
  /\ kernel_sleep size jitter_us
     = (if (size <? 1024) && (jitter_us =? 0)
        then Udelay 10
        else Usleep_range delay (delay + 10)).
Proof.
  intros Hs Hj delay. unfold Dma.MAX_TRANSFER_SIZE in Hs.
  assert (Hq : 0 <= size / 1024 <= 1024).
  { split; [apply Z.div_pos; lia | apply Z.div_le_upper_bound; lia]. }
  assert (Hd : delay = 10 + size / 1024 + jitter_us).
  { subst delay. unfold Dma.simulate_transfer_delay.
    rewrite !wrap32_small by (rewrite ?wrap32_small; lia). reflexivity. }
  split; [exact Hd | split; [lia |]].
  unfold kernel_sleep. fold delay.
  destruct (Z.ltb_spec size 1024) as [Hlt | Hge].
  - assert (Hz : size / 1024 = 0) by (apply Z.div_small; lia).
    destruct (Z.eqb_spec jitter_us 0) as [-> | Hne]; cbn [andb].
    + replace (delay >? 10) with false by lia. f_equal. lia.
    + replace (delay >? 10) with true by lia.
      rewrite wrap32_small by lia. reflexivity.
  - assert (1 <= size / 1024) by (apply Z.div_le_lower_bound; lia).
    cbn [andb]. replace (delay >? 10) with true by lia.
    rewrite wrap32_small by lia. reflexivity.
Qed.

Lemma kernel_delay_bounds_witness :
  Dma.simulate_transfer_delay 4096 7 = 21
  /\ kernel_sleep 512 0 = Udelay 10
  /\ kernel_sleep 4096 7 = Usleep_range 21 31.
Proof.
  destruct (kernel_delay_bounds 4096 7 ltac:(unfold Dma.MAX_TRANSFER_SIZE; lia)
              ltac:(lia)) as (H1 & _ & H3).
  destruct (kernel_delay_bounds 512 0 ltac:(unfold Dma.MAX_TRANSFER_SIZE; lia)
              ltac:(lia)) as (_ & _ & H3').
  split; [rewrite H1; reflexivity | split; [rewrite H3' | rewrite H3]; reflexivity].
Defined.

(** X9: for a size that the Windows simulation admits and any two draws
    of [rand()], [simulate_transfer_delay] waits
    [1 + r1 mod 10 + size / (1000 + r2 mod 7000)] microseconds, between
    1 and 1058; it calls [Sleep] only when the delay reaches 1000
    microseconds, then for one millisecond, and the milliseconds slept
    and the microseconds of the busy wait add up to the delay. *)
Theorem windows_delay_bounds (size direction r1 r2 : Z) :
  1 <= size <= 1024 * 1024 ->
  0 <= r1 -> 0 <= r2 ->
  let delay := WindowsSim.transfer_delay size direction r1 r2 in
  let w := windows_sleep (wrap32 size) r1 r2 in
  delay = 1 + r1 mod 10 + size / (1000 + r2 mod 7000)
  /\ 1 <= delay <= 1058
  /\ sleep_ms w = (if delay >=? 1000 then Some 1 else None)
  /\ 1000 * default 0 (sleep_ms w) + spin_us w = delay
  /\ 0 <= spin_us w < 1000.
Proof.
  intros Hs Hr1 Hr2 delay w.
  pose proof (Z.mod_pos_bound r1 10 ltac:(lia)) as Hb.
  pose proof (Z.mod_pos_bound r2 7000 ltac:(lia)) as Ht.
  assert (Hq : 0 <= size / (1000 + r2 mod 7000) <= 1048).
  { split; [apply Z.div_pos; lia |].
    assert (size / (1000 + r2 mod 7000) < 1049)
      by (apply Z.div_lt_upper_bound; lia).
    lia. }
  assert (Hd : delay = 1 + r1 mod 10 + size / (1000 + r2 mod 7000)).
  { subst delay. unfold WindowsSim.transfer_delay, WindowsSim.simulate_transfer_delay.
    rewrite (wrap32_small size) by lia.
    rewrite !wrap32_small by (rewrite ?wrap32_small; lia). reflexivity. }
  split; [exact Hd | split; [lia |]].
  subst w. unfold windows_sleep.
  change (WindowsSim.simulate_transfer_delay (wrap32 size) r1 r2) with delay.
  destruct (Z.geb_spec delay 1000) as [Hge | Hlt];
    cbn [sleep_ms spin_us default from_option id].
  - assert (Hone : delay / 1000 = 1).
    { symmetry. apply (Z.div_unique _ _ _ (delay - 1000)); lia. }
    assert (Hrem : delay mod 1000 = delay - 1000).
    { symmetry. apply (Z.mod_unique _ _ 1); lia. }
    rewrite Hone, Hrem, wrap32_small by lia. repeat split; lia.
  - repeat split; lia.
Qed.

Lemma windows_delay_bounds_witness :
  WindowsSim.transfer_delay (1024 * 1024) 1 9 0 = 1058
  /\ sleep_ms (windows_sleep (wrap32 (1024 * 1024)) 9 0) = Some 1
  /\ spin_us (windows_sleep (wrap32 (1024 * 1024)) 9 0) = 58.
Proof.
  pose proof (windows_delay_bounds (1024 * 1024) 1 9 0 ltac:(lia) ltac:(lia)
                ltac:(lia)) as H.
  cbn zeta in H. destruct H as (H1 & _ & H3 & _).
  split; [rewrite H1; reflexivity | split; [rewrite H3 |]; reflexivity].
Defined.

(** ** Initialisation of the Windows simulation *)

Lemma init_loop_spec env devs : forall i,
  length (WindowsSim.init_loop env i devs).2 = length devs
  /\ ((WindowsSim.init_loop env i devs).1 = true
      <-> forall k, (k < length devs)%nat ->
                    WindowsSim.create_mutex env (i + Z.of_nat k) = true)
  /\ ((WindowsSim.init_loop env i devs).1 = true ->
      forall k d, (WindowsSim.init_loop env i devs).2 !! k = Some d ->
                  WindowsSim.active d = false
                  /\ WindowsSim.mutex d = true
                  /\ WindowsSim.stats d = WindowsSim.fresh_stats).
Proof.
  induction devs as [| d0 devs IH]; intros i; cbn [WindowsSim.init_loop].
  - cbn [fst snd length].
    split; [reflexivity | split; [split; [intros _ k Hk; lia | reflexivity] |]].
    intros _ k d Hk. destruct k; discriminate Hk.
  - destruct (WindowsSim.create_mutex env i) eqn:Hm.
    + specialize (IH (i + 1)).
      destruct (WindowsSim.init_loop env (i + 1) devs) as [ok rest].
      cbn [fst snd length] in *. destruct IH as (Hlen & Hiff & Hfresh).
      split; [lia | split; [split |]].
      * intros Hok k Hk. destruct k as [| k].
        -- rewrite Z.add_0_r. exact Hm.
        -- replace (i + Z.of_nat (S k)) with (i + 1 + Z.of_nat k) by lia.
           apply Hiff; [exact Hok | lia].
      * intros Hall. apply Hiff. intros k Hk.
        replace (i + 1 + Z.of_nat k) with (i + Z.of_nat (S k)) by lia.
        apply Hall. lia.
      * intros Hok k d Hd. destruct k as [| k].
        -- cbn in Hd. injection Hd as <-. repeat split.
        -- exact (Hfresh Hok k d Hd).
    + cbn [fst snd length]. split; [reflexivity | split; [split |]].
      * discriminate.
      * intros Hall. specialize (Hall 0%nat ltac:(lia)).
        rewrite Z.add_0_r in Hall. congruence.
      * discriminate.
Qed.

(** X10: on globals that are not yet initialised, [windows_sim_init]
    returns 0 exactly when [CreateMutex] succeeds for every device; it
    then sets [g_initialized] and leaves every device inactive with
    reset statistics ([min_latency_ns = UINT64_MAX]).  Otherwise it
    returns -1 and [g_initialized] stays unset, and an open then
    returns the system error.  On initialised globals it changes
    nothing. *)
Theorem windows_init_all_or_nothing (env : WindowsSim.os_env)
    (g : WindowsSim.sim_state) :
  let r := WindowsSim.windows_sim_init env g in
  (WindowsSim.g_initialized g = true -> r = (0, g))
  /\ (WindowsSim.g_initialized g = false ->
      (r.1 = 0 \/ r.1 = -1)
      /\ length (WindowsSim.g_devices r.2) = length (WindowsSim.g_devices g)
      /\ (r.1 = 0 <->
          forall k, (k < length (WindowsSim.g_devices g))%nat ->
                    WindowsSim.create_mutex env (Z.of_nat k) = true)
      /\ (r.1 = 0 ->
          WindowsSim.g_initialized r.2 = true
          /\ forall k d, WindowsSim.g_devices r.2 !! k = Some d ->
                         WindowsSim.active d = false
                         /\ WindowsSim.stats d = WindowsSim.fresh_stats)
      /\ (r.1 = -1 ->
          WindowsSim.g_initialized r.2 = false
          /\ forall id malloc_ok,
               0 <= id < WindowsSim.MAX_DEVICES ->
               WindowsSim.pcie_sim_open_impl env g id true malloc_ok
               = (PCIE_SIM_ERROR_SYSTEM, None, r.2))).
Proof.
  cbn zeta. unfold WindowsSim.windows_sim_init. split.
  - intros ->. reflexivity.
  - intros Hinit. rewrite Hinit.
    pose proof (init_loop_spec env (WindowsSim.g_devices g) 0)
      as (Hlen & Hiff & Hfresh).
    unfold WindowsSim.pcie_sim_open_impl, WindowsSim.windows_sim_init.
    rewrite Hinit.
    destruct (WindowsSim.init_loop env 0 (WindowsSim.g_devices g)) as [ok devs].
    cbn [fst snd] in *. destruct ok; cbn [fst snd WindowsSim.g_devices
                                           WindowsSim.g_initialized].
    + split; [left; reflexivity | split; [exact Hlen | split; [| split]]].
      * split; [intros _; apply Hiff; reflexivity | reflexivity].
      * intros _. split; [reflexivity |]. intros k d Hd.
        destruct (Hfresh eq_refl k d Hd) as (Ha & _ & Hs). split; assumption.
      * discriminate.
    + split; [right; reflexivity | split; [exact Hlen | split; [| split]]].
      * split; [discriminate |]. intros Hall. apply Hiff in Hall. discriminate.
      * discriminate.
      * intros _. split; [reflexivity |]. intros id malloc_ok Hid.
        unfold WindowsSim.MAX_DEVICES in *.
        replace (id <? 0) with false by lia. replace (id >=? 8) with false by lia.
        reflexivity.
Qed.

Lemma windows_init_all_or_nothing_witness :
  (WindowsSim.windows_sim_init windows_env WindowsSim.initial_state).1 = 0
  /\ WindowsSim.pcie_sim_open_impl
       (WindowsSim.mk_env (fun i => i <? 5) (fun _ => None))
       WindowsSim.initial_state 2 true true
     = (PCIE_SIM_ERROR_SYSTEM, None,
        (WindowsSim.windows_sim_init
           (WindowsSim.mk_env (fun i => i <? 5) (fun _ => None))
           WindowsSim.initial_state).2).
Proof.
  split.
  - destruct (windows_init_all_or_nothing windows_env WindowsSim.initial_state)
      as [_ H].
    destruct (H eq_refl) as (_ & _ & Hiff & _).
    apply Hiff. intros k _. reflexivity.
  - destruct (windows_init_all_or_nothing
                (WindowsSim.mk_env (fun i => i <? 5) (fun _ => None))
                WindowsSim.initial_state) as [_ H].
    destruct (H eq_refl) as (_ & _ & _ & _ & Hfail).
    destruct (Hfail eq_refl) as [_ Hopen].
    exact (Hopen 2 true ltac:(unfold WindowsSim.MAX_DEVICES; lia)).
Defined.

(** X11: [windows_sim_cleanup] leaves the globals uninitialised with
    every device inactive, and it keeps the statistics in place; the
    next successful open initialises again and with that resets the
    statistics of all devices, not only of the one opened. *)
Theorem cleanup_then_open_resets (env : WindowsSim.os_env)
    (g : WindowsSim.sim_state) :
  WindowsSim.g_initialized g = true ->
  let c := windows_sim_cleanup g in
  WindowsSim.g_initialized c = false
  /\ (forall k d, WindowsSim.g_devices c !! k = Some d ->
                  WindowsSim.active d = false)
  /\ (forall id, windows_device_stats c id = windows_device_stats g id)
  /\ (forall id h g',
        WindowsSim.pcie_sim_open_impl env c id true true
        = (PCIE_SIM_SUCCESS, Some h, g') ->
        forall k d, WindowsSim.g_devices g' !! k = Some d ->
                    WindowsSim.stats d = WindowsSim.fresh_stats).
Proof.
  intros Hinit. cbn zeta. unfold windows_sim_cleanup. rewrite Hinit. cbn [negb].
  split; [reflexivity | split; [| split]].
  - intros k d. cbn [WindowsSim.g_devices]. rewrite list_lookup_fmap.
    destruct (_ !! _); [| discriminate]. cbn. intros H. injection H as <-.
    reflexivity.
  - intros id. unfold windows_device_stats. cbn [WindowsSim.g_devices].
    rewrite list_lookup_fmap. destruct (_ !! _); reflexivity.
  - intros id h g'.
    set (c := WindowsSim.mk_state _ false).
    destruct (windows_init_all_or_nothing env c) as [_ Hun].
    destruct (Hun eq_refl) as (Hcodes & _ & _ & Hok & _).
    unfold WindowsSim.pcie_sim_open_impl.
    destruct (_ || _); [discriminate |].
    destruct (WindowsSim.windows_sim_init env c) as [rc gi].
    cbn [fst snd] in *.
    destruct (Z.eqb_spec rc 0) as [-> | Hrc]; cbn [negb]; [| discriminate].
    destruct (Hok eq_refl) as [_ Hfresh].
    destruct (WindowsSim.g_devices gi !! Z.to_nat id) as [d0 |] eqn:Hd0;
      [| discriminate].
    destruct (WindowsSim.active d0); [discriminate |].
    cbn [negb]. intros Hopen. injection Hopen as _ <-.
    intros k d. cbn [WindowsSim.g_devices]. rewrite list_lookup_alter.
    destruct (decide _) as [e | ne].
    + destruct (WindowsSim.g_devices gi !! Z.to_nat id) eqn:E; [| discriminate].
      cbn. intros H. injection H as <-. cbn.
      exact (proj2 (Hfresh _ _ E)).
    + intros Hd. exact (proj2 (Hfresh _ _ Hd)).
Qed.

Lemma cleanup_then_open_resets_witness :
  windows_device_stats
    (WindowsSim.pcie_sim_open_impl windows_env
       (windows_sim_cleanup (windows_run [sample_1; sample_2])) 3 true true).2 0
  = Some WindowsSim.fresh_stats.
Proof.
  destruct (cleanup_then_open_resets windows_env (windows_run [sample_1; sample_2])
              eq_refl) as (_ & _ & _ & H).
  assert (Hlen : length (WindowsSim.g_devices
                   (WindowsSim.pcie_sim_open_impl windows_env
                      (windows_sim_cleanup (windows_run [sample_1; sample_2]))
                      3 true true).2) = 8%nat)
    by (vm_compute; reflexivity).
  assert (He : (WindowsSim.pcie_sim_open_impl windows_env
                  (windows_sim_cleanup (windows_run [sample_1; sample_2]))
                  3 true true).1
               = (PCIE_SIM_SUCCESS, Some (WindowsSim.mk_handle 3 3)))
    by (vm_compute; reflexivity).
  destruct (WindowsSim.pcie_sim_open_impl windows_env
              (windows_sim_cleanup (windows_run [sample_1; sample_2])) 3 true true)
    as [[e h] g'] eqn:E.
  cbn [fst snd] in Hlen, He. injection He as -> ->.
  unfold windows_device_stats. cbn [snd].
  destruct (WindowsSim.g_devices g' !! Z.to_nat 0) as [d |] eqn:Hd.
  - cbn. f_equal. exact (H 3 _ g' E _ d Hd).
  - exfalso. apply lookup_ge_None in Hd. lia.
Defined.

(** ** The counters of the ring *)

Lemma ring_step_accounting r q o :
  ring_inv r q ->
  Ring.head r = Ring.submissions r mod 256 ->
  Ring.tail r = Ring.completions r mod 256 ->
  Ring.count r = Ring.submissions r - Ring.completions r ->
  0 <= Ring.completions r ->
  0 <= Ring.overruns r ->
  Ring.submissions r + 1 < 2 ^ 64 ->
  Ring.overruns r + 1 < 2 ^ 64 ->
  let out := (ring_step r o).1 in
  let r' := (ring_step r o).2 in
  Ring.head r' = Ring.submissions r' mod 256
  /\ Ring.tail r' = Ring.completions r' mod 256
  /\ Ring.count r' = Ring.submissions r' - Ring.completions r'
  /\ Ring.submissions r' = Ring.submissions r + tally is_accepted_submit [out]
  /\ Ring.completions r' = Ring.completions r + tally is_completion [out]
  /\ Ring.overruns r' = Ring.overruns r + tally is_rejected_submit [out].
Proof.
  intros Hinv Hh Ht Hc Hc0 Ho0 Hs1 Ho1.
  pose proof Hinv as (Hsz & _ & Htl & Hcq & Hle & _).
  unfold Ring.RING_SIZE in *.
  assert (Hcnt : 0 <= Ring.count r) by lia.
  destruct o as [a l f now | lp tp st now]; cbn [ring_step].
  - unfold Ring.pcie_sim_ring_submit. rewrite Hsz, (wrap32_small (Ring.count r)) by lia.
    destruct (Z.geb_spec (Ring.count r) 256) as [Hfull | Hfree].
    + cbn. change (- ENOSPC =? 0) with false. cbn.
      rewrite wrap64_small by lia. repeat split; lia.
    + assert (Hh0 : 0 <= Ring.head r < 256) by (rewrite Hh; apply Z.mod_pos_bound; lia).
      cbn -[Z.pow wrap64 wrap32 int32 Z.modulo]. change (0 =? 0) with true.
      cbn -[Z.pow wrap64 wrap32 int32 Z.modulo].
      rewrite (wrap32_small (Ring.head r + 1)), int32_small,
        (wrap64_small (Ring.submissions r + 1)) by lia.
      repeat split; try lia.
      rewrite Hh. generalize (Ring.submissions r). intros s.
      Z.to_euclidean_division_equations. lia.
  - unfold Ring.pcie_sim_ring_complete. rewrite Hsz.
    destruct (Z.eqb_spec (Ring.count r) 0) as [Hz | Hnz].
    + cbn. change (- ENODATA =? 0) with false. cbn. repeat split; lia.
    + cbn -[Z.pow wrap64 wrap32 int32 Z.modulo]. change (0 =? 0) with true.
      cbn -[Z.pow wrap64 wrap32 int32 Z.modulo].
      rewrite (wrap32_small (Ring.tail r + 1)), int32_small,
        (wrap64_small (Ring.completions r + 1)) by lia.
      repeat split; try lia.
      rewrite Ht. generalize (Ring.completions r). intros s.
      Z.to_euclidean_division_equations. lia.
Qed.

Lemma tally_cons p o outs : tally p (o :: outs) = tally p [o] + tally p outs.
Proof. cbn. lia. Qed.

Lemma tally_one_range p o : 0 <= tally p [o] <= 1.
Proof. cbn. destruct (p o); lia. Qed.

Lemma ring_run_accounting ops : forall r q,
  ring_inv r q ->
  Ring.head r = Ring.submissions r mod 256 ->
  Ring.tail r = Ring.completions r mod 256 ->
  Ring.count r = Ring.submissions r - Ring.completions r ->
  0 <= Ring.completions r ->
  0 <= Ring.overruns r ->
  Ring.submissions r + Z.of_nat (length ops) < 2 ^ 64 ->
  Ring.overruns r + Z.of_nat (length ops) < 2 ^ 64 ->
  let outs := (ring_run r ops).1 in
  let r' := (ring_run r ops).2 in
  Ring.head r' = Ring.submissions r' mod 256
  /\ Ring.tail r' = Ring.completions r' mod 256
  /\ Ring.count r' = Ring.submissions r' - Ring.completions r'
  /\ Ring.submissions r' = Ring.submissions r + tally is_accepted_submit outs
  /\ Ring.completions r' = Ring.completions r + tally is_completion outs
  /\ Ring.overruns r' = Ring.overruns r + tally is_rejected_submit outs.
Proof.
  induction ops as [| o ops IH]; intros r q Hinv Hh Ht Hc Hc0 Ho0 Hs Ho.
  - cbn. repeat split; lia.
  - cbn [length] in Hs, Ho. cbn zeta. cbn [ring_run].
    pose proof (ring_step_accounting r q o Hinv Hh Ht Hc Hc0 Ho0 ltac:(lia) ltac:(lia))
      as Hstep.
    pose proof (ring_step_inv r q o Hinv) as Hinv'.
    pose proof (tally_one_range is_accepted_submit (ring_step r o).1).
    pose proof (tally_one_range is_completion (ring_step r o).1).
    pose proof (tally_one_range is_rejected_submit (ring_step r o).1).
    destruct (ring_step r o) as [out r1]. cbn [fst snd] in *. cbn zeta in Hstep.
    destruct Hstep as (Hh1 & Ht1 & Hc1 & Hs1 & Hcm1 & Ho1).
    specialize (IH r1 _ Hinv' Hh1 Ht1 Hc1 ltac:(lia) ltac:(lia) ltac:(lia) ltac:(lia)).
    cbn zeta in IH.
    destruct (ring_run r1 ops) as [outs r2]. cbn [fst snd] in *.
    rewrite (tally_cons is_accepted_submit), (tally_cons is_completion),
      (tally_cons is_rejected_submit).
    destruct IH as (? & ? & ? & ? & ? & ?). repeat split; lia.
Qed.

(** X12: after any sequence of fewer than 2^64 operations on an
    initialised ring, [submissions], [completions] and [overruns] hold
    the numbers of accepted submissions, of successful completions and
    of rejected submissions; the live count is [submissions -
    completions], the head index is [submissions mod 256], the tail
    index is [completions mod 256], and [pcie_sim_ring_count] and
    [pcie_sim_ring_space] add up to the ring size. *)
Theorem ring_counters_account (ops : list ring_op) :
  Z.of_nat (length ops) < 2 ^ 64 ->
  let outs := (ring_run fresh_ring ops).1 in
  let r := (ring_run fresh_ring ops).2 in
  Ring.submissions r = tally is_accepted_submit outs
  /\ Ring.completions r = tally is_completion outs
  /\ Ring.overruns r = tally is_rejected_submit outs
  /\ Ring.count r = Ring.submissions r - Ring.completions r
  /\ Ring.head r = Ring.submissions r mod 256
  /\ Ring.tail r = Ring.completions r mod 256
  /\ Ring.pcie_sim_ring_count r + Ring.pcie_sim_ring_space r = Ring.RING_SIZE.
Proof.
  intros Hlen. cbn zeta.
  pose proof (ring_run_accounting ops fresh_ring [] fresh_ring_inv
                eq_refl eq_refl eq_refl ltac:(cbn; lia) ltac:(cbn; lia)
                ltac:(cbn; lia) ltac:(cbn; lia)) as H.
  cbn zeta in H. destruct H as (Hh & Ht & Hc & Hs & Hcm & Ho).
  pose proof (ring_run_inv ops fresh_ring [] fresh_ring_inv)
    as (Hsz & _ & _ & Hcq & Hle & _).
  change (Ring.submissions fresh_ring) with 0 in Hs.
  change (Ring.completions fresh_ring) with 0 in Hcm.
  change (Ring.overruns fresh_ring) with 0 in Ho.
  repeat split; try lia; try assumption.
  unfold Ring.pcie_sim_ring_count, Ring.pcie_sim_ring_space, Ring.RING_SIZE in *.
  rewrite Hsz, !wrap32_small by lia. lia.
Qed.

Lemma ring_counters_account_witness :
  Ring.submissions
    (ring_run fresh_ring
       (replicate 257 (Submit 4096 64 0 7) ++ [Complete true true 1 9])).2 = 256
  /\ Ring.overruns
       (ring_run fresh_ring
          (replicate 257 (Submit 4096 64 0 7) ++ [Complete true true 1 9])).2 = 1
  /\ Ring.count
       (ring_run fresh_ring
          (replicate 257 (Submit 4096 64 0 7) ++ [Complete true true 1 9])).2 = 255.
Proof.
  pose proof (ring_counters_account
                (replicate 257 (Submit 4096 64 0 7) ++ [Complete true true 1 9])
                eq_refl) as H.
  cbn zeta in H. destruct H as (Hs & Hc & Ho & Hn & _).
  rewrite Hn, Hs, Hc, Ho. vm_compute. repeat split.
Defined.

(** ** The descriptors that wait in the ring *)

Lemma fresh_ring_pending : live_pending fresh_ring /\ reserved_clear fresh_ring.
Proof.
  split.
  - intros i Hi. cbn in Hi. lia.
  - unfold reserved_clear, fresh_ring. cbn [Ring.init_ring snd Ring.descriptors].
    apply Forall_replicate. reflexivity.
Qed.

Lemma ring_step_pending r q o :
  ring_inv r q -> live_pending r -> reserved_clear r ->
  live_pending (ring_step r o).2 /\ reserved_clear (ring_step r o).2.
Proof.
  intros Hinv Hp Hr.
  pose proof Hinv as (Hs & Hlen & Ht & Hc & Hle & Hh & _).
  unfold Ring.RING_SIZE in *.
  assert (Hc0 : 0 <= Ring.count r) by lia.
  assert (Hh0 : 0 <= Ring.head r < 256) by (rewrite Hh; apply Z.mod_pos_bound; lia).
  destruct o as [a l f now | lp tp st now]; cbn [ring_step].
  - destruct (Z.eq_dec (Ring.count r) 256) as [Hfull | Hfree].
    + rewrite (ring_submit_full r q) by assumption. cbn [snd]. split.
      * intros i Hi. exact (Hp i Hi).
      * exact Hr.
    + unfold Ring.pcie_sim_ring_submit.
      rewrite Hs, (wrap32_small (Ring.count r)) by lia.
      replace (Ring.count r >=? 256) with false by lia. cbn [snd]. split.
      * intros i. unfold live_desc.
        cbn [Ring.size Ring.descriptors Ring.tail Ring.count].
        rewrite int32_small by lia. intros Hi.
        destruct (Z.eq_dec i (Ring.count r)) as [-> | Hne].
        -- rewrite <- Hh.
           destruct (lookup_lt_is_Some_2 (Ring.descriptors r) (Z.to_nat (Ring.head r)))
             as [d Hd]; [lia |].
           rewrite list_lookup_alter_eq, Hd. cbn. eexists. split; reflexivity.
        -- destruct (Hp i ltac:(lia)) as (d & Hd & Hst). unfold live_desc in Hd.
           rewrite Hs in Hd.
           exists d. split; [| exact Hst].
           rewrite list_lookup_alter_ne; [exact Hd |].
           rewrite Hh. intros Heq. apply Z2Nat.inj in Heq;
             try (apply Z.mod_pos_bound; lia).
           assert (Hi' : 0 <= i < Ring.count r) by lia.
           revert Heq. generalize (Ring.tail r) (Ring.count r) Ht Hle Hi' Hfree.
           clear. intros t c. intros.
           Z.to_euclidean_division_equations. lia.
      * unfold reserved_clear. cbn [Ring.descriptors].
        apply Forall_alter; [exact Hr |]. intros d _ Hd. exact Hd.
  - unfold Ring.pcie_sim_ring_complete.
    destruct (Z.eqb_spec (Ring.count r) 0) as [Hz | Hnz]; cbn [snd].
    + split; assumption.
    + split.
      * intros i. unfold live_desc.
        cbn [Ring.size Ring.descriptors Ring.tail Ring.count].
        rewrite Hs, int32_small, (wrap32_small (Ring.tail r + 1)) by lia.
        intros Hi.
        destruct (Hp (i + 1) ltac:(lia)) as (d & Hd & Hst). unfold live_desc in Hd.
        rewrite Hs in Hd.
        replace (((Ring.tail r + 1) mod 256 + i) mod 256)
          with ((Ring.tail r + (i + 1)) mod 256).
        2: { generalize (Ring.tail r). intros t.
             Z.to_euclidean_division_equations. lia. }
        exists d. split; [| exact Hst].
        rewrite list_lookup_alter_ne; [exact Hd |].
        intros Heq.
        assert (Hm : 0 <= (Ring.tail r + (i + 1)) mod 256 < 256)
          by (apply Z.mod_pos_bound; lia).
        apply Z2Nat.inj in Heq; try lia.
        revert Heq. generalize (Ring.tail r) (Ring.count r) Ht Hle Hi.
        clear. intros t c. intros.
        Z.to_euclidean_division_equations. lia.
      * unfold reserved_clear. cbn [Ring.descriptors].
        apply Forall_alter; [exact Hr |]. intros d _ Hd. exact Hd.
Qed.

Lemma ring_run_pending ops : forall r q,
  ring_inv r q -> live_pending r -> reserved_clear r ->
  live_pending (ring_run r ops).2 /\ reserved_clear (ring_run r ops).2.
Proof.
  induction ops as [| o ops IH]; intros r q Hinv Hp Hr; cbn [ring_run].
  - split; assumption.
  - pose proof (ring_step_inv r q o Hinv) as Hinv'.
    pose proof (ring_step_pending r q o Hinv Hp Hr) as [Hp' Hr'].
    destruct (ring_step r o) as [out r']. cbn [snd] in *.
    specialize (IH r' _ Hinv' Hp' Hr').
    destruct (ring_run r' ops). exact IH.
Qed.

(** X13: in every state that an initialised ring reaches, each of the
    [count] descriptors from the tail on is marked pending (status 0):
    the status that a completion writes never shows on a descriptor that
    still waits; and no operation writes the [reserved] word, which
    stays 0 in all 256 descriptors. *)
Theorem waiting_descriptors_are_pending (ops : list ring_op) :
  let r := (ring_run fresh_ring ops).2 in
  (forall i, 0 <= i < Ring.pcie_sim_ring_count r ->
     exists d, live_desc r i = Some d /\ Ring.status d = 0)
  /\ length (Ring.descriptors r) = 256%nat
  /\ Forall (fun d => Ring.reserved d = 0) (Ring.descriptors r).
Proof.
  cbn zeta.
  destruct fresh_ring_pending as [Hp Hr].
  destruct (ring_run_pending ops fresh_ring [] fresh_ring_inv Hp Hr) as [Hp' Hr'].
  pose proof (ring_run_inv ops fresh_ring [] fresh_ring_inv)
    as (Hsz & Hlen & _ & Hcq & Hle & _).
  unfold Ring.RING_SIZE in *.
  split; [| split].
  - intros i Hi. unfold Ring.pcie_sim_ring_count in Hi.
    rewrite wrap32_small in Hi by lia. exact (Hp' i Hi).
  - rewrite Hlen. reflexivity.
  - exact Hr'.
Qed.

(** ** Setting up and tearing down the two rings *)

Lemma cleanup_ring_frees ring : Ring.descriptors (cleanup_ring ring) = [].
Proof. unfold cleanup_ring. destruct (Ring.descriptors ring) eqn:E; [exact E | reflexivity]. Qed.

Lemma cleanup_ring_idempotent ring :
  cleanup_ring (cleanup_ring ring) = cleanup_ring ring.
Proof.
  unfold cleanup_ring at 1. rewrite cleanup_ring_frees. reflexivity.
Qed.

(** X14: [pcie_sim_ring_init] returns 0 exactly when both allocations
    succeed, and then both rings are freshly initialised rings; when
    either allocation fails it returns [-ENOMEM] with no descriptor
    array left allocated in the TX ring, nor in the RX ring once its
    allocation was tried or when it had none before (the TX array is
    freed again when the RX allocation fails).  The statistics of the
    device are not touched, and [pcie_sim_ring_cleanup] afterwards
    leaves both rings without descriptors and can be repeated. *)
Theorem ring_init_all_or_nothing (dev : Dma.pcie_sim_device)
    (tx_alloc_ok rx_alloc_ok : bool) :
  let ret := (pcie_sim_ring_init dev tx_alloc_ok rx_alloc_ok).1 in
  let dev' := (pcie_sim_ring_init dev tx_alloc_ok rx_alloc_ok).2 in
  (ret = 0 <-> tx_alloc_ok && rx_alloc_ok = true)
  /\ (ret = 0 \/ ret = - ENOMEM)
  /\ (ret = 0 -> Dma.tx_ring dev' = fresh_ring /\ Dma.rx_ring dev' = fresh_ring)
  /\ (ret <> 0 ->
      Ring.descriptors (Dma.tx_ring dev') = []
      /\ (tx_alloc_ok = true \/ Ring.descriptors (Dma.rx_ring dev) = [] ->
          Ring.descriptors (Dma.rx_ring dev') = [])
      /\ (tx_alloc_ok = false -> Dma.rx_ring dev' = Dma.rx_ring dev))
  /\ Dma.stats dev' = Dma.stats dev
  /\ Ring.descriptors (Dma.tx_ring (pcie_sim_ring_cleanup dev')) = []
  /\ Ring.descriptors (Dma.rx_ring (pcie_sim_ring_cleanup dev')) = []
  /\ pcie_sim_ring_cleanup (pcie_sim_ring_cleanup dev') = pcie_sim_ring_cleanup dev'.
Proof.
  cbn zeta.
  assert (Hclean : forall d,
    Ring.descriptors (Dma.tx_ring (pcie_sim_ring_cleanup d)) = []
    /\ Ring.descriptors (Dma.rx_ring (pcie_sim_ring_cleanup d)) = []
    /\ pcie_sim_ring_cleanup (pcie_sim_ring_cleanup d) = pcie_sim_ring_cleanup d).
  { intros d. unfold pcie_sim_ring_cleanup, set_rings. cbn.
    rewrite !cleanup_ring_frees, !cleanup_ring_idempotent. repeat split. }
  unfold pcie_sim_ring_init, Ring.init_ring.
  destruct tx_alloc_ok, rx_alloc_ok; cbn [negb fst snd andb];
    change (0 =? 0) with true; change (- ENOMEM =? 0) with false;
    cbn [negb fst snd];
    (split; [split; intros H; try reflexivity; try discriminate H |]);
    (split; [first [left; reflexivity | right; reflexivity] |]);
    (split; [intros H; try discriminate H; split; reflexivity |]);
    (split; [| split; [reflexivity | apply Hclean]]);
    intros H; try (exfalso; apply H; reflexivity);
    (split; [reflexivity |]);
    (split; [intros [E | E]; try discriminate E; first [reflexivity | exact E]
            | intros E; try discriminate E; reflexivity]).
Qed.

(** * The character device *)

Lemma ioctl_commands_have_magic :
  CharDev._IOC_TYPE CharDev.PCIE_SIM_IOC_TRANSFER = CharDev.PCIE_SIM_IOC_MAGIC
  /\ CharDev._IOC_TYPE CharDev.PCIE_SIM_IOC_GET_STATS = CharDev.PCIE_SIM_IOC_MAGIC
  /\ CharDev._IOC_TYPE CharDev.PCIE_SIM_IOC_RESET_STATS = CharDev.PCIE_SIM_IOC_MAGIC
  /\ CharDev._IOC_TYPE CharDev.PCIE_SIM_IOC_SET_ERROR = CharDev.PCIE_SIM_IOC_MAGIC.
Proof. vm_compute. repeat split. Qed.

Lemma dma_transfer_cases dev req alloc_ok t0 t1 :
  let r := Dma.pcie_sim_dma_transfer dev req alloc_ok t0 t1 in
  (Dma.r_ret r = 0
   /\ Dma.stats (Dma.r_dev r)
      = Dma.stats (Dma.update_transfer_stats dev req (wrap64 (t1 - t0)) true)
   /\ Dma.latency_ns (Dma.r_req r) = wrap64 (t1 - t0)
   /\ Dma.size (Dma.r_req r) = Dma.size req
   /\ Dma.direction (Dma.r_req r) = Dma.direction req)
  \/ ((Dma.r_ret r = - EINVAL \/ Dma.r_ret r = - ENOMEM \/ Dma.r_ret r = - EFAULT)
      /\ Dma.stats (Dma.r_dev r) = count_error (Dma.stats dev)
      /\ Dma.latency_ns (Dma.r_req r) = Dma.latency_ns req).
Proof.
  cbn zeta. unfold Dma.pcie_sim_dma_transfer.
  destruct (kernel_validate_codes req) as [E | E]; rewrite E; cbn [Z.eqb negb Z.opp EINVAL].
  2: { right. cbn. repeat split. left. reflexivity. }
  destruct alloc_ok; cbn [negb].
  2: { right. cbn. repeat split. right. left. reflexivity. }
  destruct (Dma.direction req =? 0).
  - destruct (Dma.copy_from_user _ _).
    + left. cbn. repeat split.
    + right. cbn. repeat split. right. right. reflexivity.
  - destruct (Dma.copy_to_user _ _ _) as [ok user']. destruct ok.
    + left. cbn. repeat split.
    + right. cbn. repeat split. right. right. reflexivity.
Qed.

(** X15: [pcie_sim_char_ioctl] on an open file returns [-EINVAL] for
    every command whose type byte is not 'P', [-ERESTARTSYS] when the
    wait for the device mutex is interrupted, and [-ENOTTY] for every
    command of type 'P' other than the three it handles, among them
    [PCIE_SIM_IOC_SET_ERROR], which common.h declares; in all these
    cases the device and the user memory are left as they were.  Its
    return value is always 0 or one of [-EINVAL], [-ERESTARTSYS],
    [-EFAULT], [-ENOMEM], [-ENOTTY]. *)
Theorem ioctl_rejects_without_effect (dev : Dma.pcie_sim_device) (cmd : Z)
    (arg : CharDev.user_arg) (lock_interrupted alloc_ok : bool) (t0 t1 : Z) :
  let r := CharDev.pcie_sim_char_ioctl (Some dev) cmd arg lock_interrupted
             alloc_ok t0 t1 in
  let untouched :=
    CharDev.i_dev r = Some dev /\ CharDev.i_user r = CharDev.Untouched
    /\ CharDev.i_buffer r = None in
  (CharDev._IOC_TYPE cmd <> CharDev.PCIE_SIM_IOC_MAGIC ->
   CharDev.i_ret r = - EINVAL /\ untouched)
  /\ (CharDev._IOC_TYPE cmd = CharDev.PCIE_SIM_IOC_MAGIC ->
      lock_interrupted = true ->
      CharDev.i_ret r = - CharDev.ERESTARTSYS /\ untouched)
  /\ (CharDev._IOC_TYPE cmd = CharDev.PCIE_SIM_IOC_MAGIC ->
      lock_interrupted = false ->
      cmd <> CharDev.PCIE_SIM_IOC_TRANSFER ->
      cmd <> CharDev.PCIE_SIM_IOC_GET_STATS ->
      cmd <> CharDev.PCIE_SIM_IOC_RESET_STATS ->
      CharDev.i_ret r = - CharDev.ENOTTY /\ untouched)
  /\ (cmd = CharDev.PCIE_SIM_IOC_SET_ERROR ->
      lock_interrupted = false ->
      CharDev.i_ret r = - CharDev.ENOTTY /\ untouched)
  /\ (CharDev.i_ret r = 0 \/ CharDev.i_ret r = - EINVAL
      \/ CharDev.i_ret r = - CharDev.ERESTARTSYS \/ CharDev.i_ret r = - EFAULT
      \/ CharDev.i_ret r = - ENOMEM \/ CharDev.i_ret r = - CharDev.ENOTTY).
Proof.
  cbn zeta. unfold CharDev.pcie_sim_char_ioctl.
  split; [| split; [| split; [| split]]].
  - intros Hm. apply Z.eqb_neq in Hm. rewrite Hm. cbn. repeat split.
  - intros Hm ->. apply Z.eqb_eq in Hm. rewrite Hm. cbn. repeat split.
  - intros Hm -> H1 H2 H3. apply Z.eqb_eq in Hm. rewrite Hm.
    apply Z.eqb_neq in H1, H2, H3. rewrite H1, H2, H3. cbn. repeat split.
  - intros -> ->. vm_compute. repeat split.
  - destruct (CharDev._IOC_TYPE cmd =? CharDev.PCIE_SIM_IOC_MAGIC); cbn [negb].
    2: { right. left. reflexivity. }
    destruct lock_interrupted; [right; right; left; reflexivity |].
    destruct (cmd =? CharDev.PCIE_SIM_IOC_TRANSFER).
    { destruct (CharDev.arg_req arg) as [req |];
        [| right; right; right; left; reflexivity].
      pose proof (dma_transfer_cases dev req alloc_ok t0 t1) as Hc. cbn zeta in Hc.
      destruct (Z.eqb_spec (Dma.r_ret (Dma.pcie_sim_dma_transfer dev req alloc_ok t0 t1)) 0)
        as [E | E].
      - destruct (CharDev.arg_writable arg); cbn;
          [left; reflexivity | right; right; right; left; reflexivity].
      - cbn [CharDev.i_ret]. destruct Hc as [[Hc _] | [Hc _]]; [contradiction |].
        tauto. }
    destruct (cmd =? CharDev.PCIE_SIM_IOC_GET_STATS).
    { destruct (CharDev.arg_writable arg); cbn;
        [left; reflexivity | right; right; right; left; reflexivity]. }
    destruct (cmd =? CharDev.PCIE_SIM_IOC_RESET_STATS); cbn;
      [left; reflexivity | repeat right; reflexivity].
Qed.

(** X16: the transfer command of the character device.  When the
    request cannot be read from user memory the call returns [-EFAULT]
    and the device is untouched: this failure is not counted in
    [total_errors].  Otherwise the DMA path runs: when it fails its code
    is returned, one error is counted and nothing is written back to
    the user's request; when it succeeds the request is written back
    with the measured latency, and if that last copy faults the call
    returns [-EFAULT] although the transfer stays counted in
    [total_transfers] and no error is counted. *)
Theorem ioctl_transfer_outcome (dev : Dma.pcie_sim_device)
    (arg : CharDev.user_arg) (alloc_ok : bool) (t0 t1 : Z) :
  let r := CharDev.pcie_sim_char_ioctl (Some dev) CharDev.PCIE_SIM_IOC_TRANSFER
             arg false alloc_ok t0 t1 in
  match CharDev.arg_req arg with
  | None =>
      CharDev.i_ret r = - EFAULT /\ CharDev.i_dev r = Some dev
      /\ CharDev.i_user r = CharDev.Untouched
  | Some req =>
      exists dev',
        CharDev.i_dev r = Some dev'
        /\ ((CharDev.i_ret r = 0 /\ CharDev.arg_writable arg = true
             /\ (exists req',
                   CharDev.i_user r = CharDev.StoredReq req'
                   /\ Dma.latency_ns req' = wrap64 (t1 - t0)
                   /\ Dma.size req' = Dma.size req
                   /\ Dma.direction req' = Dma.direction req)
             /\ total_transfers (Dma.stats dev')
                = wrap64 (total_transfers (Dma.stats dev) + 1)
             /\ total_errors (Dma.stats dev') = total_errors (Dma.stats dev))
            \/ (CharDev.i_ret r = - EFAULT /\ CharDev.arg_writable arg = false
                /\ CharDev.i_user r = CharDev.Faulted
                /\ total_transfers (Dma.stats dev')
                   = wrap64 (total_transfers (Dma.stats dev) + 1)
                /\ total_errors (Dma.stats dev') = total_errors (Dma.stats dev))
            \/ ((CharDev.i_ret r = - EINVAL \/ CharDev.i_ret r = - ENOMEM
                 \/ CharDev.i_ret r = - EFAULT)
                /\ CharDev.i_user r = CharDev.Untouched
                /\ Dma.stats dev' = count_error (Dma.stats dev)))
  end.
Proof.
  cbn zeta. unfold CharDev.pcie_sim_char_ioctl.
  destruct ioctl_commands_have_magic as (Hm & _).
  apply Z.eqb_eq in Hm. rewrite Hm, Z.eqb_refl. cbn [negb].
  destruct (CharDev.arg_req arg) as [req |]; [| cbn; repeat split].
  pose proof (dma_transfer_cases dev req alloc_ok t0 t1) as Hc. cbn zeta in Hc.
  set (r := Dma.pcie_sim_dma_transfer dev req alloc_ok t0 t1) in *.
  exists (Dma.r_dev r).
  destruct Hc as [(Hret & Hst & Hlat & Hsz & Hdir) | (Hret & Hst & Hlat)].
  - rewrite Hret. change (0 =? 0) with true. cbn iota.
    rewrite Hst. unfold Dma.update_transfer_stats. cbn [Dma.stats Dma.set_stats
      total_transfers total_errors].
    destruct (CharDev.arg_writable arg); cbn [CharDev.i_ret CharDev.i_dev CharDev.i_user].
    + split; [reflexivity |]. left. repeat split.
      exists (Dma.r_req r). repeat split; assumption.
    + split; [reflexivity |]. right. left. repeat split.
  - assert (Hnz : (Dma.r_ret r =? 0) = false).
    { destruct Hret as [E | [E | E]]; rewrite E; reflexivity. }
    rewrite Hnz. cbn [CharDev.i_ret CharDev.i_dev CharDev.i_user].
    split; [reflexivity |]. right. right. repeat split; assumption.
Qed.

Lemma dma_success_size dev req alloc_ok t0 t1 :
  Dma.r_ret (Dma.pcie_sim_dma_transfer dev req alloc_ok t0 t1) = 0 ->
  1 <= Dma.size req <= 2 ^ 20.
Proof.
  intros H.
  destruct (dma_transfer_cases dev req alloc_ok t0 t1) as [_ | ([E | [E | E]] & _)];
    [| rewrite E in H; discriminate H ..].
  revert H. unfold Dma.pcie_sim_dma_transfer, Dma.validate_transfer_request,
    Dma.MIN_TRANSFER_SIZE, Dma.MAX_TRANSFER_SIZE.
  destruct (Dma.buffer req); [| intros H; discriminate H].
  destruct (Z.ltb_spec (Dma.size req) 1); [intros H'; discriminate H' |].
  destruct (Z.gtb_spec (Dma.size req) (1024 * 1024)); [intros H'; discriminate H' |].
  intros _. lia.
Qed.

(** X17: through the character device, a statistics query stores the
    current statistics in user memory and changes nothing; a reset
    returns 0 and leaves all six statistics zero and the rest of the
    device alone, so that a query after it stores zeroes; and the first
    transfer that succeeds after a reset leaves one transfer, its size
    in [total_bytes], no error, its latency as minimum and maximum, and
    half its latency as average. *)
Theorem ioctl_reset_then_query (dev : Dma.pcie_sim_device)
    (arg : CharDev.user_arg) (req : Dma.pcie_sim_transfer_req)
    (alloc_ok : bool) (t0 t1 : Z) :
  CharDev.arg_writable arg = true ->
  CharDev.arg_req arg = Some req ->
  let query d :=
    CharDev.pcie_sim_char_ioctl d CharDev.PCIE_SIM_IOC_GET_STATS arg false
      alloc_ok t0 t1 in
  let reset :=
    CharDev.pcie_sim_char_ioctl (Some dev) CharDev.PCIE_SIM_IOC_RESET_STATS arg
      false alloc_ok t0 t1 in
  let xfer :=
    CharDev.pcie_sim_char_ioctl (CharDev.i_dev reset)
      CharDev.PCIE_SIM_IOC_TRANSFER arg false alloc_ok t0 t1 in
  (CharDev.i_ret (query (Some dev)) = 0
   /\ CharDev.i_user (query (Some dev)) = CharDev.StoredStats (Dma.stats dev)
   /\ CharDev.i_dev (query (Some dev)) = Some dev)
  /\ (CharDev.i_ret reset = 0
      /\ CharDev.i_dev reset = Some (Dma.set_stats dev zero_stats)
      /\ CharDev.i_user (query (CharDev.i_dev reset))
         = CharDev.StoredStats zero_stats)
  /\ (CharDev.i_ret xfer = 0 ->
      CharDev.i_user (query (CharDev.i_dev xfer))
      = CharDev.StoredStats
          (mk_stats 1 (Dma.size req) 0 (wrap64 (t1 - t0) / 2)
                    (wrap64 (t1 - t0)) (wrap64 (t1 - t0)))).
Proof.
  intros Hw Hreq. cbn zeta.
  destruct ioctl_commands_have_magic as (Hm1 & Hm2 & Hm3 & _).
  apply Z.eqb_eq in Hm1, Hm2, Hm3.
  unfold CharDev.pcie_sim_char_ioctl.
  rewrite Hm1, Hm2, Hm3, Hw, Hreq. cbn [negb].
  change (CharDev.PCIE_SIM_IOC_GET_STATS =? CharDev.PCIE_SIM_IOC_TRANSFER) with false.
  change (CharDev.PCIE_SIM_IOC_RESET_STATS =? CharDev.PCIE_SIM_IOC_TRANSFER) with false.
  change (CharDev.PCIE_SIM_IOC_RESET_STATS =? CharDev.PCIE_SIM_IOC_GET_STATS) with false.
  rewrite !Z.eqb_refl. cbn [CharDev.i_ret CharDev.i_dev CharDev.i_user].
  split; [repeat split |]. split; [repeat split |].
  set (dev0 := Dma.set_stats dev zero_stats).
  pose proof (dma_transfer_cases dev0 req alloc_ok t0 t1) as Hc. cbn zeta in Hc.
  pose proof (dma_success_size dev0 req alloc_ok t0 t1) as Hsz.
  set (r := Dma.pcie_sim_dma_transfer dev0 req alloc_ok t0 t1) in *.
  destruct Hc as [(Hret & Hst & _) | (Hret & _)].
  - rewrite Hret. change (0 =? 0) with true. cbn iota.
    cbn [CharDev.i_ret CharDev.i_dev CharDev.i_user]. intros _.
    specialize (Hsz Hret). rewrite Hst.
    pose proof (wrap64_range (t1 - t0)) as Hl.
    unfold Dma.update_transfer_stats, dev0. cbn -[Z.pow wrap64].
    rewrite !Z.add_0_l.
    rewrite (wrap64_small (Dma.size req)) by lia.
    rewrite (wrap64_small (wrap64 (t1 - t0))) by lia.
    change (wrap64 1) with 1.
    destruct (Z.gtb_spec (wrap64 (t1 - t0)) 0) as [Hp | Hz].
    + reflexivity.
    + replace (wrap64 (t1 - t0)) with 0 by lia. reflexivity.
  - assert (Hnz : (Dma.r_ret r =? 0) = false).
    { destruct Hret as [E | [E | E]]; rewrite E; reflexivity. }
    rewrite Hnz. cbn [CharDev.i_ret]. intros H. rewrite H in Hnz. discriminate Hnz.
Qed.

Lemma ioctl_reset_then_query_witness :
  CharDev.i_user
    (CharDev.pcie_sim_char_ioctl
       (CharDev.i_dev
          (CharDev.pcie_sim_char_ioctl
             (CharDev.i_dev
                (CharDev.pcie_sim_char_ioctl (Some (pcie_sim_probe 0))
                   CharDev.PCIE_SIM_IOC_RESET_STATS
                   (CharDev.mk_arg (Some (kernel_request sample_1)) true)
                   false true 1000 1100))
             CharDev.PCIE_SIM_IOC_TRANSFER
             (CharDev.mk_arg (Some (kernel_request sample_1)) true)
             false true 1000 1100))
       CharDev.PCIE_SIM_IOC_GET_STATS
       (CharDev.mk_arg (Some (kernel_request sample_1)) true)
       false true 1000 1100)
  = CharDev.StoredStats (mk_stats 1 4096 0 50 100 100).
Proof.
  pose proof (ioctl_reset_then_query (pcie_sim_probe 0)
                (CharDev.mk_arg (Some (kernel_request sample_1)) true)
                (kernel_request sample_1) true 1000 1100 eq_refl eq_refl) as H.
  cbn zeta in H. destruct H as (_ & _ & H).
  assert (Hret : CharDev.i_ret
            (CharDev.pcie_sim_char_ioctl
               (CharDev.i_dev
                  (CharDev.pcie_sim_char_ioctl (Some (pcie_sim_probe 0))
                     CharDev.PCIE_SIM_IOC_RESET_STATS
                     (CharDev.mk_arg (Some (kernel_request sample_1)) true)
                     false true 1000 1100))
               CharDev.PCIE_SIM_IOC_TRANSFER
               (CharDev.mk_arg (Some (kernel_request sample_1)) true)
               false true 1000 1100) = 0)
    by (vm_compute; reflexivity).
  rewrite (H Hret). vm_compute. reflexivity.
Defined.

(** * The register window *)

Lemma le32_round_trip v :
  0 <= v < 2 ^ 32 ->
  v mod 256 + 256 * ((v / 256) mod 256) + 65536 * ((v / 65536) mod 256)
  + 16777216 * ((v / 16777216) mod 256) = v.
Proof.
  intros H. change (2 ^ 32) with 4294967296 in H.
  Z.to_euclidean_division_equations. lia.
Qed.

Lemma in_bar_spec mem a :
  Mmio.in_bar mem a = true <-> 0 <= a /\ a + 4 <= Z.of_nat (length mem).
Proof. unfold Mmio.in_bar. rewrite andb_true_iff, Z.leb_le, Z.leb_le. tauto. Qed.

Lemma writel_length v mem a mem' :
  Mmio.writel v mem a = Some mem' -> length mem' = length mem.
Proof.
  unfold Mmio.writel. destruct (Mmio.in_bar mem a); [| discriminate].
  intros [= <-]. rewrite !length_insert. reflexivity.
Qed.

Lemma writel_defined v mem a :
  Mmio.in_bar mem a = true -> exists mem', Mmio.writel v mem a = Some mem'.
Proof. intros H. unfold Mmio.writel. rewrite H. eexists. reflexivity. Qed.

Lemma writel_in_bar v mem a mem' a' :
  Mmio.writel v mem a = Some mem' -> Mmio.in_bar mem' a' = Mmio.in_bar mem a'.
Proof.
  intros H. unfold Mmio.in_bar. rewrite (writel_length _ _ _ _ H). reflexivity.
Qed.

Lemma byte_at_insert_eq mem i x :
  (i < length mem)%nat -> Mmio.byte_at (<[i := x]> mem) i = x.
Proof.
  intros H. unfold Mmio.byte_at. rewrite list_lookup_insert_eq by exact H.
  reflexivity.
Qed.

Lemma byte_at_insert_ne mem i j x :
  i <> j -> Mmio.byte_at (<[i := x]> mem) j = Mmio.byte_at mem j.
Proof.
  intros H. unfold Mmio.byte_at. rewrite list_lookup_insert_ne by exact H.
  reflexivity.
Qed.

Lemma readl_writel_same v mem a mem' :
  Mmio.writel v mem a = Some mem' -> 0 <= v < 2 ^ 32 ->
  Mmio.readl mem' a = Some v.
Proof.
  intros Hw Hv. unfold Mmio.readl. rewrite (writel_in_bar _ _ _ _ _ Hw).
  revert Hw. unfold Mmio.writel.
  destruct (Mmio.in_bar mem a) eqn:Hin; [| discriminate].
  apply in_bar_spec in Hin. intros [= <-]. cbn zeta. f_equal.
  rewrite (byte_at_insert_ne _ (_ + 3)), (byte_at_insert_ne _ (_ + 2)),
    (byte_at_insert_ne _ (_ + 1)), byte_at_insert_eq by lia.
  rewrite (byte_at_insert_ne _ (_ + 3)), (byte_at_insert_ne _ (_ + 2)),
    byte_at_insert_eq by (rewrite ?length_insert; lia).
  rewrite (byte_at_insert_ne _ (_ + 3)), byte_at_insert_eq
    by (rewrite ?length_insert; lia).
  rewrite byte_at_insert_eq by (rewrite ?length_insert; lia).
  apply le32_round_trip. exact Hv.
Qed.

Lemma readl_writel_other v mem a mem' a' :
  Mmio.writel v mem a = Some mem' -> 0 <= a' ->
  a' + 4 <= a \/ a + 4 <= a' ->
  Mmio.readl mem' a' = Mmio.readl mem a'.
Proof.
  intros Hw Ha' Hd. unfold Mmio.readl. rewrite (writel_in_bar _ _ _ _ _ Hw).
  revert Hw. unfold Mmio.writel.
  destruct (Mmio.in_bar mem a) eqn:Hin; [| discriminate].
  apply in_bar_spec in Hin. intros [= <-].
  destruct (Mmio.in_bar mem a'); [| reflexivity]. cbn zeta.
  rewrite !byte_at_insert_ne by lia. reflexivity.
Qed.

Lemma mmio_mapped_inv d :
  mmio_mapped d = true ->
  exists mem, Mmio.bar0_virt d = Some mem
              /\ Z.of_nat (length mem) = 4096 /\ Mmio.bar0_size d = 4096.
Proof.
  unfold mmio_mapped, Mmio.BAR0_SIZE. destruct (Mmio.bar0_virt d) as [mem |];
    [| discriminate].
  rewrite andb_true_iff, !Z.eqb_eq. intros [H1 H2]. exists mem. auto.
Qed.

Lemma mmio_mapped_intro dv mem sz :
  Z.of_nat (length mem) = 4096 -> sz = 4096 ->
  mmio_mapped (Mmio.mk_mmio dv (Some mem) sz) = true.
Proof.
  intros H1 ->. unfold mmio_mapped, Mmio.BAR0_SIZE. cbn.
  rewrite H1. reflexivity.
Qed.

Lemma testbit_wrap32 x i : i < 32 -> Z.testbit (wrap32 x) i = Z.testbit x i.
Proof. intros H. unfold wrap32. apply Z.mod_pow2_bits_low. exact H. Qed.

Lemma land_bit v n :
  0 <= n -> (Z.land v (Mmio.BIT n) =? 0) = negb (Z.testbit v n).
Proof.
  intros Hn. unfold Mmio.BIT. rewrite Z.shiftl_1_l.
  destruct (Z.testbit v n) eqn:Hb; cbn [negb].
  - apply Z.eqb_neq. intros H.
    assert (Hc : Z.testbit (Z.land v (2 ^ n)) n = true)
      by (rewrite Z.land_spec, Hb, Z.pow2_bits_true by exact Hn; reflexivity).
    rewrite H, Z.bits_0 in Hc. discriminate Hc.
  - apply Z.eqb_eq. apply Z.bits_inj'. intros i Hi.
    rewrite Z.land_spec, Z.bits_0, Z.pow2_bits_eqb by exact Hn.
    destruct (Z.eqb_spec n i) as [-> | _]; [rewrite Hb |];
      [reflexivity | apply andb_false_r].
Qed.

Lemma testbit_clear v n i :
  0 <= n -> 0 <= i ->
  Z.testbit (Z.land v (Z.lnot (Mmio.BIT n))) i
  = Z.testbit v i && negb (i =? n).
Proof.
  intros Hn Hi. unfold Mmio.BIT.
  rewrite Z.shiftl_1_l, Z.land_spec, Z.lnot_spec, Z.pow2_bits_eqb by assumption.
  rewrite (Z.eqb_sym n i). reflexivity.
Qed.

Lemma testbit_set v n i :
  0 <= n ->
  Z.testbit (Z.lor v (Mmio.BIT n)) i = Z.testbit v i || (i =? n).
Proof.
  intros Hn. unfold Mmio.BIT.
  rewrite Z.shiftl_1_l, Z.lor_spec, Z.pow2_bits_eqb by assumption.
  rewrite (Z.eqb_sym n i). reflexivity.
Qed.

Lemma mmio_read32_plain d mem offset :
  Mmio.bar0_virt d = Some mem -> offset < Mmio.bar0_size d ->
  offset <> Mmio.REG_STATUS -> offset <> Mmio.REG_PERF_LATENCY ->
  offset <> Mmio.REG_PERF_COUNT ->
  Mmio.pcie_sim_mmio_read32 d offset = Mmio.readl mem offset.
Proof.
  intros Hm Hlt H1 H2 H3. unfold Mmio.pcie_sim_mmio_read32. rewrite Hm.
  replace (offset >=? Mmio.bar0_size d) with false by lia.
  apply Z.eqb_neq in H1, H2, H3.
  destruct (Mmio.readl mem offset) as [v |]; [| reflexivity].
  cbn [mbind option_bind]. rewrite H1, H2, H3. reflexivity.
Qed.

(** reads depend on the bytes of BAR0, on its size and on three fields
    of the device only *)
Lemma mmio_read32_ext d d' o :
  Mmio.bar0_size d' = Mmio.bar0_size d ->
  Dma.stats (Mmio.dev d') = Dma.stats (Mmio.dev d) ->
  Dma.dma_active (Mmio.dev d') = Dma.dma_active (Mmio.dev d) ->
  Dma.pending_interrupts (Mmio.dev d') = Dma.pending_interrupts (Mmio.dev d) ->
  (exists mem mem', Mmio.bar0_virt d = Some mem /\ Mmio.bar0_virt d' = Some mem'
                    /\ Mmio.readl mem' o = Mmio.readl mem o) ->
  Mmio.pcie_sim_mmio_read32 d' o = Mmio.pcie_sim_mmio_read32 d o.
Proof.
  intros Hs Hst Ha Hp (mem & mem' & Hm & Hm' & Hr).
  unfold Mmio.pcie_sim_mmio_read32. rewrite Hm, Hm', Hs, Hr, Hst, Ha, Hp.
  reflexivity.
Qed.

(** X18: on a mapped BAR0, a write of a 32-bit value to a register that
    lies inside the window and is none of STATUS, CONTROL,
    INTERRUPT_STATUS, PERF_LATENCY and PERF_COUNT is read back
    unchanged; it leaves the statistics, [dma_active] and
    [pending_interrupts] of the device alone, and every read at an
    offset that does not overlap the four bytes written answers as
    before. *)
Theorem mmio_write_then_read (d : Mmio.mmio_device) (offset value : Z) :
  mmio_mapped d = true ->
  0 <= offset -> offset + 4 <= Mmio.BAR0_SIZE ->
  0 <= value < 2 ^ 32 ->
  offset <> Mmio.REG_STATUS -> offset <> Mmio.REG_CONTROL ->
  offset <> Mmio.REG_INTERRUPT_STATUS ->
  offset <> Mmio.REG_PERF_LATENCY -> offset <> Mmio.REG_PERF_COUNT ->
  exists d',
    Mmio.pcie_sim_mmio_write32 d offset value = Some d'
    /\ mmio_mapped d' = true
    /\ Mmio.pcie_sim_mmio_read32 d' offset = Some value
    /\ Dma.stats (Mmio.dev d') = Dma.stats (Mmio.dev d)
    /\ Dma.dma_active (Mmio.dev d') = Dma.dma_active (Mmio.dev d)
    /\ Dma.pending_interrupts (Mmio.dev d')
       = Dma.pending_interrupts (Mmio.dev d)
    /\ forall o, 0 <= o -> o + 4 <= offset \/ offset + 4 <= o ->
                 Mmio.pcie_sim_mmio_read32 d' o = Mmio.pcie_sim_mmio_read32 d o.
Proof.
  intros Hmap Ho0 Ho1 Hv Hn1 Hn2 Hn3 Hn4 Hn5. unfold Mmio.BAR0_SIZE in Ho1.
  destruct (mmio_mapped_inv d Hmap) as (mem & Hm & Hlen & Hsz).
  assert (Hin : Mmio.in_bar mem offset = true) by (apply in_bar_spec; lia).
  destruct (writel_defined value mem offset Hin) as (mem' & Hw).
  pose proof (writel_length _ _ _ _ Hw) as Hlen'.
  unfold Mmio.pcie_sim_mmio_write32. rewrite Hm, Hsz.
  replace (offset >=? 4096) with false by lia.
  pose proof Hn2 as Hn2'. pose proof Hn3 as Hn3'.
  apply Z.eqb_neq in Hn2', Hn3'. rewrite Hn2', Hn3', Hw. cbn [mbind option_bind].
  assert (Hgen : forall dv,
    Dma.stats dv = Dma.stats (Mmio.dev d) ->
    Dma.dma_active dv = Dma.dma_active (Mmio.dev d) ->
    Dma.pending_interrupts dv = Dma.pending_interrupts (Mmio.dev d) ->
    let d' := Mmio.mk_mmio dv (Some mem') 4096 in
    mmio_mapped d' = true
    /\ Mmio.pcie_sim_mmio_read32 d' offset = Some value
    /\ Dma.stats (Mmio.dev d') = Dma.stats (Mmio.dev d)
    /\ Dma.dma_active (Mmio.dev d') = Dma.dma_active (Mmio.dev d)
    /\ Dma.pending_interrupts (Mmio.dev d')
       = Dma.pending_interrupts (Mmio.dev d)
    /\ forall o, 0 <= o -> o + 4 <= offset \/ offset + 4 <= o ->
                 Mmio.pcie_sim_mmio_read32 d' o = Mmio.pcie_sim_mmio_read32 d o).
  { intros dv Hst Ha Hp d'. subst d'.
    split; [apply mmio_mapped_intro; [lia | reflexivity] |].
    split.
    { rewrite (mmio_read32_plain _ mem') by (cbn; (reflexivity || lia || assumption)).
      exact (readl_writel_same _ _ _ _ Hw Hv). }
    cbn [Mmio.dev]. repeat split; try assumption.
    intros o Hoo Hdis. apply mmio_read32_ext; cbn; try assumption.
    - symmetry. exact Hsz.
    - exists mem, mem'. repeat split; try assumption.
      exact (readl_writel_other _ _ _ _ _ Hw Hoo Hdis). }
  destruct (offset =? Mmio.REG_ERROR_INJECT).
  - destruct (negb (Z.land value 255 =? 0)); eexists; (split; [reflexivity |]);
      apply Hgen; reflexivity.
  - eexists. split; [reflexivity |]. apply Hgen; reflexivity.
Qed.

Lemma mmio_write_then_read_witness :
  exists d',
    Mmio.pcie_sim_mmio_write32 (mmio_blank (pcie_sim_probe 0)) 16 3735928559
    = Some d'
    /\ Mmio.pcie_sim_mmio_read32 d' 16 = Some 3735928559.
Proof.
  destruct (mmio_write_then_read (mmio_blank (pcie_sim_probe 0)) 16 3735928559
              eq_refl ltac:(lia) ltac:(unfold Mmio.BAR0_SIZE; lia) ltac:(lia)
              ltac:(discriminate) ltac:(discriminate) ltac:(discriminate)
              ltac:(discriminate) ltac:(discriminate))
    as (d' & Hw & _ & Hr & _).
  exists d'. split; [exact Hw | exact Hr].
Defined.

Lemma mmio_init_memory :
  exists mem,
    (forall d, Mmio.pcie_sim_mmio_init d true
               = Some (0, Mmio.mk_mmio (Mmio.dev d) (Some mem) Mmio.BAR0_SIZE))
    /\ Z.of_nat (length mem) = 4096
    /\ forallb (fun k => match Mmio.readl mem (4 * Z.of_nat k) with
                         | Some v => v =? mmio_reset_value (4 * Z.of_nat k)
                         | None => false
                         end) (seq 0 1024) = true.
Proof.
  eexists. split; [| split].
  - intros d. unfold Mmio.pcie_sim_mmio_init. cbn [negb].
    vm_compute. reflexivity.
  - vm_compute. reflexivity.
  - vm_compute. reflexivity.
Qed.

(** X19: the life of the register window.  [pcie_sim_mmio_init] returns
    [-ENOMEM] and leaves BAR0 unmapped when the allocation fails;
    otherwise it returns 0 with a window of 4096 bytes in which the
    device id reads 0x1234ABCD, CONTROL reads 1, INTERRUPT_ENABLE reads
    3, STATUS holds 1 and every other register holds 0.  While BAR0 is
    unmapped, and after [pcie_sim_mmio_cleanup], and for every offset
    at or above [bar0_size], a read answers 0xFFFFFFFF and a write
    changes nothing; none of the three touches the rest of the
    device. *)
Theorem mmio_window_lifecycle (d : Mmio.mmio_device) :
  (exists d0, Mmio.pcie_sim_mmio_init d false = Some (- ENOMEM, d0)
              /\ Mmio.bar0_virt d0 = None /\ Mmio.dev d0 = Mmio.dev d)
  /\ (exists d1, Mmio.pcie_sim_mmio_init d true = Some (0, d1)
                 /\ mmio_mapped d1 = true /\ Mmio.dev d1 = Mmio.dev d
                 /\ (forall k, 0 <= k < 1024 ->
                       mmio_stored d1 (4 * k) = Some (mmio_reset_value (4 * k)))
                 /\ (forall k, 0 <= k < 1024 ->
                       4 * k <> Mmio.REG_STATUS ->
                       4 * k <> Mmio.REG_PERF_LATENCY ->
                       4 * k <> Mmio.REG_PERF_COUNT ->
                       Mmio.pcie_sim_mmio_read32 d1 (4 * k)
                       = Some (mmio_reset_value (4 * k))))
  /\ (forall offset value,
        Mmio.bar0_virt d = None \/ Mmio.bar0_size d <= offset ->
        Mmio.pcie_sim_mmio_read32 d offset = Some 4294967295
        /\ Mmio.pcie_sim_mmio_write32 d offset value = Some d)
  /\ (forall offset value req success,
        let c := Mmio.pcie_sim_mmio_cleanup d in
        Mmio.pcie_sim_mmio_read32 c offset = Some 4294967295
        /\ Mmio.pcie_sim_mmio_write32 c offset value = Some c
        /\ Mmio.pcie_sim_mmio_update_dma c req success = Some c
        /\ Mmio.pcie_sim_mmio_cleanup c = c
        /\ Mmio.dev c = Mmio.dev d).
Proof.
  split; [| split; [| split]].
  - eexists. cbn. repeat split.
  - destruct mmio_init_memory as (mem & Hinit & Hlen & Hall).
    eexists. split; [apply Hinit |].
    assert (Hst : forall k, 0 <= k < 1024 ->
              Mmio.readl mem (4 * k) = Some (mmio_reset_value (4 * k))).
    { intros k Hk. rewrite forallb_forall in Hall.
      specialize (Hall (Z.to_nat k)). rewrite Z2Nat.id in Hall by lia.
      assert (Hin : In (Z.to_nat k) (seq 0 1024)) by (apply in_seq; lia).
      specialize (Hall Hin).
      destruct (Mmio.readl mem (4 * k)) as [v |]; [| discriminate Hall].
      apply Z.eqb_eq in Hall. rewrite Hall. reflexivity. }
    split; [apply mmio_mapped_intro; [exact Hlen | reflexivity] |].
    split; [reflexivity |]. split.
    + intros k Hk. unfold mmio_stored. cbn. apply Hst. exact Hk.
    + intros k Hk H1 H2 H3.
      rewrite (mmio_read32_plain _ mem)
        by (cbn; (reflexivity || (unfold Mmio.BAR0_SIZE; lia) || assumption)).
      apply Hst. exact Hk.
  - intros offset value Hout.
    unfold Mmio.pcie_sim_mmio_read32, Mmio.pcie_sim_mmio_write32.
    destruct (Mmio.bar0_virt d) as [mem |]; [| split; reflexivity].
    destruct Hout as [Hout | Hout]; [discriminate Hout |].
    replace (offset >=? Mmio.bar0_size d) with true by lia. split; reflexivity.
  - intros. cbn. repeat split.
Qed.

Lemma bit_constants :
  Mmio.STATUS_DMA_BUSY = Mmio.BIT 1
  /\ Mmio.STATUS_INTERRUPT_PENDING = Mmio.BIT 3
  /\ Mmio.STATUS_ERROR = Mmio.BIT 2
  /\ Mmio.CONTROL_DMA_RESET = Mmio.BIT 2
  /\ Z.lor Mmio.STATUS_DMA_BUSY Mmio.STATUS_INTERRUPT_PENDING = 10.
Proof. repeat split. Qed.

Lemma testbit_clear_busy_pending v i :
  0 <= i ->
  Z.testbit (Z.land v (Z.lnot (Z.lor Mmio.STATUS_DMA_BUSY
                                    Mmio.STATUS_INTERRUPT_PENDING))) i
  = Z.testbit v i && negb (i =? 1) && negb (i =? 3).
Proof.
  intros Hi.
  change (Z.lor Mmio.STATUS_DMA_BUSY Mmio.STATUS_INTERRUPT_PENDING)
    with (Z.lor (2 ^ 1) (2 ^ 3)).
  rewrite Z.land_spec, Z.lnot_spec, Z.lor_spec, !Z.pow2_bits_eqb by lia.
  rewrite (Z.eqb_sym 1 i), (Z.eqb_sym 3 i).
  destruct (Z.testbit v i), (i =? 1), (i =? 3); reflexivity.
Qed.

(** the value that a read of STATUS computes from the stored word *)
Lemma mmio_status_value d mem stored :
  Mmio.bar0_virt d = Some mem -> Mmio.REG_STATUS < Mmio.bar0_size d ->
  Mmio.readl mem Mmio.REG_STATUS = Some stored ->
  exists s,
    Mmio.pcie_sim_mmio_read32 d Mmio.REG_STATUS = Some s
    /\ 0 <= s < 2 ^ 32
    /\ Z.testbit s 1 = negb (Dma.dma_active (Mmio.dev d) =? 0)
    /\ Z.testbit s 3 = negb (Dma.pending_interrupts (Mmio.dev d) =? 0)
    /\ forall i, 0 <= i < 32 -> i <> 1 -> i <> 3 ->
                 Z.testbit s i = Z.testbit stored i.
Proof.
  intros Hm Hlt Hr. unfold Mmio.pcie_sim_mmio_read32. rewrite Hm.
  replace (Mmio.REG_STATUS >=? Mmio.bar0_size d) with false by lia.
  rewrite Hr. cbn [mbind option_bind]. rewrite Z.eqb_refl.
  set (v0 := wrap32 (Z.land stored _)).
  assert (Hv0 : forall i, 0 <= i < 32 ->
            Z.testbit v0 i = Z.testbit stored i && negb (i =? 1) && negb (i =? 3)).
  { intros i Hi. unfold v0. rewrite testbit_wrap32 by lia.
    apply testbit_clear_busy_pending. lia. }
  destruct bit_constants as (Eb & Ep & _).
  eexists. split; [reflexivity |].
  destruct (Dma.dma_active (Mmio.dev d) =? 0),
    (Dma.pending_interrupts (Mmio.dev d) =? 0); cbn [negb];
    (split; [first [apply wrap32_range | apply (wrap32_range (Z.land stored _))] |]);
    rewrite ?Eb, ?Ep;
    repeat split;
    try (intros i Hi Hi1 Hi3);
    rewrite ?testbit_wrap32, ?testbit_set, ?testbit_wrap32, ?testbit_set, ?Hv0 by lia;
    try (apply Z.eqb_neq in Hi1, Hi3; rewrite ?Hi1, ?Hi3);
    cbn; rewrite ?andb_false_r, ?andb_true_r, ?orb_false_r, ?orb_true_r;
    reflexivity.
Qed.

(** X20: a read of STATUS does not return the stored word as it is:
    bit 1 (DMA busy) is set exactly when [dma_active] is nonzero and
    bit 3 (interrupt pending) exactly when [pending_interrupts] is
    nonzero, whatever was written to the register; the other bits are
    those of the stored word. *)
Theorem mmio_status_is_dynamic (d : Mmio.mmio_device) :
  mmio_mapped d = true ->
  exists stored s,
    mmio_stored d Mmio.REG_STATUS = Some stored
    /\ Mmio.pcie_sim_mmio_read32 d Mmio.REG_STATUS = Some s
    /\ 0 <= s < 2 ^ 32
    /\ Z.testbit s 1 = negb (Dma.dma_active (Mmio.dev d) =? 0)
    /\ Z.testbit s 3 = negb (Dma.pending_interrupts (Mmio.dev d) =? 0)
    /\ forall i, 0 <= i < 32 -> i <> 1 -> i <> 3 ->
                 Z.testbit s i = Z.testbit stored i.
Proof.
  intros Hmap. destruct (mmio_mapped_inv d Hmap) as (mem & Hm & Hlen & Hsz).
  assert (Hin : Mmio.in_bar mem Mmio.REG_STATUS = true)
    by (apply in_bar_spec; unfold Mmio.REG_STATUS; lia).
  assert (Hr : exists stored, Mmio.readl mem Mmio.REG_STATUS = Some stored)
    by (unfold Mmio.readl; rewrite Hin; eexists; reflexivity).
  destruct Hr as (stored & Hr).
  destruct (mmio_status_value d mem stored Hm ltac:(rewrite Hsz; reflexivity) Hr)
    as (s & Hs).
  exists stored, s. split; [| exact Hs].
  unfold mmio_stored. rewrite Hm. exact Hr.
Qed.

Lemma mmio_status_is_dynamic_witness :
  exists s,
    Mmio.pcie_sim_mmio_read32
      (mmio_blank (Mmio.set_dma_active (pcie_sim_probe 0) 1)) Mmio.REG_STATUS
    = Some s
    /\ Z.testbit s 1 = true /\ Z.testbit s 3 = false.
Proof.
  destruct (mmio_status_is_dynamic
              (mmio_blank (Mmio.set_dma_active (pcie_sim_probe 0) 1)) eq_refl)
    as (stored & s & _ & Hr & _ & H1 & H3 & _).
  exists s. split; [exact Hr |]. split; [exact H1 | exact H3].
Defined.

Lemma clear_all_bits cur : wrap32 (Z.land cur (Z.lnot 4294967295)) = 0.
Proof.
  rewrite <- Z.ldiff_land. change 4294967295 with (Z.ones 32).
  rewrite Z.ldiff_ones_r, Z.shiftl_mul_pow2 by lia.
  unfold wrap32. apply Z.mod_mul. lia.
Qed.

(** X21: INTERRUPT_STATUS is write-one-to-clear.  A write of [value]
    leaves in the register the bits that were set and are not set in
    [value], so a write can clear bits and can never set one;
    [pending_interrupts] is reset to 0 exactly when no bit is left, and
    a write of 0xFFFFFFFF always clears the register and the pending
    flag. *)
Theorem mmio_interrupt_write_one_to_clear (d : Mmio.mmio_device) (value : Z) :
  mmio_mapped d = true ->
  exists cur d' new,
    Mmio.pcie_sim_mmio_read32 d Mmio.REG_INTERRUPT_STATUS = Some cur
    /\ Mmio.pcie_sim_mmio_write32 d Mmio.REG_INTERRUPT_STATUS value = Some d'
    /\ mmio_mapped d' = true
    /\ Mmio.pcie_sim_mmio_read32 d' Mmio.REG_INTERRUPT_STATUS = Some new
    /\ 0 <= new < 2 ^ 32
    /\ (forall i, 0 <= i < 32 ->
          Z.testbit new i = Z.testbit cur i && negb (Z.testbit value i))
    /\ Dma.pending_interrupts (Mmio.dev d')
       = (if new =? 0 then 0 else Dma.pending_interrupts (Mmio.dev d))
    /\ Dma.dma_active (Mmio.dev d') = Dma.dma_active (Mmio.dev d)
    /\ Dma.stats (Mmio.dev d') = Dma.stats (Mmio.dev d)
    /\ (value = 4294967295 ->
        new = 0 /\ Dma.pending_interrupts (Mmio.dev d') = 0).
Proof.
  intros Hmap. destruct (mmio_mapped_inv d Hmap) as (mem & Hm & Hlen & Hsz).
  assert (Hin : Mmio.in_bar mem Mmio.REG_INTERRUPT_STATUS = true)
    by (apply in_bar_spec; unfold Mmio.REG_INTERRUPT_STATUS; lia).
  assert (Hr : exists cur, Mmio.readl mem Mmio.REG_INTERRUPT_STATUS = Some cur)
    by (unfold Mmio.readl; rewrite Hin; eexists; reflexivity).
  destruct Hr as (cur & Hr).
  set (new := wrap32 (Z.land cur (Z.lnot value))).
  destruct (writel_defined new mem _ Hin) as (mem' & Hw).
  pose proof (writel_length _ _ _ _ Hw) as Hlen'.
  pose proof (wrap32_range (Z.land cur (Z.lnot value))) as Hnew. fold new in Hnew.
  exists cur.
  exists (Mmio.mk_mmio (if new =? 0
                        then Mmio.set_pending_interrupts (Mmio.dev d) 0
                        else Mmio.dev d) (Some mem') (Mmio.bar0_size d)).
  exists new.
  split.
  { rewrite (mmio_read32_plain _ mem)
      by (rewrite ?Hsz; (assumption || reflexivity || discriminate)).
    exact Hr. }
  split.
  { unfold Mmio.pcie_sim_mmio_write32. rewrite Hm, Hsz.
    change (Mmio.REG_INTERRUPT_STATUS >=? 4096) with false.
    change (Mmio.REG_INTERRUPT_STATUS =? Mmio.REG_CONTROL) with false.
    rewrite Z.eqb_refl, Hr. cbn [mbind option_bind]. fold new.
    rewrite Hw. reflexivity. }
  split; [apply mmio_mapped_intro; [lia | exact Hsz] |].
  split.
  { rewrite (mmio_read32_plain _ mem')
      by (cbn; rewrite ?Hsz; (reflexivity || discriminate)).
    exact (readl_writel_same _ _ _ _ Hw Hnew). }
  split; [exact Hnew |].
  split.
  { intros i Hi. unfold new. rewrite testbit_wrap32 by lia.
    rewrite Z.land_spec, Z.lnot_spec by lia. reflexivity. }
  cbn [Mmio.dev].
  split; [destruct (new =? 0); reflexivity |].
  split; [destruct (new =? 0); reflexivity |].
  split; [destruct (new =? 0); reflexivity |].
  intros ->. assert (E : new = 0) by apply clear_all_bits.
  rewrite E. split; reflexivity.
Qed.

Lemma mmio_interrupt_write_one_to_clear_witness :
  exists d',
    Mmio.pcie_sim_mmio_write32
      (mmio_blank (Mmio.set_pending_interrupts (pcie_sim_probe 0) 1))
      Mmio.REG_INTERRUPT_STATUS 4294967295 = Some d'
    /\ Dma.pending_interrupts (Mmio.dev d') = 0.
Proof.
  destruct (mmio_interrupt_write_one_to_clear
              (mmio_blank (Mmio.set_pending_interrupts (pcie_sim_probe 0) 1))
              4294967295 eq_refl)
    as (cur & d' & new & _ & Hw & _ & _ & _ & _ & _ & _ & _ & Hall).
  exists d'. split; [exact Hw | exact (proj2 (Hall eq_refl))].
Defined.

(** X22: the DMA reset bit of CONTROL clears itself.  After a write of
    any 32-bit value the register reads back with bit 2 clear and the
    other bits as written; [dma_active] becomes 0 when bit 2 was set in
    the value and is left alone otherwise, and after a write with bit 2
    set a read of STATUS shows the DMA idle (bit 1 clear). *)
Theorem mmio_control_reset_self_clears (d : Mmio.mmio_device) (value : Z) :
  mmio_mapped d = true ->
  0 <= value < 2 ^ 32 ->
  exists d' c,
    Mmio.pcie_sim_mmio_write32 d Mmio.REG_CONTROL value = Some d'
    /\ mmio_mapped d' = true
    /\ Mmio.pcie_sim_mmio_read32 d' Mmio.REG_CONTROL = Some c
    /\ Z.testbit c 2 = false
    /\ (forall i, 0 <= i < 32 -> i <> 2 -> Z.testbit c i = Z.testbit value i)
    /\ Dma.dma_active (Mmio.dev d')
       = (if Z.testbit value 2 then 0 else Dma.dma_active (Mmio.dev d))
    /\ Dma.pending_interrupts (Mmio.dev d')
       = Dma.pending_interrupts (Mmio.dev d)
    /\ Dma.stats (Mmio.dev d') = Dma.stats (Mmio.dev d)
    /\ (Z.testbit value 2 = true ->
        exists s, Mmio.pcie_sim_mmio_read32 d' Mmio.REG_STATUS = Some s
                  /\ Z.testbit s 1 = false).
Proof.
  intros Hmap Hv. destruct (mmio_mapped_inv d Hmap) as (mem & Hm & Hlen & Hsz).
  assert (Hin : Mmio.in_bar mem Mmio.REG_CONTROL = true)
    by (apply in_bar_spec; unfold Mmio.REG_CONTROL; lia).
  destruct bit_constants as (_ & _ & _ & Er & _).
  unfold Mmio.pcie_sim_mmio_write32. rewrite Hm, Hsz.
  change (Mmio.REG_CONTROL >=? 4096) with false. rewrite Z.eqb_refl.
  rewrite Er, land_bit by lia. rewrite negb_involutive.
  destruct (Z.testbit value 2) eqn:Hb.
  - set (v' := wrap32 (Z.land value (Z.lnot (Mmio.BIT 2)))).
    pose proof (wrap32_range (Z.land value (Z.lnot (Mmio.BIT 2)))) as Hv'.
    fold v' in Hv'.
    destruct (writel_defined v' mem _ Hin) as (mem' & Hw).
    pose proof (writel_length _ _ _ _ Hw) as Hlen'.
    rewrite Hw. cbn [mbind option_bind].
    eexists. exists v'. split; [reflexivity |].
    split; [apply mmio_mapped_intro; [lia | reflexivity] |].
    split.
    { rewrite (mmio_read32_plain _ mem') by (cbn; (reflexivity || discriminate)).
      exact (readl_writel_same _ _ _ _ Hw Hv'). }
    split.
    { unfold v'. rewrite testbit_wrap32, testbit_clear by lia.
      apply andb_false_r. }
    split.
    { intros i Hi Hne. unfold v'. rewrite testbit_wrap32, testbit_clear by lia.
      apply Z.eqb_neq in Hne. rewrite Hne. apply andb_true_r. }
    cbn [Mmio.dev]. repeat split. intros _.
    assert (Hr : exists stored, Mmio.readl mem' Mmio.REG_STATUS = Some stored).
    { unfold Mmio.readl.
      replace (Mmio.in_bar mem' Mmio.REG_STATUS) with true
        by (symmetry; apply in_bar_spec; unfold Mmio.REG_STATUS; lia).
      eexists. reflexivity. }
    destruct Hr as (stored & Hr).
    destruct (mmio_status_value
                (Mmio.mk_mmio (Mmio.set_dma_active (Mmio.dev d) 0) (Some mem') 4096)
                mem' stored eq_refl eq_refl Hr) as (s & Hs & _ & H1 & _).
    exists s. split; [exact Hs | exact H1].
  - destruct (writel_defined value mem _ Hin) as (mem' & Hw).
    pose proof (writel_length _ _ _ _ Hw) as Hlen'.
    rewrite Hw. cbn [mbind option_bind].
    eexists. exists value. split; [reflexivity |].
    split; [apply mmio_mapped_intro; [lia | reflexivity] |].
    split.
    { rewrite (mmio_read32_plain _ mem') by (cbn; (reflexivity || discriminate)).
      exact (readl_writel_same _ _ _ _ Hw Hv). }
    split; [exact Hb |]. cbn [Mmio.dev]. repeat split.
    intros H. discriminate H.
Qed.

Lemma mmio_control_reset_self_clears_witness :
  exists d',
    Mmio.pcie_sim_mmio_write32
      (mmio_blank (Mmio.set_dma_active (pcie_sim_probe 0) 1))
      Mmio.REG_CONTROL 5 = Some d'
    /\ Mmio.pcie_sim_mmio_read32 d' Mmio.REG_CONTROL = Some 1
    /\ Dma.dma_active (Mmio.dev d') = 0.
Proof.
  destruct (mmio_control_reset_self_clears
              (mmio_blank (Mmio.set_dma_active (pcie_sim_probe 0) 1)) 5
              eq_refl ltac:(lia))
    as (d' & c & Hw & _ & Hr & _ & _ & Ha & _).
  exists d'. split; [exact Hw |].
  split; [| exact Ha].
  assert (E : Mmio.pcie_sim_mmio_write32
                (mmio_blank (Mmio.set_dma_active (pcie_sim_probe 0) 1))
                Mmio.REG_CONTROL 5
              = Some (Mmio.mk_mmio (Mmio.set_dma_active (pcie_sim_probe 0) 0)
                        (Some (<[8%nat := 1]> (replicate 4096 0))) 4096))
    by (vm_compute; reflexivity).
  rewrite E in Hw. injection Hw as <-. vm_compute. reflexivity.
Defined.

(** X23: a write to ERROR_INJECT is stored and read back as written,
    and its low byte drives the fault injection: a nonzero low byte
    turns [simulate_errors] on and becomes the [fault_injection_rate]
    (1 to 255), a zero low byte turns [simulate_errors] off and keeps
    the rate; the upper 24 bits of the value have no effect on
    either. *)
Theorem mmio_error_injection (d : Mmio.mmio_device) (value : Z) :
  mmio_mapped d = true ->
  0 <= value < 2 ^ 32 ->
  exists d',
    Mmio.pcie_sim_mmio_write32 d Mmio.REG_ERROR_INJECT value = Some d'
    /\ Mmio.pcie_sim_mmio_read32 d' Mmio.REG_ERROR_INJECT = Some value
    /\ Dma.simulate_errors (Mmio.dev d') = negb (value mod 256 =? 0)
    /\ Dma.fault_injection_rate (Mmio.dev d')
       = (if value mod 256 =? 0
          then Dma.fault_injection_rate (Mmio.dev d) else value mod 256)
    /\ 0 <= value mod 256 <= 255
    /\ Dma.stats (Mmio.dev d') = Dma.stats (Mmio.dev d)
    /\ Dma.error_scenario (Mmio.dev d') = Dma.error_scenario (Mmio.dev d).
Proof.
  intros Hmap Hv. destruct (mmio_mapped_inv d Hmap) as (mem & Hm & Hlen & Hsz).
  assert (Hin : Mmio.in_bar mem Mmio.REG_ERROR_INJECT = true)
    by (apply in_bar_spec; unfold Mmio.REG_ERROR_INJECT; lia).
  destruct (writel_defined value mem _ Hin) as (mem' & Hw).
  pose proof (writel_length _ _ _ _ Hw) as Hlen'.
  unfold Mmio.pcie_sim_mmio_write32. rewrite Hm, Hsz.
  change (Mmio.REG_ERROR_INJECT >=? 4096) with false.
  change (Mmio.REG_ERROR_INJECT =? Mmio.REG_CONTROL) with false.
  change (Mmio.REG_ERROR_INJECT =? Mmio.REG_INTERRUPT_STATUS) with false.
  rewrite Z.eqb_refl, Hw. cbn [mbind option_bind].
  change 255 with (Z.ones 8) at 1 2. rewrite Z.land_ones by lia.
  change (2 ^ 8) with 256.
  assert (Hb : 0 <= value mod 256 <= 255)
    by (pose proof (Z.mod_pos_bound value 256 ltac:(lia)); lia).
  eexists. split; [reflexivity |].
  split.
  { rewrite (mmio_read32_plain _ mem') by (cbn; (reflexivity || discriminate)).
    exact (readl_writel_same _ _ _ _ Hw Hv). }
  cbn [Mmio.dev].
  destruct (value mod 256 =? 0); cbn; repeat split; lia.
Qed.

Lemma mmio_error_injection_witness :
  exists d',
    Mmio.pcie_sim_mmio_write32 (mmio_blank (pcie_sim_probe 0))
      Mmio.REG_ERROR_INJECT 2835 = Some d'
    /\ Dma.simulate_errors (Mmio.dev d') = true
    /\ Dma.fault_injection_rate (Mmio.dev d') = 19.
Proof.
  destruct (mmio_error_injection (mmio_blank (pcie_sim_probe 0)) 2835
              eq_refl ltac:(lia))
    as (d' & Hw & _ & Hs & Hr & _).
  exists d'. split; [exact Hw |]. split; [exact Hs | exact Hr].
Defined.

Lemma readl_defined mem a :
  Mmio.in_bar mem a = true -> exists v, Mmio.readl mem a = Some v.
Proof. intros H. unfold Mmio.readl. rewrite H. eexists. reflexivity. Qed.

(** X24: [pcie_sim_mmio_update_dma] on a mapped BAR0 raises the
    interrupt: it sets [pending_interrupts] to 1, so STATUS reads with
    bit 3 set, and it sets bit 0 of INTERRUPT_STATUS after a success
    and bit 1 after a failure, leaving the other bits of that register
    as they were.  A failure sets the error bit 2 of STATUS and a
    success does not clear it.  The function does not touch
    [dma_active], so the busy bit of STATUS still follows that field;
    and the latency of the request that it stores at PERF_LATENCY is
    not what a read of that register answers, which is the average
    latency of the statistics in microseconds. *)
Theorem mmio_update_dma_raises_interrupt (d : Mmio.mmio_device)
    (req : option Dma.pcie_sim_transfer_req) (success : bool) :
  mmio_mapped d = true ->
  exists d' q0 q s0 s,
    Mmio.pcie_sim_mmio_update_dma d req success = Some d'
    /\ mmio_mapped d' = true
    /\ Dma.pending_interrupts (Mmio.dev d') = 1
    /\ Dma.dma_active (Mmio.dev d') = Dma.dma_active (Mmio.dev d)
    /\ Dma.stats (Mmio.dev d') = Dma.stats (Mmio.dev d)
    /\ Mmio.pcie_sim_mmio_read32 d Mmio.REG_INTERRUPT_STATUS = Some q0
    /\ Mmio.pcie_sim_mmio_read32 d' Mmio.REG_INTERRUPT_STATUS = Some q
    /\ Z.testbit q (if success then 0 else 1) = true
    /\ (forall i, 0 <= i < 32 -> i <> (if success then 0 else 1) ->
          Z.testbit q i = Z.testbit q0 i)
    /\ Mmio.pcie_sim_mmio_read32 d Mmio.REG_STATUS = Some s0
    /\ Mmio.pcie_sim_mmio_read32 d' Mmio.REG_STATUS = Some s
    /\ Z.testbit s 3 = true
    /\ Z.testbit s 1 = negb (Dma.dma_active (Mmio.dev d) =? 0)
    /\ Z.testbit s 2 = (if success then Z.testbit s0 2 else true)
    /\ Mmio.pcie_sim_mmio_read32 d' Mmio.REG_PERF_LATENCY
       = Some (wrap32 (avg_latency_ns (Dma.stats (Mmio.dev d)) / 1000))
    /\ (forall rq, success = true -> req = Some rq ->
          mmio_stored d' Mmio.REG_PERF_LATENCY
          = Some (wrap32 (Dma.latency_ns rq / 1000))).
Proof.
  intros Hmap. destruct (mmio_mapped_inv d Hmap) as (mem & Hm & Hlen & Hsz).
  assert (Hin : forall m o, length m = length mem -> 0 <= o -> o + 4 <= 4096 ->
                            Mmio.in_bar m o = true).
  { intros m o Hl H0 H1. apply in_bar_spec. rewrite Hl. lia. }
  destruct (readl_defined mem Mmio.REG_STATUS) as (st0 & Hst0);
    [apply Hin; (reflexivity || (unfold Mmio.REG_STATUS; lia)) |].
  destruct (readl_defined mem Mmio.REG_INTERRUPT_STATUS) as (q0 & Hq0);
    [apply Hin; (reflexivity || (unfold Mmio.REG_INTERRUPT_STATUS; lia)) |].
  set (st1 := wrap32 (Z.land st0 (Z.lnot Mmio.STATUS_DMA_BUSY))).
  set (st2 := if negb success then wrap32 (Z.lor st1 Mmio.STATUS_ERROR) else st1).
  assert (Hst2 : 0 <= st2 < 2 ^ 32)
    by (unfold st2, st1; destruct success; apply wrap32_range).
  set (q := if success then wrap32 (Z.lor q0 Mmio.IRQ_DMA_COMPLETE)
            else wrap32 (Z.lor q0 Mmio.IRQ_DMA_ERROR)).
  assert (Hq : 0 <= q < 2 ^ 32) by (unfold q; destruct success; apply wrap32_range).
  destruct (writel_defined st2 mem Mmio.REG_STATUS) as (m1 & Hw1);
    [apply Hin; (reflexivity || (unfold Mmio.REG_STATUS; lia)) |].
  pose proof (writel_length _ _ _ _ Hw1) as Hl1.
  destruct (writel_defined q m1 Mmio.REG_INTERRUPT_STATUS) as (m2 & Hw2);
    [apply Hin; (assumption || (unfold Mmio.REG_INTERRUPT_STATUS; lia)) |].
  pose proof (writel_length _ _ _ _ Hw2) as Hl2.
  assert (Hq1 : Mmio.readl m1 Mmio.REG_INTERRUPT_STATUS = Some q0).
  { rewrite (readl_writel_other _ _ _ _ _ Hw1); [exact Hq0 | |];
      unfold Mmio.REG_INTERRUPT_STATUS, Mmio.REG_STATUS; lia. }
  assert (Hs2 : Mmio.readl m2 Mmio.REG_STATUS = Some st2).
  { rewrite (readl_writel_other _ _ _ _ _ Hw2);
      [exact (readl_writel_same _ _ _ _ Hw1 Hst2) | |];
      unfold Mmio.REG_INTERRUPT_STATUS, Mmio.REG_STATUS; lia. }
  pose proof (readl_writel_same _ _ _ _ Hw2 Hq) as Hq2.
  (* the two performance registers *)
  assert (Hperf : exists m4,
    match success, req with
    | true, Some rq =>
        m3 ← Mmio.writel (wrap32 (Dma.latency_ns rq / 1000)) m2
               Mmio.REG_PERF_LATENCY;
        Mmio.writel (wrap32 (total_transfers (Dma.stats (Mmio.dev d)))) m3
          Mmio.REG_PERF_COUNT
    | _, _ => Some m2
    end = Some m4
    /\ length m4 = length mem
    /\ Mmio.readl m4 Mmio.REG_STATUS = Some st2
    /\ Mmio.readl m4 Mmio.REG_INTERRUPT_STATUS = Some q
    /\ (forall rq, success = true -> req = Some rq ->
          Mmio.readl m4 Mmio.REG_PERF_LATENCY
          = Some (wrap32 (Dma.latency_ns rq / 1000)))).
  { destruct success; [destruct req as [rq |] |].
    - destruct (writel_defined (wrap32 (Dma.latency_ns rq / 1000)) m2
                  Mmio.REG_PERF_LATENCY) as (m3 & Hw3);
        [apply Hin; (congruence || (unfold Mmio.REG_PERF_LATENCY; lia)) |].
      pose proof (writel_length _ _ _ _ Hw3) as Hl3.
      destruct (writel_defined (wrap32 (total_transfers (Dma.stats (Mmio.dev d))))
                  m3 Mmio.REG_PERF_COUNT) as (m4 & Hw4);
        [apply Hin; (congruence || (unfold Mmio.REG_PERF_COUNT; lia)) |].
      pose proof (writel_length _ _ _ _ Hw4) as Hl4.
      exists m4. rewrite Hw3. cbn [mbind option_bind]. rewrite Hw4.
      split; [reflexivity |]. split; [congruence |].
      split; [| split].
      + rewrite (readl_writel_other _ _ _ _ _ Hw4),
          (readl_writel_other _ _ _ _ _ Hw3); [exact Hs2 | | | |];
          unfold Mmio.REG_PERF_COUNT, Mmio.REG_PERF_LATENCY, Mmio.REG_STATUS; lia.
      + rewrite (readl_writel_other _ _ _ _ _ Hw4),
          (readl_writel_other _ _ _ _ _ Hw3); [exact Hq2 | | | |];
          unfold Mmio.REG_PERF_COUNT, Mmio.REG_PERF_LATENCY,
            Mmio.REG_INTERRUPT_STATUS; lia.
      + intros rq' _ [= <-].
        rewrite (readl_writel_other _ _ _ _ _ Hw4);
          [exact (readl_writel_same _ _ _ _ Hw3 (wrap32_range _)) | |];
          unfold Mmio.REG_PERF_COUNT, Mmio.REG_PERF_LATENCY; lia.
    - exists m2. repeat split; try assumption; congruence.
    - exists m2. repeat split; try assumption; congruence. }
  destruct Hperf as (m4 & Hm4 & Hl4 & Hs4 & Hq4 & Hlat4).
  set (d' := Mmio.mk_mmio (Mmio.set_pending_interrupts (Mmio.dev d) 1)
               (Some m4) (Mmio.bar0_size d)).
  assert (Hupd : Mmio.pcie_sim_mmio_update_dma d req success = Some d').
  { unfold Mmio.pcie_sim_mmio_update_dma. rewrite Hm, Hst0.
    cbn [mbind option_bind]. fold st1. fold st2. rewrite Hw1.
    cbn [mbind option_bind]. rewrite Hq1. cbn [mbind option_bind].
    fold q. rewrite Hw2. cbn [mbind option_bind].
    rewrite Hm4. reflexivity. }
  destruct (mmio_status_value d mem st0 Hm ltac:(rewrite Hsz; reflexivity) Hst0)
    as (s0 & Hrs0 & _ & _ & _ & Hs0bits).
  destruct (mmio_status_value d' m4 st2 eq_refl
              ltac:(cbn; rewrite Hsz; reflexivity) Hs4)
    as (s & Hrs & _ & Hs1 & Hs3 & Hsbits).
  exists d', q0, q, s0, s.
  split; [exact Hupd |].
  split; [apply mmio_mapped_intro; [lia | exact Hsz] |].
  split; [reflexivity |]. split; [reflexivity |]. split; [reflexivity |].
  split.
  { rewrite (mmio_read32_plain _ mem)
      by (rewrite ?Hsz; (assumption || reflexivity || discriminate)).
    exact Hq0. }
  split.
  { rewrite (mmio_read32_plain _ m4)
      by (cbn; rewrite ?Hsz; (reflexivity || discriminate)).
    exact Hq4. }
  split.
  { unfold q. destruct success; rewrite testbit_wrap32 by lia;
      [change Mmio.IRQ_DMA_COMPLETE with (Mmio.BIT 0)
      | change Mmio.IRQ_DMA_ERROR with (Mmio.BIT 1)];
      rewrite testbit_set by lia; apply orb_true_r. }
  split.
  { intros i Hi Hne. unfold q. destruct success; rewrite testbit_wrap32 by lia;
      [change Mmio.IRQ_DMA_COMPLETE with (Mmio.BIT 0)
      | change Mmio.IRQ_DMA_ERROR with (Mmio.BIT 1)];
      rewrite testbit_set by lia; apply Z.eqb_neq in Hne; rewrite Hne;
      apply orb_false_r. }
  split; [exact Hrs0 |]. split; [exact Hrs |].
  split; [exact Hs3 |]. split; [exact Hs1 |].
  split.
  { rewrite Hsbits, Hs0bits by lia. unfold st2, st1.
    change Mmio.STATUS_DMA_BUSY with (Mmio.BIT 1).
    change Mmio.STATUS_ERROR with (Mmio.BIT 2).
    destruct success; cbn [negb].
    - rewrite testbit_wrap32, testbit_clear by lia. apply andb_true_r.
    - rewrite testbit_wrap32, testbit_set by lia. apply orb_true_r. }
  split.
  { unfold Mmio.pcie_sim_mmio_read32. cbn [d' Mmio.bar0_virt Mmio.bar0_size Mmio.dev].
    rewrite Hsz. change (Mmio.REG_PERF_LATENCY >=? 4096) with false.
    destruct (readl_defined m4 Mmio.REG_PERF_LATENCY) as (v & Hv);
      [apply Hin; (assumption || (unfold Mmio.REG_PERF_LATENCY; lia)) |].
    rewrite Hv. reflexivity. }
  intros rq Hs Hr. unfold mmio_stored. cbn. exact (Hlat4 rq Hs Hr).
Qed.

Lemma mmio_update_dma_raises_interrupt_witness :
  exists d',
    Mmio.pcie_sim_mmio_update_dma (mmio_blank (pcie_sim_probe 0))
      (Some (kernel_request sample_1)) false = Some d'
    /\ Dma.pending_interrupts (Mmio.dev d') = 1.
Proof.
  destruct (mmio_update_dma_raises_interrupt (mmio_blank (pcie_sim_probe 0))
              (Some (kernel_request sample_1)) false eq_refl)
    as (d' & q0 & q & s0 & s & Hu & _ & Hp & _).
  exists d'. split; [exact Hu | exact Hp].
Defined.

(** * The test configuration *)

Lemma config_validate_spec c :
  Config.pcie_sim_config_validate (Some c) = 0
  <-> (1 <= Config.num_devices c <= 8
       /\ 64 <= Config.min_size (Config.transfer c)
       /\ Config.min_size (Config.transfer c) <= Config.max_size (Config.transfer c)
       /\ Config.max_size (Config.transfer c) <= 4194304
       /\ 1 <= Config.rate_hz (Config.transfer c) <= 10000
       /\ SpecFloat.SFltb (Config.probability (Config.error c)) Config.f_0_0 = false
       /\ SpecFloat.SFltb Config.f_1_0 (Config.probability (Config.error c)) = false
       /\ Config.num_threads (Config.stress c) <= 64
       /\ Config.duration_seconds (Config.stress c) <= 3600).
Proof.
  unfold Config.pcie_sim_config_validate.
  destruct (SpecFloat.SFltb (Config.probability (Config.error c)) Config.f_0_0),
    (SpecFloat.SFltb Config.f_1_0 (Config.probability (Config.error c)));
    cbn [orb]; zbool; cbn [orb]; split; intros Hx;
    try discriminate Hx; try reflexivity;
    try (repeat split; (lia || reflexivity));
    try (destruct Hx as (? & ? & ? & ? & ? & ? & ? & ? & ?); (lia || discriminate)).
Qed.

(** X25: [pcie_sim_config_init] produces a configuration that
    [pcie_sim_config_validate] accepts, and the three setters keep a
    valid configuration valid whatever they are given.
    [pcie_sim_config_set_pattern] succeeds exactly for the four
    patterns, [pcie_sim_config_set_custom_pattern] exactly for a size
    of 64 to 4194304 and a rate of 1 to 10000, and
    [pcie_sim_config_set_error_scenario] exactly for the four
    scenarios; the first two leave the configuration untouched when
    they fail. *)
Theorem config_setters_keep_validity (c : Config.pcie_sim_test_config) :
  Config.pcie_sim_config_validate (Some c) = 0 ->
  (forall c0, Config.pcie_sim_config_validate
                (Config.pcie_sim_config_init (Some c0)).2 = 0)
  /\ (forall pat,
        let r := Config.pcie_sim_config_set_pattern (Some c) pat in
        Config.pcie_sim_config_validate r.2 = 0
        /\ (r.1 = 0 <-> 0 <= pat <= 3)
        /\ (r.1 <> 0 -> r = (-1, Some c)))
  /\ (forall size rate,
        let r := Config.pcie_sim_config_set_custom_pattern (Some c) size rate in
        Config.pcie_sim_config_validate r.2 = 0
        /\ (r.1 = 0 <-> 64 <= size <= 4194304 /\ 1 <= rate <= 10000)
        /\ (r.1 <> 0 -> r = (-1, Some c)))
  /\ (forall sc,
        let r := Config.pcie_sim_config_set_error_scenario (Some c) sc in
        Config.pcie_sim_config_validate r.2 = 0
        /\ (r.1 = 0 <-> 0 <= sc <= 3)
        /\ (r.1 = 0 \/ r.1 = -1)).
Proof.
  intros Hv. pose proof Hv as Hv'. apply config_validate_spec in Hv'.
  destruct Hv' as (Hn & Hmin & Hmm & Hmax & Hr & Hp0 & Hp1 & Ht & Hd).
  split; [intros c0; reflexivity |].
  split; [| split].
  - intros pat. cbn zeta. unfold Config.pcie_sim_config_set_pattern,
      Config.PCIE_SIM_PATTERN_SMALL_FAST, Config.PCIE_SIM_PATTERN_LARGE_BURST,
      Config.PCIE_SIM_PATTERN_MIXED, Config.PCIE_SIM_PATTERN_CUSTOM.
    destruct (Z.eqb_spec pat 0); [| destruct (Z.eqb_spec pat 1);
      [| destruct (Z.eqb_spec pat 2); [| destruct (Z.eqb_spec pat 3)]]];
      cbn [fst snd];
      (split; [apply config_validate_spec; cbn; repeat split;
               (assumption || lia) |]);
      (split; [split; intros Hx; (lia || reflexivity || discriminate Hx) |]);
      intros Hx; (reflexivity || (exfalso; apply Hx; reflexivity)).
  - intros size rate. cbn zeta. unfold Config.pcie_sim_config_set_custom_pattern.
    destruct (Z.ltb_spec size 64); cbn [orb];
      [| destruct (Z.gtb_spec size 4194304); cbn [orb];
         [| destruct (Z.ltb_spec rate 1); cbn [orb];
            [| destruct (Z.gtb_spec rate 10000)]]];
      cbn [fst snd];
      (split; [apply config_validate_spec; cbn; repeat split;
               (assumption || lia) |]);
      (split; [split; intros Hx; (lia || reflexivity || discriminate Hx) |]);
      intros Hx; (reflexivity || (exfalso; apply Hx; reflexivity)).
  - intros sc. cbn zeta. unfold Config.pcie_sim_config_set_error_scenario,
      Config.PCIE_SIM_ERROR_SCENARIO_NONE, Config.PCIE_SIM_ERROR_SCENARIO_TIMEOUT,
      Config.PCIE_SIM_ERROR_SCENARIO_CORRUPTION,
      Config.PCIE_SIM_ERROR_SCENARIO_OVERRUN.
    destruct (Z.eqb_spec sc 0); [| destruct (Z.eqb_spec sc 1);
      [| destruct (Z.eqb_spec sc 2); [| destruct (Z.eqb_spec sc 3)]]];
      cbn [fst snd];
      (split; [apply config_validate_spec; cbn; repeat split;
               (assumption || lia || reflexivity) |]);
      (split; [split; intros Hx; (lia || reflexivity || discriminate Hx) |]);
      (left; reflexivity) || (right; reflexivity).
Qed.

Lemma config_setters_keep_validity_witness :
  Config.pcie_sim_config_validate
    (Config.pcie_sim_config_set_custom_pattern
       (Config.pcie_sim_config_init
          (Some (Config.mk_test_config 0
                   Config.PCIE_SIM_PATTERN_MIXED_CONFIG
                   (Config.mk_error_config 0 Config.f_0_0 0 0)
                   (Config.mk_stress_config 0 0 0 0)
                   (Config.mk_log_config String.EmptyString 0 0 0) 0))).2
       4096 500).2 = 0.
Proof.
  exact (proj1 (proj1 (proj2 (proj2
           (config_setters_keep_validity
              (Config.mk_test_config 1 Config.PCIE_SIM_PATTERN_MIXED_CONFIG
                 (Config.mk_error_config 0 Config.f_0_0 0 0)
                 (Config.mk_stress_config 0 1 10 0)
                 (Config.mk_log_config String.EmptyString 1000 10000 4096) 0)
              eq_refl))) 4096 500)).
Defined.

(** X26: [pcie_sim_config_set_error_scenario] stores the scenario it is
    given even when it rejects it: for a value outside 0..3 it returns
    -1 with the scenario field overwritten and the rest of the
    configuration as before.  For the four scenarios it sets bit 1 of
    the flags (errors enabled) exactly when the scenario is not NONE
    and leaves the other flag bits alone; the three error scenarios
    get a probability strictly between 0 and 1 and a recovery time of
    100, 50 and 200 ms, while NONE sets the probability to 0 and keeps
    the recovery time that was there. *)
Theorem config_error_scenario_effect (c : Config.pcie_sim_test_config)
    (sc : Z) :
  let r := Config.pcie_sim_config_set_error_scenario (Some c) sc in
  exists c',
    r.2 = Some c'
    /\ Config.scenario (Config.error c') = sc
    /\ Config.num_devices c' = Config.num_devices c
    /\ Config.transfer c' = Config.transfer c
    /\ Config.stress c' = Config.stress c
    /\ Config.logging c' = Config.logging c
    /\ (~ 0 <= sc <= 3 ->
        r.1 = -1 /\ Config.flags c' = Config.flags c
        /\ Config.probability (Config.error c')
           = Config.probability (Config.error c)
        /\ Config.recovery_time_ms (Config.error c')
           = Config.recovery_time_ms (Config.error c))
    /\ (0 <= sc <= 3 ->
        r.1 = 0
        /\ Z.testbit (Config.flags c') 1 = negb (sc =? 0)
        /\ (forall i, 0 <= i < 32 -> i <> 1 ->
              Z.testbit (Config.flags c') i = Z.testbit (Config.flags c) i)
        /\ (sc = 0 ->
            Config.probability (Config.error c') = Config.f_0_0
            /\ Config.recovery_time_ms (Config.error c')
               = Config.recovery_time_ms (Config.error c))
        /\ (sc <> 0 ->
            SpecFloat.SFltb Config.f_0_0 (Config.probability (Config.error c'))
            = true
            /\ SpecFloat.SFltb (Config.probability (Config.error c')) Config.f_1_0
               = true
            /\ Config.recovery_time_ms (Config.error c')
               = (if sc =? 1 then 100 else if sc =? 2 then 50 else 200))).
Proof.
  cbn zeta. unfold Config.pcie_sim_config_set_error_scenario,
    Config.PCIE_SIM_ERROR_SCENARIO_NONE, Config.PCIE_SIM_ERROR_SCENARIO_TIMEOUT,
    Config.PCIE_SIM_ERROR_SCENARIO_CORRUPTION,
    Config.PCIE_SIM_ERROR_SCENARIO_OVERRUN.
  assert (Hon : forall i, 0 <= i < 32 ->
            Z.testbit (wrap32 (Z.lor (Config.flags c)
                                 Config.PCIE_SIM_CONFIG_ENABLE_ERRORS)) i
            = Z.testbit (Config.flags c) i || (i =? 1)).
  { intros i Hi. rewrite testbit_wrap32 by lia.
    change Config.PCIE_SIM_CONFIG_ENABLE_ERRORS with (Mmio.BIT 1).
    apply testbit_set. lia. }
  assert (Hoff : forall i, 0 <= i < 32 ->
            Z.testbit (wrap32 (Z.land (Config.flags c)
                                 (Z.lnot Config.PCIE_SIM_CONFIG_ENABLE_ERRORS))) i
            = Z.testbit (Config.flags c) i && negb (i =? 1)).
  { intros i Hi. rewrite testbit_wrap32 by lia.
    change Config.PCIE_SIM_CONFIG_ENABLE_ERRORS with (Mmio.BIT 1).
    apply testbit_clear; lia. }
  destruct (Z.eqb_spec sc 0) as [-> | H0];
    [| destruct (Z.eqb_spec sc 1) as [-> | H1];
       [| destruct (Z.eqb_spec sc 2) as [-> | H2];
          [| destruct (Z.eqb_spec sc 3) as [-> | H3]]]];
    cbn [fst snd]; eexists; (split; [reflexivity |]);
    cbn [Config.set_error Config.error Config.scenario Config.num_devices
         Config.transfer Config.stress Config.logging Config.flags
         Config.probability Config.recovery_time_ms];
    (split; [reflexivity |]); (split; [reflexivity |]);
    (split; [reflexivity |]); (split; [reflexivity |]);
    (split; [reflexivity |]);
    (split; [intros Hout; try lia; repeat split |]);
    intros Hin; try lia.
  - split; [reflexivity |]. split; [rewrite Hoff by lia; apply andb_false_r |].
    split.
    { intros i Hi Hne. rewrite Hoff by lia. apply Z.eqb_neq in Hne.
      rewrite Hne. apply andb_true_r. }
    split; [intros _; split; reflexivity | intros Hx; contradiction].
  - split; [reflexivity |]. split; [rewrite Hon by lia; apply orb_true_r |].
    split.
    { intros i Hi Hne. rewrite Hon by lia. apply Z.eqb_neq in Hne.
      rewrite Hne. apply orb_false_r. }
    split; [intros Hx; discriminate Hx | intros _; repeat split].
  - split; [reflexivity |]. split; [rewrite Hon by lia; apply orb_true_r |].
    split.
    { intros i Hi Hne. rewrite Hon by lia. apply Z.eqb_neq in Hne.
      rewrite Hne. apply orb_false_r. }
    split; [intros Hx; discriminate Hx | intros _; repeat split].
  - split; [reflexivity |]. split; [rewrite Hon by lia; apply orb_true_r |].
    split.
    { intros i Hi Hne. rewrite Hon by lia. apply Z.eqb_neq in Hne.
      rewrite Hne. apply orb_false_r. }
    split; [intros Hx; discriminate Hx | intros _; repeat split].
Qed.

(** X27: the names of the patterns and of the error scenarios survive a
    round trip: parsing the name that [pcie_sim_pattern_to_string]
    gives for one of the four patterns returns that pattern, and
    likewise for the scenarios.  The parsers always return one of the
    four values: a NULL pointer and every string that is not one of the
    names give MIXED and NONE, and so does the name [unknown] that the
    printers give for a value outside the enumeration. *)
Theorem config_names_round_trip :
  (forall p, 0 <= p <= 3 ->
     Config.pcie_sim_parse_pattern (Some (Config.pcie_sim_pattern_to_string p))
     = p)
  /\ (forall sc, 0 <= sc <= 3 ->
        Config.pcie_sim_parse_error_scenario
          (Some (Config.pcie_sim_error_scenario_to_string sc)) = sc)
  /\ (forall s, 0 <= Config.pcie_sim_parse_pattern s <= 3
                /\ 0 <= Config.pcie_sim_parse_error_scenario s <= 3)
  /\ (forall s,
        Config.pcie_sim_pattern_to_string
          (Config.pcie_sim_parse_pattern (Some s)) = s
        \/ Config.pcie_sim_parse_pattern (Some s)
           = Config.PCIE_SIM_PATTERN_MIXED)
  /\ (forall s,
        Config.pcie_sim_error_scenario_to_string
          (Config.pcie_sim_parse_error_scenario (Some s)) = s
        \/ Config.pcie_sim_parse_error_scenario (Some s)
           = Config.PCIE_SIM_ERROR_SCENARIO_NONE)
  /\ (forall v, ~ 0 <= v <= 3 ->
        Config.pcie_sim_parse_pattern (Some (Config.pcie_sim_pattern_to_string v))
        = Config.PCIE_SIM_PATTERN_MIXED
        /\ Config.pcie_sim_parse_error_scenario
             (Some (Config.pcie_sim_error_scenario_to_string v))
           = Config.PCIE_SIM_ERROR_SCENARIO_NONE)
  /\ Config.pcie_sim_parse_pattern None = Config.PCIE_SIM_PATTERN_MIXED
  /\ Config.pcie_sim_parse_error_scenario None
     = Config.PCIE_SIM_ERROR_SCENARIO_NONE.
Proof.
  assert (Hcases : forall v, 0 <= v <= 3 -> v = 0 \/ v = 1 \/ v = 2 \/ v = 3)
    by (intros; lia).
  assert (Hunk : forall v, ~ 0 <= v <= 3 ->
            Config.pcie_sim_pattern_to_string v = "unknown"
            /\ Config.pcie_sim_error_scenario_to_string v = "unknown").
  { intros v Hv. unfold Config.pcie_sim_pattern_to_string,
      Config.pcie_sim_error_scenario_to_string,
      Config.PCIE_SIM_PATTERN_SMALL_FAST, Config.PCIE_SIM_PATTERN_LARGE_BURST,
      Config.PCIE_SIM_PATTERN_MIXED, Config.PCIE_SIM_PATTERN_CUSTOM,
      Config.PCIE_SIM_ERROR_SCENARIO_NONE, Config.PCIE_SIM_ERROR_SCENARIO_TIMEOUT,
      Config.PCIE_SIM_ERROR_SCENARIO_CORRUPTION,
      Config.PCIE_SIM_ERROR_SCENARIO_OVERRUN.
    replace (v =? 0) with false by lia. replace (v =? 1) with false by lia.
    replace (v =? 2) with false by lia. replace (v =? 3) with false by lia.
    split; reflexivity. }
  split; [| split; [| split; [| split; [| split; [| split; [| split]]]]]].
  - intros p Hp. destruct (Hcases p Hp) as [-> | [-> | [-> | ->]]]; reflexivity.
  - intros sc Hs. destruct (Hcases sc Hs) as [-> | [-> | [-> | ->]]]; reflexivity.
  - intros [s |]; [| split; vm_compute; split; discriminate].
    unfold Config.pcie_sim_parse_pattern, Config.pcie_sim_parse_error_scenario.
    split.
    + destruct (String.eqb s "small-fast"); [vm_compute; split; discriminate |].
      destruct (String.eqb s "large-burst"); [vm_compute; split; discriminate |].
      destruct (String.eqb s "mixed"); [vm_compute; split; discriminate |].
      destruct (String.eqb s "custom"); vm_compute; split; discriminate.
    + destruct (String.eqb s "timeout"); [vm_compute; split; discriminate |].
      destruct (String.eqb s "corruption"); [vm_compute; split; discriminate |].
      destruct (String.eqb s "overrun"); [vm_compute; split; discriminate |].
      destruct (String.eqb s "none"); vm_compute; split; discriminate.
  - intros s. unfold Config.pcie_sim_parse_pattern.
    destruct (String.eqb_spec s "small-fast") as [-> | _]; [left; reflexivity |].
    destruct (String.eqb_spec s "large-burst") as [-> | _]; [left; reflexivity |].
    destruct (String.eqb_spec s "mixed") as [-> | _]; [left; reflexivity |].
    destruct (String.eqb_spec s "custom") as [-> | _]; [left; reflexivity |].
    right. reflexivity.
  - intros s. unfold Config.pcie_sim_parse_error_scenario.
    destruct (String.eqb_spec s "timeout") as [-> | _]; [left; reflexivity |].
    destruct (String.eqb_spec s "corruption") as [-> | _]; [left; reflexivity |].
    destruct (String.eqb_spec s "overrun") as [-> | _]; [left; reflexivity |].
    destruct (String.eqb_spec s "none") as [-> | _]; [left; reflexivity |].
    right. reflexivity.
  - intros v Hv. destruct (Hunk v Hv) as [-> ->]. split; reflexivity.
  - reflexivity.
  - reflexivity.
Qed.

(** X28: the sizes that a valid configuration asks for against the
    three transfer paths.  Every size between [min_size] and
    [max_size] of a configuration that [pcie_sim_config_validate]
    accepts is taken by the Linux simulation, but the kernel path and
    the Windows simulation take it only up to 1 MiB and answer
    [-EINVAL] and the parameter error above that; of the sizes of the
    large-burst pattern (1 MiB to 4 MiB) they take the smallest one
    only. *)
Theorem config_sizes_against_transfer_limit
    (c : Config.pcie_sim_test_config) (size direction : Z) (mem : list Z)
    (t0 t1 : Z) :
  Config.pcie_sim_config_validate (Some c) = 0 ->
  Config.min_size (Config.transfer c) <= size
  <= Config.max_size (Config.transfer c) ->
  0 <= direction <= 1 ->
  let req := Dma.mk_req (Some mem) size direction 0 in
  let lin := LinuxSim.pcie_sim_transfer_linux linux_opened (Some linux_handle)
               (Some mem) size direction true t0 t1 in
  let win := WindowsSim.pcie_sim_transfer_impl windows_opened
               (Some windows_handle) (Some mem) size direction true true t0 t1 in
  64 <= size <= 4194304
  /\ t_err lin = PCIE_SIM_SUCCESS
  /\ (Dma.validate_transfer_request req = 0 <-> size <= 2 ^ 20)
  /\ (t_err win = PCIE_SIM_SUCCESS <-> size <= 2 ^ 20)
  /\ (2 ^ 20 < size ->
      Dma.validate_transfer_request req = - EINVAL
      /\ t_err win = PCIE_SIM_ERROR_PARAM
      /\ t_state win = windows_opened)
  /\ (Config.transfer c = Config.PCIE_SIM_PATTERN_LARGE_BURST_CONFIG ->
      (Dma.validate_transfer_request req = 0 <-> size = 2 ^ 20)).
Proof.
  intros Hv Hsz Hdir. apply config_validate_spec in Hv.
  destruct Hv as (_ & Hmin & _ & Hmax & _).
  assert (Hr : 64 <= size <= 4194304) by lia.
  cbn zeta. split; [exact Hr |].
  assert (Hk : Dma.validate_transfer_request (Dma.mk_req (Some mem) size direction 0)
               = if size >? 1024 * 1024 then - EINVAL else 0).
  { unfold Dma.validate_transfer_request, Dma.MIN_TRANSFER_SIZE,
      Dma.MAX_TRANSFER_SIZE. cbn [Dma.buffer Dma.size Dma.direction].
    replace (size <? 1) with false by lia.
    replace (direction >? 1) with false by lia.
    cbn [orb]. destruct (size >? 1024 * 1024); reflexivity. }
  assert (Hw : forall w, w = WindowsSim.pcie_sim_transfer_impl windows_opened
                 (Some windows_handle) (Some mem) size direction true true t0 t1 ->
               (size >? 1024 * 1024) = true ->
               t_err w = PCIE_SIM_ERROR_PARAM /\ t_state w = windows_opened).
  { intros w -> Hgt. unfold WindowsSim.pcie_sim_transfer_impl.
    replace (size =? 0) with false by lia. rewrite Hgt. cbn. split; reflexivity. }
  assert (Hw' : (size >? 1024 * 1024) = false ->
               t_err (WindowsSim.pcie_sim_transfer_impl windows_opened
                        (Some windows_handle) (Some mem) size direction true true
                        t0 t1) = PCIE_SIM_SUCCESS).
  { intros Hle. unfold WindowsSim.pcie_sim_transfer_impl.
    replace (size =? 0) with false by lia. rewrite Hle. reflexivity. }
  split.
  { unfold LinuxSim.pcie_sim_transfer_linux.
    replace (size =? 0) with false by lia. reflexivity. }
  rewrite Hk.
  destruct (Z.gtb_spec size (1024 * 1024)) as [Hgt | Hle].
  - destruct (Hw _ eq_refl eq_refl) as [He Hs]. rewrite He.
    split; [split; intros Hx; (discriminate Hx || lia) |].
    split; [split; intros Hx; (discriminate Hx || lia) |].
    split; [intros _; repeat split; assumption |].
    intros _. split; intros Hx; (discriminate Hx || lia).
  - rewrite (Hw' eq_refl).
    split; [split; intros Hx; (reflexivity || lia) |].
    split; [split; intros Hx; (reflexivity || lia) |].
    split; [intros Hx; lia |].
    intros Ht. rewrite Ht in Hsz. cbn in Hsz.
    split; intros Hx; (reflexivity || lia).
Qed.

Lemma config_sizes_against_transfer_limit_witness :
  Dma.validate_transfer_request
    (Dma.mk_req (Some (replicate 16 0)) 4194304 0 0) = - EINVAL.
Proof.
  exact (proj1 (proj1 (proj2 (proj2 (proj2 (proj2
           (config_sizes_against_transfer_limit
              (Config.mk_test_config 1 Config.PCIE_SIM_PATTERN_LARGE_BURST_CONFIG
                 (Config.mk_error_config 0 Config.f_0_0 0 0)
                 (Config.mk_stress_config 0 1 10 0)
                 (Config.mk_log_config String.EmptyString 1000 10000 4096) 0)
              4194304 0 (replicate 16 0) 0 100
              eq_refl ltac:(cbn; lia) ltac:(lia)))))) ltac:(lia))).
Defined.

(** * Sequences with rejected requests *)

Lemma linux_stats_snoc_rejected xs x :
  x_size x = 0 -> linux_stats (xs ++ [x]) = linux_stats xs.
Proof.
  intros Hz. unfold linux_stats. rewrite linux_run_snoc.
  unfold linux_transfer, LinuxSim.pcie_sim_transfer_linux. rewrite Hz.
  reflexivity.
Qed.

Lemma windows_stats_snoc_rejected xs x :
  x_size x = 0 \/ 1024 * 1024 < x_size x ->
  windows_stats (xs ++ [x]) = windows_stats xs.
Proof.
  intros Hz. unfold windows_stats. rewrite windows_run_snoc.
  unfold windows_transfer, WindowsSim.pcie_sim_transfer_impl.
  replace ((x_size x =? 0) || (x_size x >? 1024 * 1024)) with true
    by (symmetry; apply orb_true_iff; lia).
  reflexivity.
Qed.

Lemma mixed_run_counters xs :
  forallb (fun x => 0 <=? x_size x) xs = true ->
  Z.of_nat (length xs) < 2 ^ 64 ->
  total_errors (linux_stats xs) = 0
  /\ total_errors (windows_stats xs) = 0
  /\ 0 <= total_errors (kernel_stats xs)
  /\ 0 <= total_transfers (kernel_stats xs)
  /\ total_transfers (kernel_stats xs) + total_errors (kernel_stats xs)
     = Z.of_nat (length xs)
  /\ total_transfers (kernel_stats xs) <= total_transfers (windows_stats xs)
  /\ total_transfers (windows_stats xs) <= total_transfers (linux_stats xs)
  /\ total_transfers (linux_stats xs) <= Z.of_nat (length xs).
Proof.
  induction xs as [| x xs IH] using rev_ind; intros Hsz Hlen.
  - rewrite kernel_stats_nil, linux_stats_nil, windows_stats_nil. cbn.
    repeat split; lia.
  - apply forallb_snoc in Hsz as [Hsz Hx]. apply Z.leb_le in Hx.
    rewrite length_app in Hlen |- *. cbn [length] in Hlen |- *.
    destruct (IH Hsz ltac:(lia)) as (Hle & Hwe & Hke0 & Hkt0 & Hsum & Hkw & Hwl & Hll).
    (* the kernel call *)
    assert (Hk : (Dma.r_ret (kernel_transfer (kernel_run xs) x) = 0
                  /\ 1 <= x_size x <= 2 ^ 20
                  /\ total_transfers (kernel_stats (xs ++ [x]))
                     = total_transfers (kernel_stats xs) + 1
                  /\ total_errors (kernel_stats (xs ++ [x]))
                     = total_errors (kernel_stats xs))
                 \/ (total_transfers (kernel_stats (xs ++ [x]))
                     = total_transfers (kernel_stats xs)
                     /\ total_errors (kernel_stats (xs ++ [x]))
                        = total_errors (kernel_stats xs) + 1)).
    { unfold kernel_stats in *. rewrite kernel_run_snoc.
      pose proof (dma_transfer_cases (kernel_run xs) (kernel_request x) true
                    (x_t0 x) (x_t1 x)) as Hc.
      pose proof (dma_success_size (kernel_run xs) (kernel_request x) true
                    (x_t0 x) (x_t1 x)) as Hs.
      cbn zeta in Hc. fold (kernel_transfer (kernel_run xs) x) in Hc, Hs.
      destruct Hc as [(Hret & Hst & _) | (_ & Hst & _)].
      - left. specialize (Hs Hret). cbn [kernel_request Dma.size] in Hs.
        rewrite Hst. unfold Dma.update_transfer_stats.
        cbn [Dma.stats Dma.set_stats total_transfers total_errors].
        rewrite wrap64_small by lia. repeat split; (assumption || lia).
      - right. rewrite Hst. unfold count_error.
        cbn [total_transfers total_errors].
        rewrite wrap64_small by lia. split; reflexivity. }
    (* the two simulations *)
    assert (Hl : (1 <= x_size x
                  /\ total_transfers (linux_stats (xs ++ [x]))
                     = total_transfers (linux_stats xs) + 1
                  /\ total_errors (linux_stats (xs ++ [x])) = 0)
                 \/ (x_size x = 0 /\ linux_stats (xs ++ [x]) = linux_stats xs)).
    { destruct (Z.eq_dec (x_size x) 0) as [Hz | Hnz].
      - right. split; [exact Hz | apply linux_stats_snoc_rejected; exact Hz].
      - left. rewrite linux_stats_snoc by exact Hnz.
        unfold LinuxSim.update_stats. cbn zeta.
        rewrite (wrap64_small (_ + 1)) by lia.
        destruct (_ =? 1); cbn [total_transfers total_errors];
          repeat split; (assumption || lia). }
    assert (Hw : (1 <= x_size x <= 2 ^ 20
                  /\ total_transfers (windows_stats (xs ++ [x]))
                     = total_transfers (windows_stats xs) + 1
                  /\ total_errors (windows_stats (xs ++ [x])) = 0)
                 \/ ((x_size x = 0 \/ 2 ^ 20 < x_size x)
                     /\ windows_stats (xs ++ [x]) = windows_stats xs)).
    { destruct (Z_le_dec 1 (x_size x)) as [H1 | H1];
        [destruct (Z_le_dec (x_size x) (2 ^ 20)) as [H2 | H2] |].
      - left. rewrite windows_stats_snoc by lia.
        unfold WindowsSim.update_stats. cbn zeta.
        cbn [total_transfers total_errors].
        rewrite (wrap64_small (_ + 1)) by lia. repeat split; (assumption || lia).
      - right. split; [lia | apply windows_stats_snoc_rejected; lia].
      - right. split; [lia | apply windows_stats_snoc_rejected; lia]. }
    destruct Hk as [(_ & Hks & Hkt & Hke) | (Hkt & Hke)];
      destruct Hl as [(Hls & Hlt & Hle') | (Hls & Hlst)];
      destruct Hw as [(Hws & Hwt & Hwe') | (Hws & Hwst)];
      rewrite ?Hlst, ?Hwst, ?Hkt, ?Hke, ?Hlt, ?Hwt; repeat split; lia.
Qed.

(** X29: after any sequence of fewer than 2^64 transfer calls, valid or
    not, the two simulations still report [total_errors = 0]: they
    never count an error.  On the kernel path every call is counted
    once, as a transfer or as an error, so [total_transfers +
    total_errors] is the number of calls.  A request that the kernel
    path carries out is carried out by the Windows simulation, and one
    that the Windows simulation carries out by the Linux simulation, so
    the transfer counts are ordered kernel <= Windows <= Linux <=
    calls. *)
Theorem errors_counted_by_kernel_only (xs : list transfer) :
  forallb (fun x => 0 <=? x_size x) xs = true ->
  Z.of_nat (length xs) < 2 ^ 64 ->
  total_errors (linux_stats xs) = 0
  /\ total_errors (windows_stats xs) = 0
  /\ total_transfers (kernel_stats xs) + total_errors (kernel_stats xs)
     = Z.of_nat (length xs)
  /\ total_transfers (kernel_stats xs) <= total_transfers (windows_stats xs)
  /\ total_transfers (windows_stats xs) <= total_transfers (linux_stats xs)
  /\ total_transfers (linux_stats xs) <= Z.of_nat (length xs).
Proof.
  intros Hsz Hlen.
  destruct (mixed_run_counters xs Hsz Hlen) as (H1 & H2 & _ & _ & H3 & H4 & H5 & H6).
  repeat split; assumption.
Qed.

Lemma errors_counted_by_kernel_only_witness :
  total_errors (linux_stats [sample_1; mk_transfer 0 0 0 5;
                             mk_transfer 4194304 1 5 9; mk_transfer 64 7 9 12])
  = 0
  /\ total_transfers (kernel_stats [sample_1; mk_transfer 0 0 0 5;
                                    mk_transfer 4194304 1 5 9;
                                    mk_transfer 64 7 9 12])
     + total_errors (kernel_stats [sample_1; mk_transfer 0 0 0 5;
                                   mk_transfer 4194304 1 5 9;
                                   mk_transfer 64 7 9 12]) = 4.
Proof.
  destruct (errors_counted_by_kernel_only
              [sample_1; mk_transfer 0 0 0 5; mk_transfer 4194304 1 5 9;
               mk_transfer 64 7 9 12] eq_refl ltac:(cbn; lia))
    as (H1 & _ & H3 & _).
  split; [exact H1 | exact H3].
Defined.
